(** * Exception-handling workflow: orchestration, pipeline builder and stage clients

    A shallow embedding of the orchestration code of the delivery-exception
    system:

    - [workflow_api.run_workflow]: the HTTP orchestrator calling the four
      agents in turn;
    - [langgraph_agents.create_exception_workflow]: the builder of the
      linear agent graph, with [create_sop_retrieval_agent] and
      [DecisionAgent.__init__];
    - [ClassificationAgent.classify], [decision_api.make_decision],
      [DecisionAgent.make_decision]: stage clients;
    - [action_executor_api.execute_actions] and
      [ActionExecutorAgent.execute_actions]: the action executor;
    - [GoogleSheetsAgent.execute] and the rows of the operational log;
    - [SOPRetrievalAgent.retrieve_sops], [SOPRetrievalAgentWrapper.retrieve_sop]
      and [sop_retrieval_api.retrieve_sops]: the SOP retrieval;
    - [ExceptionClassifier.predict], [run_inference] and
      [api.predict_exception]: the classifier and its service.

    Python values that arrive as JSON are kept as JSON; exceptions are
    values of [exn]; a function that may raise while mutating local or
    shared state is a computation in the state-and-exception monad [M].

    A [str] is kept as the bytes of its UTF-8 encoding: equality, prefixes
    and concatenation are those of the bytes, while lengths, slices and the
    white space removed by [strip] count code points ([py_len],
    [take_chars], [lstrip], [rstrip]). *)

From Stdlib Require Import String List ZArith QArith Bool Lia DecimalString.
From Stdlib Require Import RelationClasses Permutation Sorted.
Import ListNotations.
Open Scope string_scope.
Open Scope Z_scope.
Set Warnings "-register-all".

(** ** Numbers

    A Python float is a finite double, kept as the rational it stands
    for, or one of the three values that are not finite: [json.loads]
    returns [inf] for [1e999] and accepts [Infinity] and [NaN]. *)

Inductive pyfloat : Type :=
| Finite (q : Q)
| Inf
| NegInf
| NaN.

Coercion Finite : Q >-> pyfloat.
Bind Scope Q_scope with pyfloat.

(** An int has any size; [float(n)] and the fixed-point formats raise
    [OverflowError] for an int that rounds to 2^1024 or beyond. *)
Definition float_limit : Z := 2 ^ 1024 - 2 ^ 970.

Definition fits_float (z : Z) : bool := Z.abs z <? float_limit.

(** ** JSON values as Python sees them after [json.loads] / [resp.json()] *)

Inductive json : Type :=
| JNull                                   (* None *)
| JBool (b : bool)
| JInt (z : Z)                            (* int *)
| JFloat (x : pyfloat)                    (* float *)
| JStr (s : string)
| JArr (items : list json)
| JObj (fields : list (string * json)).   (* dict, in insertion order *)

(** No float inside the value is [inf], [-inf] or [nan]. *)
Fixpoint finite_json (v : json) : bool :=
  match v with
  | JFloat (Finite _) => true
  | JFloat _ => false
  | JArr items => forallb finite_json items
  | JObj fields => forallb (fun kv => finite_json (snd kv)) fields
  | _ => true
  end.

(** A Python dict with string keys: association list, first binding wins. *)
Definition pydict := list (string * json).

Fixpoint dict_lookup (k : string) (d : pydict) : option json :=
  match d with
  | [] => None
  | (k', v) :: d' => if String.eqb k k' then Some v else dict_lookup k d'
  end.

(** [k in d] *)
Definition dict_mem (k : string) (d : pydict) : bool :=
  match dict_lookup k d with Some _ => true | None => false end.

(** [d[k] = v]: overwrite in place, or append a new key at the end. *)
Fixpoint dict_set (k : string) (v : json) (d : pydict) : pydict :=
  match d with
  | [] => [(k, v)]
  | (k', v') :: d' =>
      if String.eqb k k' then (k', v) :: d' else (k', v') :: dict_set k v d'
  end.

(** [d.get(k, default)] on a dict *)
Definition dict_get (k : string) (default : json) (d : pydict) : json :=
  match dict_lookup k d with Some v => v | None => default end.

(** Python truthiness, as used by [if x], [x or y], [x and y]. *)
Definition truthy (v : json) : bool :=
  match v with
  | JNull => false
  | JBool b => b
  | JInt z => negb (z =? 0)
  | JFloat (Finite q) => negb (Qnum q =? 0)
  | JFloat _ => true
  | JStr s => negb (String.eqb s "")
  | JArr l => match l with [] => false | _ => true end
  | JObj d => match d with [] => false | _ => true end
  end.

(** ** Text

    The bytes of a code point are a lead byte and the continuation bytes
    (10xxxxxx) that follow it. *)

Definition byte (c : Ascii.ascii) : nat := Ascii.nat_of_ascii c.

Definition is_continuation (c : Ascii.ascii) : bool :=
  (Nat.leb 128 (byte c) && Nat.ltb (byte c) 192)%bool.

(** [len(s)] *)
Fixpoint py_len (s : string) : nat :=
  match s with
  | EmptyString => O
  | String c s' => if is_continuation c then py_len s' else S (py_len s')
  end.

(** [s[:n]] *)
Fixpoint take_chars (n : nat) (s : string) : string :=
  match s with
  | EmptyString => EmptyString
  | String c s' =>
      if is_continuation c then String c (take_chars n s')
      else match n with
           | O => EmptyString
           | S n' => String c (take_chars n' s')
           end
  end.

Fixpoint skip_continuation (s : string) : string :=
  match s with
  | String c s' => if is_continuation c then skip_continuation s' else s
  | EmptyString => EmptyString
  end.

(** [s[n:]] *)
Fixpoint drop_chars (n : nat) (s : string) : string :=
  match n with
  | O => s
  | S n' => match s with
            | EmptyString => EmptyString
            | String _ s' => drop_chars n' (skip_continuation s')
            end
  end.

(** [list(s)]: the characters of [s] *)
Definition continues (s : string) : bool :=
  match s with
  | String c _ => is_continuation c
  | EmptyString => false
  end.

Fixpoint code_points (s : string) : list string :=
  match s with
  | EmptyString => []
  | String c s' =>
      match code_points s' with
      | p :: ps =>
          if continues s' then String c p :: ps
          else String c EmptyString :: p :: ps
      | [] => [String c EmptyString]
      end
  end.

(** The white space [str.strip()] removes, by the length of its encoding:
    U+0009..U+000D, U+001C..U+001F and U+0020; U+0085 and U+00A0; U+1680,
    U+2000..U+200A, U+2028, U+2029, U+202F, U+205F and U+3000. *)
Definition is_space (c : Ascii.ascii) : bool :=
  let n := byte c in
  (Nat.eqb n 32 || (Nat.leb 9 n && Nat.leb n 13) || (Nat.leb 28 n && Nat.leb n 31))%bool.

Definition is_space2 (c1 c2 : Ascii.ascii) : bool :=
  (Nat.eqb (byte c1) 194 && (Nat.eqb (byte c2) 133 || Nat.eqb (byte c2) 160))%bool.

Definition is_space3 (c1 c2 c3 : Ascii.ascii) : bool :=
  ((Nat.eqb (byte c1) 225 && Nat.eqb (byte c2) 154 && Nat.eqb (byte c3) 128)
   || (Nat.eqb (byte c1) 226 && Nat.eqb (byte c2) 128
       && ((Nat.leb 128 (byte c3) && Nat.leb (byte c3) 138)
           || Nat.eqb (byte c3) 168 || Nat.eqb (byte c3) 169
           || Nat.eqb (byte c3) 175))
   || (Nat.eqb (byte c1) 226 && Nat.eqb (byte c2) 129 && Nat.eqb (byte c3) 159)
   || (Nat.eqb (byte c1) 227 && Nat.eqb (byte c2) 128 && Nat.eqb (byte c3) 128))%bool.

Fixpoint lstrip (s : string) : string :=
  match s with
  | EmptyString => EmptyString
  | String c1 s1 =>
      if is_space c1 then lstrip s1
      else match s1 with
           | EmptyString => s
           | String c2 s2 =>
               if is_space2 c1 c2 then lstrip s2
               else match s2 with
                    | EmptyString => s
                    | String c3 s3 =>
                        if is_space3 c1 c2 c3 then lstrip s3 else s
                    end
           end
  end.

Fixpoint rev_string (s : string) : string :=
  match s with
  | EmptyString => EmptyString
  | String c s' => rev_string s' ++ String c EmptyString
  end.

(** [lstrip] on the reversed bytes: the white space at the end of a
    string, read backwards. *)
Fixpoint lstrip_reversed (s : string) : string :=
  match s with
  | EmptyString => EmptyString
  | String c1 s1 =>
      if is_space c1 then lstrip_reversed s1
      else match s1 with
           | EmptyString => s
           | String c2 s2 =>
               if is_space2 c2 c1 then lstrip_reversed s2
               else match s2 with
                    | EmptyString => s
                    | String c3 s3 =>
                        if is_space3 c3 c2 c1 then lstrip_reversed s3 else s
                    end
           end
  end.

Definition rstrip (s : string) : string :=
  rev_string (lstrip_reversed (rev_string s)).

Definition strip (s : string) : string := rstrip (lstrip s).

Definition startswith (p s : string) : bool := String.prefix p s.

Definition endswith (p s : string) : bool :=
  (Nat.leb (String.length p) (String.length s)
   && String.eqb (String.substring (String.length s - String.length p)
                    (String.length p) s) p)%bool.

(** [s[n:]] and [s[:-n]] where the [n] characters removed are ASCII: the
    code takes them off after [startswith] and [endswith]. *)
Definition drop (n : nat) (s : string) : string :=
  String.substring n (String.length s - n) s.
Definition drop_last (n : nat) (s : string) : string :=
  String.substring 0 (String.length s - n) s.

(** ** Exceptions *)

Inductive exn : Type :=
| HTTPException (status_code : Z) (detail : string)
| RequestError (msg : string)   (* httpx.RequestError, requests.RequestException *)
| KeyError (key : string)
| IndexError
| TypeError
| ValueError                    (* includes json.JSONDecodeError *)
| OverflowError
| AttributeError
| SyntaxError
| ValidationError               (* pydantic *)
| PyException (msg : string).   (* Exception(msg), or one of an outside library *)

Definition is_request_error (e : exn) : bool :=
  match e with RequestError _ => true | _ => false end.

(** [str(e)] where the code interpolates it; the wording of the messages
    of the built-in exceptions is not kept. *)
Definition str_exn (e : exn) : string :=
  match e with
  | HTTPException _ d => d
  | RequestError m => m
  | KeyError k => "'" ++ k ++ "'"
  | IndexError => "list index out of range"
  | TypeError => "TypeError"
  | ValueError => "ValueError"
  | OverflowError => "int too large to convert to float"
  | AttributeError => "AttributeError"
  | SyntaxError => "invalid syntax"
  | ValidationError => "validation error"
  | PyException m => m
  end.

Inductive result (A : Type) : Type :=
| Ok (a : A)
| Raise (e : exn).
Arguments Ok {A} a.
Arguments Raise {A} e.

(** ** State-and-exception monad

    A raise keeps the state reached so far: assignments made before the
    exception stay visible to the handler and to the code after it, as in
    Python. *)

Definition M (S A : Type) : Type := S -> S * result A.

Definition ret {S A} (a : A) : M S A := fun s => (s, Ok a).

Definition bind {S A B} (m : M S A) (k : A -> M S B) : M S B :=
  fun s => match m s with
           | (s', Ok a) => k a s'
           | (s', Raise e) => (s', Raise e)
           end.

Definition raise {S A} (e : exn) : M S A := fun s => (s, Raise e).

Definition lift {S A} (r : result A) : M S A := fun s => (s, r).

Definition modify {S} (f : S -> S) : M S unit := fun s => (f s, Ok tt).

Definition gets {S A} (f : S -> A) : M S A := fun s => (s, Ok (f s)).

(** [try: body except <clauses>]: [handler e] is [Some k] when a clause
    matches [e] (and [k] is its body), [None] when no clause matches and
    the exception propagates. *)
Definition try_except {S A} (body : M S A) (handler : exn -> option (M S A))
  : M S A :=
  fun s => match body s with
           | (s', Ok a) => (s', Ok a)
           | (s', Raise e) =>
               match handler e with
               | Some k => k s'
               | None => (s', Raise e)
               end
           end.

Declare Scope py_scope.
Delimit Scope py_scope with py.
Notation "x <- m ;; k" := (bind m (fun x => k))
  (at level 61, m at next level, right associativity) : py_scope.
Notation "m ;; k" := (bind m (fun _ => k))
  (at level 61, right associativity) : py_scope.
Open Scope py_scope.

(** ** Python operations on JSON values that may raise *)

(** [v[k]] with a string key *)
Definition getitem (v : json) (k : string) : result json :=
  match v with
  | JObj d => match dict_lookup k d with
              | Some x => Ok x
              | None => Raise (KeyError k)
              end
  | _ => Raise TypeError
  end.

(** [v.get(k, default)] *)
Definition get (v : json) (k : string) (default : json) : result json :=
  match v with
  | JObj d => Ok (dict_get k default d)
  | _ => Raise AttributeError
  end.

(** [len(v) > 0] *)
Definition len_positive (v : json) : result bool :=
  match v with
  | JStr s => Ok (negb (String.eqb s ""))
  | JArr l => Ok (match l with [] => false | _ => true end)
  | JObj d => Ok (match d with [] => false | _ => true end)
  | _ => Raise TypeError
  end.

(** [v[0]] *)
Definition getitem0 (v : json) : result json :=
  match v with
  | JArr (x :: _) => Ok x
  | JArr [] => Raise IndexError
  | JStr EmptyString => Raise IndexError
  | JStr s => Ok (JStr (take_chars 1 s))
  | JObj _ => Raise (KeyError "0")
  | _ => Raise TypeError
  end.

(** [f"{v:.4f}"], [f"{v:.2f}"] and [f"{v:.2%}"]: the fixed-point and
    percent formats accept float, int and bool and raise on everything
    else; an int is converted to a float first, which raises
    [OverflowError] beyond the range of the floats.  Only whether the
    format raises is kept; the text goes to standard output. *)
Definition format_f (v : json) : result unit :=
  match v with
  | JFloat _ | JBool _ => Ok tt
  | JInt z => if fits_float z then Ok tt else Raise OverflowError
  | JStr _ => Raise ValueError
  | _ => Raise TypeError
  end.

(** [v[:n]]: slicing works on strings and lists. *)
Definition slice_to (n : nat) (v : json) : result json :=
  match v with
  | JStr s => Ok (JStr (take_chars n s))
  | JArr l => Ok (JArr (firstn n l))
  | _ => Raise TypeError
  end.

(** [v[:n]] inside a print whose text is not kept. *)
Definition slice_ok (v : json) : result unit :=
  match slice_to 0 v with Ok _ => Ok tt | Raise e => Raise e end.

(** [len(v) > n] *)
Definition len_gt (n : nat) (v : json) : result bool :=
  match v with
  | JStr s => Ok (Nat.ltb n (py_len s))
  | JArr l => Ok (Nat.ltb n (List.length l))
  | JObj d => Ok (Nat.ltb n (List.length d))
  | _ => Raise TypeError
  end.

Definition rbind {A B} (r : result A) (k : A -> result B) : result B :=
  match r with Ok a => k a | Raise e => Raise e end.

Definition nl : string := String (Ascii.ascii_of_nat 10) EmptyString.

(** ** Model validation (pydantic)

    The models of the services are pydantic classes.  What a field type
    accepts beyond values of exactly that type (coercions) depends on the
    library version, which the repository does not pin; the interface
    below keeps only what every version guarantees: a value that already
    has the declared type is accepted unchanged. *)

Class Pydantic : Type := {
  v_str : json -> option string;            (* field: str *)
  v_float : json -> option pyfloat;         (* field: float *)
  v_bool : json -> option bool;             (* field: bool *)
  v_dicts : json -> option (list pydict);   (* field: List[Dict[str, Any]] *)
  v_str_exact : forall s, v_str (JStr s) = Some s;
  v_float_exact : forall x, v_float (JFloat x) = Some x;
  v_bool_exact : forall b, v_bool (JBool b) = Some b;
  v_dicts_exact : forall l, v_dicts (JArr (map JObj l)) = Some l
}.

(** Field of type [Optional[T]]: [None] is accepted as such. *)
Definition v_optional {A} (v : json -> option A) (x : json) : option (option A) :=
  match x with
  | JNull => Some None
  | _ => match v x with Some a => Some (Some a) | None => None end
  end.

(** The validation that accepts exactly the declared types. *)
Definition strict_str (x : json) : option string :=
  match x with JStr s => Some s | _ => None end.
Definition strict_float (x : json) : option pyfloat :=
  match x with JFloat f => Some f | _ => None end.
Definition strict_bool (x : json) : option bool :=
  match x with JBool b => Some b | _ => None end.
Definition strict_dict (x : json) : option pydict :=
  match x with JObj d => Some d | _ => None end.
Fixpoint strict_all {A} (f : json -> option A) (l : list json) : option (list A) :=
  match l with
  | [] => Some []
  | x :: l' => match f x, strict_all f l' with
               | Some a, Some r => Some (a :: r)
               | _, _ => None
               end
  end.
Definition strict_dicts (x : json) : option (list pydict) :=
  match x with JArr l => strict_all strict_dict l | _ => None end.

(** ** HTTP as the clients see it *)

Record Response : Type := {
  status_code : Z;
  text : string;            (* resp.text *)
  body : option json        (* resp.json(); [None]: the body is not JSON *)
}.

Definition json_of (r : Response) : result json :=
  match body r with Some v => Ok v | None => Raise ValueError end.

Inductive post_outcome : Type :=
| Responds (r : Response)
| Throws (e : exn).       (* timeouts and connection errors are [RequestError] *)

(** The collaborators behind the URLs: what a POST of a payload yields. *)
Definition network : Type := string -> json -> post_outcome.

(** ** The JSON encoders of the HTTP clients

    [httpx] and [requests] serialise the [json=] payload before anything
    is sent.  A payload without [inf], [-inf] and [nan] is always
    serialised.  One that holds such a float is sent as it is by the older
    versions of the libraries and refused by the newer ones, which raise
    instead: [ValueError] from httpx, [InvalidJSONError] (a
    [RequestException]) from requests.  The repository pins no version,
    so the interface keeps what every version does. *)

Class Clients : Type := {
  httpx_encodes : json -> bool;
  requests_encodes : json -> bool;
  httpx_encodes_finite :
    forall p, finite_json p = true -> httpx_encodes p = true;
  requests_encodes_finite :
    forall p, finite_json p = true -> requests_encodes p = true
}.

Record call : Type := { url : string; payload : json }.

Definition num (z : Z) : json := JInt z.

(** [str(n)] of an int *)
Definition str_of_Z (z : Z) : string := NilZero.string_of_int (Z.to_int z).

(** * workflow_api.py *)

Module workflow_api.

Record AgentUrls : Type := {
  AGENT1_URL : string; AGENT2_URL : string;
  AGENT3_URL : string; AGENT4_URL : string
}.

Record WorkflowRequest : Type := {
  driver_note : string;
  gps_deviation_km : pyfloat;
  weather_condition : string;
  attempts : Z;
  hub_delay_minutes : Z;
  package_scan_result : string;
  time_of_day : string
}.

Record DecisionOutput : Type := {
  recommended_action : string;
  driver_instruction : string;
  customer_message : string;
  requires_escalation : bool;
  confidence : pyfloat;
  reasoning_summary : string
}.

Record ActionOutput : Type := {
  sheet_updated : bool;
  email_simulated : bool;
  escalated : bool;
  timestamp : string
}.

Record WorkflowResponse : Type := {
  wr_predicted_label : string;
  wr_confidence : pyfloat;
  wr_top_predictions : list pydict;
  wr_sop_retrieved : bool;
  wr_sop_content : option string;
  wr_sop_score : option pyfloat;
  wr_sop_id : option string;
  wr_decision : option DecisionOutput;
  wr_action : option ActionOutput;
  wr_agents_executed : list string;
  wr_status : string
}.

(** The local variables of [run_workflow] that are assigned inside [try]
    blocks and read after them, with the requests sent so far. *)
Record frame : Type := {
  requests : list call;
  agents_executed : list string;
  sop_retrieved : bool;
  sop_content : json;
  sop_score : json;
  sop_id : json;
  decision : option DecisionOutput;
  decision_dict : json;
  action : option ActionOutput
}.

Definition frame0 : frame :=
  {| requests := []; agents_executed := []; sop_retrieved := false;
     sop_content := JNull; sop_score := JNull; sop_id := JNull;
     decision := None; decision_dict := JNull; action := None |}.

Definition sent (c : call) (f : frame) : frame :=
  {| requests := requests f ++ [c]; agents_executed := agents_executed f;
     sop_retrieved := sop_retrieved f; sop_content := sop_content f;
     sop_score := sop_score f; sop_id := sop_id f; decision := decision f;
     decision_dict := decision_dict f; action := action f |}.

Definition executed (name : string) (f : frame) : frame :=
  {| requests := requests f; agents_executed := agents_executed f ++ [name];
     sop_retrieved := sop_retrieved f; sop_content := sop_content f;
     sop_score := sop_score f; sop_id := sop_id f; decision := decision f;
     decision_dict := decision_dict f; action := action f |}.

Definition set_sop (found : bool) (content score id : json) (f : frame) : frame :=
  {| requests := requests f; agents_executed := agents_executed f;
     sop_retrieved := found; sop_content := content;
     sop_score := score; sop_id := id; decision := decision f;
     decision_dict := decision_dict f; action := action f |}.

Definition set_decision (d : option DecisionOutput) (f : frame) : frame :=
  {| requests := requests f; agents_executed := agents_executed f;
     sop_retrieved := sop_retrieved f; sop_content := sop_content f;
     sop_score := sop_score f; sop_id := sop_id f; decision := d;
     decision_dict := decision_dict f; action := action f |}.

Definition set_decision_dict (d : json) (f : frame) : frame :=
  {| requests := requests f; agents_executed := agents_executed f;
     sop_retrieved := sop_retrieved f; sop_content := sop_content f;
     sop_score := sop_score f; sop_id := sop_id f; decision := decision f;
     decision_dict := d; action := action f |}.

Definition set_action (a : option ActionOutput) (f : frame) : frame :=
  {| requests := requests f; agents_executed := agents_executed f;
     sop_retrieved := sop_retrieved f; sop_content := sop_content f;
     sop_score := sop_score f; sop_id := sop_id f; decision := decision f;
     decision_dict := decision_dict f; action := a |}.

(** [await client.post(url, json=payload)]: when the client cannot
    encode the payload it raises and nothing is sent. *)
Definition post `{Clients} (net : network) (u : string) (p : json)
  : M frame Response :=
  fun f =>
    if httpx_encodes p then
      let f' := sent {| url := u; payload := p |} f in
      match net u p with
      | Responds r => (f', Ok r)
      | Throws e => (f', Raise e)
      end
    else (f, Raise ValueError).

Definition DecisionOutput_init `{Pydantic} (ra di cm re cf rs : json)
  : result DecisionOutput :=
  match v_str ra, v_str di, v_str cm, v_bool re, v_float cf, v_str rs with
  | Some ra', Some di', Some cm', Some re', Some cf', Some rs' =>
      Ok {| recommended_action := ra'; driver_instruction := di';
            customer_message := cm'; requires_escalation := re';
            confidence := cf'; reasoning_summary := rs' |}
  | _, _, _, _, _, _ => Raise ValidationError
  end.

Definition ActionOutput_init `{Pydantic} (su es esc ts : json)
  : result ActionOutput :=
  match v_bool su, v_bool es, v_bool esc, v_str ts with
  | Some su', Some es', Some esc', Some ts' =>
      Ok {| sheet_updated := su'; email_simulated := es';
            escalated := esc'; timestamp := ts' |}
  | _, _, _, _ => Raise ValidationError
  end.

Definition WorkflowResponse_init `{Pydantic}
    (predicted_label confidence top_predictions : json) (f : frame)
  : result WorkflowResponse :=
  match v_str predicted_label, v_float confidence, v_dicts top_predictions,
        v_optional v_str (sop_content f), v_optional v_float (sop_score f),
        v_optional v_str (sop_id f) with
  | Some pl, Some c, Some tp, Some sc, Some ss, Some si =>
      Ok {| wr_predicted_label := pl; wr_confidence := c;
            wr_top_predictions := tp;
            wr_sop_retrieved := sop_retrieved f;
            wr_sop_content := sc; wr_sop_score := ss; wr_sop_id := si;
            wr_decision := decision f; wr_action := action f;
            wr_agents_executed := agents_executed f;
            wr_status := "success" |}
  | _, _, _, _, _, _ => Raise ValidationError
  end.

Definition input_fields (data : WorkflowRequest) : pydict :=
  [ ("driver_note", JStr (driver_note data));
    ("gps_deviation_km", JFloat (gps_deviation_km data));
    ("weather_condition", JStr (weather_condition data));
    ("attempts", num (attempts data));
    ("hub_delay_minutes", num (hub_delay_minutes data));
    ("package_scan_result", JStr (package_scan_result data));
    ("time_of_day", JStr (time_of_day data)) ].

Definition agent1_payload (data : WorkflowRequest) : json :=
  JObj (input_fields data ++ [("top_k", num 3)]).

Definition agent2_payload (data : WorkflowRequest) (predicted_label : json) : json :=
  JObj [ ("exception_type", predicted_label);
         ("driver_note", JStr (driver_note data));
         ("num_results", num 1) ].

Definition agent3_payload (data : WorkflowRequest)
    (predicted_label confidence top_predictions sop_content : json) : json :=
  JObj ([ ("predicted_label", predicted_label);
          ("confidence", confidence);
          ("top_predictions", top_predictions) ]
        ++ input_fields data
        ++ [ ("sop_content", sop_content) ]).

Definition agent4_payload (data : WorkflowRequest)
    (predicted_label confidence top_predictions : json)
    (sop_retrieved : bool) (sop_id decision_dict : json) : json :=
  JObj (input_fields data
        ++ [ ("predicted_label", predicted_label);
             ("confidence", confidence);
             ("top_predictions", top_predictions);
             ("sop_retrieved", JBool sop_retrieved);
             ("sop_id", sop_id);
             ("decision", decision_dict) ]).

(** Agent 1: the only block whose failure is re-raised to the caller. *)
Definition call_agent1 `{Clients} (urls : AgentUrls) (net : network)
    (data : WorkflowRequest) : M frame json :=
  try_except
    (resp1 <- post net (AGENT1_URL urls ++ "/predict") (agent1_payload data) ;;
     if negb (status_code resp1 =? 200) then
       raise (HTTPException 502
                ("Agent 1 (Classification) failed: " ++ text resp1))
     else
       agent1_result <- lift (json_of resp1) ;;
       modify (executed "agent1_classification") ;;
       (* print(f"... {agent1_result['predicted_label']}
                     ({agent1_result['confidence']:.4f})") *)
       lift (getitem agent1_result "predicted_label") ;;
       c <- lift (getitem agent1_result "confidence") ;;
       lift (format_f c) ;;
       ret agent1_result)
    (fun e =>
       if is_request_error e then
         Some (raise (HTTPException 503
                 ("Agent 1 (Classification) unavailable: " ++ str_exn e)))
       else None).

(** Agent 2: only [httpx.RequestError] is caught. *)
Definition call_agent2 `{Clients} (urls : AgentUrls) (net : network)
    (data : WorkflowRequest) (agent1_result : json) : M frame unit :=
  predicted_label <- lift (getitem agent1_result "predicted_label") ;;
  modify (set_sop false JNull JNull JNull) ;;
  try_except
    (resp2 <- post net (AGENT2_URL urls ++ "/retrieve")
                (agent2_payload data predicted_label) ;;
     if status_code resp2 =? 200 then
       agent2_result <- lift (json_of resp2) ;;
       modify (executed "agent2_sop_retrieval") ;;
       sops <- lift (get agent2_result "sops" JNull) ;;
       nonempty <- (if truthy sops then
                      sops' <- lift (getitem agent2_result "sops") ;;
                      lift (len_positive sops')
                    else ret false) ;;
       if (nonempty : bool) then
         sops' <- lift (getitem agent2_result "sops") ;;
         sop <- lift (getitem0 sops') ;;
         modify (set_sop true JNull JNull JNull) ;;
         content <- lift (get sop "content" JNull) ;;
         modify (set_sop true content JNull JNull) ;;
         score <- lift (get sop "score" JNull) ;;
         modify (set_sop true content score JNull) ;;
         id <- lift (get sop "datapoint_id" JNull) ;;
         modify (set_sop true content score id) ;;
         (* print(f"   Retrieved SOP: {sop_id} (score: {sop_score:.4f})") *)
         lift (format_f score)
       else ret tt
     else ret tt)
    (fun e => if is_request_error e then Some (ret tt) else None).

(** Agent 3: [except httpx.RequestError] and [except Exception]. *)
Definition call_agent3 `{Pydantic} `{Clients} (urls : AgentUrls) (net : network)
    (data : WorkflowRequest) (agent1_result : json) : M frame unit :=
  modify (set_decision None) ;;
  modify (set_decision_dict JNull) ;;
  predicted_label <- lift (getitem agent1_result "predicted_label") ;;
  confidence <- lift (getitem agent1_result "confidence") ;;
  top_predictions <- lift (get agent1_result "top_predictions" (JArr [])) ;;
  sop_content <- gets sop_content ;;
  try_except
    (resp3 <- post net (AGENT3_URL urls ++ "/decide")
                (agent3_payload data predicted_label confidence
                   top_predictions sop_content) ;;
     if status_code resp3 =? 200 then
       agent3_result <- lift (json_of resp3) ;;
       modify (executed "agent3_decision") ;;
       dd <- lift (get agent3_result "decision" (JObj [])) ;;
       modify (set_decision_dict dd) ;;
       ra <- lift (get dd "recommended_action" (JStr "")) ;;
       di <- lift (get dd "driver_instruction" (JStr "")) ;;
       cm <- lift (get dd "customer_message" (JStr "")) ;;
       re <- lift (get dd "requires_escalation" (JBool false)) ;;
       cf <- lift (get dd "confidence" (JFloat 0)) ;;
       rs <- lift (get dd "reasoning_summary" (JStr "")) ;;
       d <- lift (DecisionOutput_init ra di cm re cf rs) ;;
       modify (set_decision (Some d))
     else ret tt)
    (fun _ => Some (ret tt)).

(** Agent 4: [except httpx.RequestError] and [except Exception]. *)
Definition call_agent4 `{Pydantic} `{Clients} (urls : AgentUrls) (net : network)
    (data : WorkflowRequest) (agent1_result : json) : M frame unit :=
  modify (set_action None) ;;
  predicted_label <- lift (getitem agent1_result "predicted_label") ;;
  confidence <- lift (getitem agent1_result "confidence") ;;
  top_predictions <- lift (get agent1_result "top_predictions" (JArr [])) ;;
  sop_retrieved <- gets sop_retrieved ;;
  sop_id <- gets sop_id ;;
  decision_dict <- gets decision_dict ;;
  try_except
    (resp4 <- post net (AGENT4_URL urls ++ "/execute")
                (agent4_payload data predicted_label confidence
                   top_predictions sop_retrieved sop_id decision_dict) ;;
     if status_code resp4 =? 200 then
       agent4_result <- lift (json_of resp4) ;;
       modify (executed "agent4_action") ;;
       su <- lift (get agent4_result "sheet_updated" (JBool false)) ;;
       es <- lift (get agent4_result "email_simulated" (JBool false)) ;;
       esc <- lift (get agent4_result "escalated" (JBool false)) ;;
       ts <- lift (get agent4_result "timestamp" (JStr "")) ;;
       a <- lift (ActionOutput_init su es esc ts) ;;
       modify (set_action (Some a))
     else ret tt)
    (fun _ => Some (ret tt)).

Definition build_response `{Pydantic} (agent1_result : json)
  : M frame WorkflowResponse :=
  predicted_label <- lift (getitem agent1_result "predicted_label") ;;
  confidence <- lift (getitem agent1_result "confidence") ;;
  top_predictions <- lift (get agent1_result "top_predictions" (JArr [])) ;;
  f <- gets (fun f => f) ;;
  lift (WorkflowResponse_init predicted_label confidence top_predictions f).

Definition run_workflow `{Pydantic} `{Clients} (urls : AgentUrls) (net : network)
    (data : WorkflowRequest) : M frame WorkflowResponse :=
  agent1_result <- call_agent1 urls net data ;;
  call_agent2 urls net data agent1_result ;;
  call_agent3 urls net data agent1_result ;;
  call_agent4 urls net data agent1_result ;;
  build_response agent1_result.

End workflow_api.

(** * Configuration values and the process environment *)

(** An [Optional[str]] argument or environment value. *)
Definition pystr : Type := option string.

Definition str_truthy (s : pystr) : bool :=
  match s with
  | Some s' => negb (String.eqb s' "")
  | None => false
  end.

(** [a or b] *)
Definition por (a b : pystr) : pystr := if str_truthy a then a else b.

(** [os.environ] *)
Definition environ : Type := string -> pystr.

(** [os.getenv(k)] and [os.getenv(k, default)] *)
Definition getenv (env : environ) (k : string) : pystr := env k.
Definition getenv_default (env : environ) (k default : string) : pystr :=
  match env k with Some v => Some v | None => Some default end.

(** [all([...])] over configuration values *)
Definition all_truthy (l : list pystr) : bool := forallb str_truthy l.

(** Opening the spreadsheet: on failure the worksheet handle may or may
    not have been bound already. *)
Inductive connect_outcome : Type :=
| Connected
| ConnectFailed (e : exn) (worksheet_bound : bool).

(** What lies outside the repository at construction time: the calls into
    Vertex AI, the LLM client, the file system and Google Sheets.  Each
    constructor either succeeds ([None]) or raises. *)
Record cloud : Type := {
  (* vertexai.init, aiplatform.init, TextEmbeddingModel.from_pretrained,
     MatchingEngineIndexEndpoint, in SOPRetrievalAgent.__init__ *)
  vertex_search_init : pystr -> pystr -> pystr -> pystr -> pystr -> option exn;
  (* ChatVertexAI(model_name, project, location, temperature) *)
  chat_vertex_init : pystr -> pystr -> pystr -> option exn;
  (* os.path.exists *)
  path_exists : string -> bool;
  (* credentials, gspread.authorize, open_by_key, worksheet: arguments are
     the credentials path, the credentials JSON and the sheet id *)
  sheets_connect : pystr -> pystr -> pystr -> connect_outcome
}.

(** * agents/google_sheets_agent.py, agents/*_agent.py: construction *)

Module agents.

Record GoogleSheetsAgent : Type := {
  credentials_path : pystr;
  credentials_json : pystr;
  sheet_id : pystr;
  _initialized : bool
}.

(** [GoogleSheetsAgent.__init__]: a failed connection is caught and leaves
    the agent in simulation mode. *)
Definition GoogleSheetsAgent_init (c : cloud) (env : environ)
    (credentials_path credentials_json sheet_id : pystr) : GoogleSheetsAgent :=
  let credentials_path :=
    por credentials_path (getenv env "GOOGLE_SHEETS_CREDENTIALS_PATH") in
  let credentials_json :=
    por credentials_json (getenv env "GOOGLE_SHEETS_CREDENTIALS_JSON") in
  let sheet_id := por sheet_id (getenv env "GOOGLE_SHEET_ID") in
  let has_creds :=
    (str_truthy credentials_path
     && match credentials_path with
        | Some p => path_exists c p
        | None => false
        end)
    || str_truthy credentials_json in
  let initialized :=
    if str_truthy sheet_id && has_creds then
      match sheets_connect c credentials_path credentials_json sheet_id with
      | Connected => true
      | ConnectFailed _ _ => false
      end
    else false in
  {| credentials_path := credentials_path;
     credentials_json := credentials_json;
     sheet_id := sheet_id;
     _initialized := initialized |}.

Inductive agent : Type :=
| ClassificationAgent (api_url : pystr)
| SOPRetrievalAgentWrapper
    (project_id region index_id endpoint_id deployed_index_id : pystr)
| DecisionAgent (project_id region model_name : pystr)
| ActionExecutorAgent (customer_email dispatcher_email : pystr)
    (sheets_agent : GoogleSheetsAgent).

(** [ClassificationAgent.__init__] stores the URL and checks nothing. *)
Definition ClassificationAgent_init (api_url : pystr) : agent :=
  ClassificationAgent api_url.

(** [SOPRetrievalAgentWrapper.__init__] builds the Vertex AI retrieval
    agent of [rag_retrieval], which may raise. *)
Definition SOPRetrievalAgentWrapper_init (c : cloud)
    (project_id region index_id endpoint_id deployed_index_id : pystr)
  : result agent :=
  match vertex_search_init c project_id region index_id endpoint_id
          deployed_index_id with
  | Some e => Raise e
  | None => Ok (SOPRetrievalAgentWrapper project_id region index_id
                  endpoint_id deployed_index_id)
  end.

(** [create_sop_retrieval_agent]: [None] when the configuration is
    incomplete. *)
Definition create_sop_retrieval_agent (c : cloud) (env : environ)
    (project_id region index_id endpoint_id deployed_index_id : pystr)
  : result (option agent) :=
  let project_id := por project_id (getenv env "GCP_PROJECT_ID") in
  let region := por region (getenv_default env "GCP_REGION" "us-central1") in
  let index_id := por index_id (getenv env "VERTEX_AI_INDEX_ID") in
  let endpoint_id := por endpoint_id (getenv env "VERTEX_AI_ENDPOINT_ID") in
  let deployed_index_id :=
    por deployed_index_id (getenv env "VERTEX_AI_DEPLOYED_INDEX_ID") in
  if negb (all_truthy [project_id; index_id; endpoint_id; deployed_index_id])
  then Ok None
  else
    match SOPRetrievalAgentWrapper_init c project_id region index_id
            endpoint_id deployed_index_id with
    | Ok a => Ok (Some a)
    | Raise e => Raise e
    end.

(** [DecisionAgent.__init__] *)
Definition DecisionAgent_init (c : cloud) (env : environ)
    (project_id region model_name : pystr) : result agent :=
  let project_id := por project_id (getenv env "GCP_PROJECT_ID") in
  let region := por region (getenv_default env "GCP_REGION" "us-central1") in
  if negb (str_truthy project_id) then Raise ValueError
  else
    match chat_vertex_init c model_name project_id region with
    | Some e => Raise e
    | None => Ok (DecisionAgent project_id region model_name)
    end.

Definition create_decision_agent := DecisionAgent_init.

(** [ActionExecutorAgent.__init__] *)
Definition ActionExecutorAgent_init (c : cloud) (env : environ)
    (customer_email dispatcher_email
       sheet_credentials_path sheet_credentials_json sheet_id : pystr) : agent :=
  ActionExecutorAgent
    (por customer_email
       (getenv_default env "CUSTOMER_EMAIL" "customer@example.com"))
    (por dispatcher_email
       (getenv_default env "DISPATCHER_EMAIL" "dispatcher@example.com"))
    (GoogleSheetsAgent_init c env sheet_credentials_path
       sheet_credentials_json sheet_id).

Definition create_action_executor_agent := ActionExecutorAgent_init.

End agents.

(** * langgraph_agents.py *)

Module langgraph_agents.
Import agents.

(** The part of LangGraph's [StateGraph] the builder uses: named nodes,
    directed edges and an entry point. *)
Record StateGraph : Type := {
  nodes : list (string * agent);
  edges : list (string * string);
  entry_point : option string
}.

Definition END : string := "__end__".

Definition StateGraph_new : StateGraph :=
  {| nodes := []; edges := []; entry_point := None |}.

Definition has_node (n : string) (g : StateGraph) : bool :=
  existsb (fun p => String.eqb n (fst p)) (nodes g).

(** [workflow.add_node(name, agent)]; a second node of the same name is
    refused. *)
Definition add_node (n : string) (a : agent) : M StateGraph unit :=
  fun g =>
    if has_node n g then (g, Raise ValueError)
    else ({| nodes := nodes g ++ [(n, a)]; edges := edges g;
             entry_point := entry_point g |}, Ok tt).

Definition add_edge (a b : string) : M StateGraph unit :=
  modify (fun g => {| nodes := nodes g; edges := edges g ++ [(a, b)];
                      entry_point := entry_point g |}).

Definition set_entry_point (n : string) : M StateGraph unit :=
  modify (fun g => {| nodes := nodes g; edges := edges g;
                      entry_point := Some n |}).

(** [workflow.compile()] validates the graph: the entry point and every
    edge source are nodes, every edge target is a node or [END]. *)
Definition valid_graph (g : StateGraph) : bool :=
  match entry_point g with
  | Some e => has_node e g
  | None => false
  end
  && forallb (fun e => has_node (fst e) g
                       && (has_node (snd e) g || String.eqb (snd e) END))
       (edges g).

Definition compile : M StateGraph StateGraph :=
  fun g => if valid_graph g then (g, Ok g) else (g, Raise ValueError).

Record workflow_args : Type := {
  api_url : pystr;
  project_id : pystr;
  region : pystr;
  index_id : pystr;
  endpoint_id : pystr;
  deployed_index_id : pystr;
  llm_model_name : pystr;
  customer_email : pystr;
  dispatcher_email : pystr;
  sheet_id : pystr;
  sheet_credentials_path : pystr;
  sheet_credentials_json : pystr
}.

(** The keyword defaults of [create_exception_workflow]. *)
Definition default_args : workflow_args :=
  {| api_url := Some "http://localhost:8000";
     project_id := None;
     region := Some "us-central1";
     index_id := None;
     endpoint_id := None;
     deployed_index_id := None;
     llm_model_name := Some "gemini-pro";
     customer_email := None;
     dispatcher_email := None;
     sheet_id := None;
     sheet_credentials_path := None;
     sheet_credentials_json := None |}.

(** The agents that [create_exception_workflow] initialises before it
    assembles the graph. *)
Record built_agents : Type := {
  classification_agent : agent;
  sop_agent : option agent;
  decision_agent : option agent;
  action_executor_agent : agent
}.

Definition init_agents (c : cloud) (env : environ) (a : workflow_args)
  : result built_agents :=
  let project_id := por (project_id a) (getenv env "GCP_PROJECT_ID") in
  let region := por (region a) (getenv_default env "GCP_REGION" "us-central1") in
  let index_id := por (index_id a) (getenv env "VERTEX_AI_INDEX_ID") in
  let endpoint_id := por (endpoint_id a) (getenv env "VERTEX_AI_ENDPOINT_ID") in
  let deployed_index_id :=
    por (deployed_index_id a) (getenv env "VERTEX_AI_DEPLOYED_INDEX_ID") in
  let classification_agent := ClassificationAgent_init (api_url a) in
  match create_sop_retrieval_agent c env project_id region index_id
          endpoint_id deployed_index_id with
  | Raise e => Raise e
  | Ok sop_agent =>
      let decision_agent :=
        if str_truthy (por project_id (getenv env "GCP_PROJECT_ID")) then
          match create_decision_agent c env project_id region
                  (llm_model_name a) with
          | Ok d => Some d
          | Raise _ => None        (* except Exception: agent disabled *)
          end
        else None in
      let action_executor_agent :=
        create_action_executor_agent c env (customer_email a)
          (dispatcher_email a) (sheet_credentials_path a)
          (sheet_credentials_json a) (sheet_id a) in
      Ok {| classification_agent := classification_agent;
            sop_agent := sop_agent;
            decision_agent := decision_agent;
            action_executor_agent := action_executor_agent |}
  end.

Definition is_some {A} (o : option A) : bool :=
  match o with Some _ => true | None => false end.

(** The assembly of the graph, lines "Create workflow graph" to
    [workflow.compile()]. *)
Definition assemble (b : built_agents) : M StateGraph StateGraph :=
  add_node "classify" (classification_agent b) ;;
  match sop_agent b with
  | Some a => add_node "retrieve_sop" a
  | None => ret tt
  end ;;
  match decision_agent b with
  | Some a => add_node "make_decision" a
  | None => ret tt
  end ;;
  add_node "execute_actions" (action_executor_agent b) ;;
  set_entry_point "classify" ;;
  let current_node := "classify" in
  current_node <-
    (if is_some (sop_agent b) then
       add_edge current_node "retrieve_sop" ;; ret "retrieve_sop"
     else ret current_node) ;;
  current_node <-
    (if is_some (decision_agent b) then
       add_edge current_node "make_decision" ;; ret "make_decision"
     else ret current_node) ;;
  add_edge current_node "execute_actions" ;;
  add_edge "execute_actions" END ;;
  compile.

(** The body of [def create_exception_workflow], lines 63 to 175: what a
    call would do once the module is loaded. *)
Definition create_exception_workflow_body (c : cloud) (env : environ)
    (a : workflow_args) : result StateGraph :=
  match init_agents c env a with
  | Raise e => Raise e
  | Ok b => snd (assemble b StateGraph_new)
  end.

(** ** Loading the module

    Python compiles a module as a whole before it runs any statement of
    it.  The body of [class AgentState(TypedDict)], lines 25 to 51, is a
    list of annotated names that ends with

      [api_url: str,]
      ["messages": Annotated[list, add_messages]]

    The grammar refuses both lines: an annotation is one expression and
    cannot end in a comma, and the target of an annotation is a name, not
    a string literal. *)

Inductive target : Type :=
| Name (id : string)
| Literal (s : string).

Record annotated : Type := {
  lhs : target;
  annotation : string;
  comma : bool                 (* a comma follows the annotation *)
}.

Definition field (id ann : string) : annotated :=
  {| lhs := Name id; annotation := ann; comma := false |}.

Definition AgentState : list annotated :=
  [ field "driver_note" "str";
    field "gps_deviation_km" "float";
    field "weather_condition" "str";
    field "attempts" "int";
    field "hub_delay_minutes" "int";
    field "package_scan_result" "str";
    field "time_of_day" "str";
    field "predicted_label" "str";
    field "confidence" "float";
    field "top_predictions" "list";
    field "sop_content" "str";
    field "sop_text" "str";
    field "sop_metadata" "dict";
    field "decision_output" "dict";
    {| lhs := Name "api_url"; annotation := "str"; comma := true |};
    {| lhs := Literal "messages";
       annotation := "Annotated[list, add_messages]"; comma := false |} ].

(** An annotated assignment the compiler accepts. *)
Definition well_formed (a : annotated) : bool :=
  match lhs a with
  | Name _ => negb (comma a)
  | Literal _ => false
  end.

(** [import langgraph_agents] *)
Definition import_module : result unit :=
  if forallb well_formed AgentState then Ok tt else Raise SyntaxError.

(** [create_exception_workflow(...)] as a caller reaches it: through the
    import of the module. *)
Definition create_exception_workflow (c : cloud) (env : environ)
    (a : workflow_args) : result StateGraph :=
  rbind import_module (fun _ => create_exception_workflow_body c env a).

End langgraph_agents.

(** * The Python runtime and standard library, where the code relies on them *)

Inductive parsed : Type :=
| Parsed (v : json)
| JSONDecodeError (msg : string).

Record runtime : Type := {
  json_loads : string -> parsed;          (* json.loads *)
  float_of_str : string -> option pyfloat;   (* float("...") *)
  float_of_int : Z -> Q;                  (* float(n), n within range: the nearest double *)
  py_repr : json -> string;               (* str(v) of a value that is not a str *)
  fmt_f : nat -> json -> string;          (* f"{v:.<n>f}" of a number *)
  fmt_pct : nat -> json -> string;        (* f"{v:.<n>%}" of a number *)
  utcnow_iso : string;                    (* datetime.utcnow().isoformat() *)
  utcnow_row : string                     (* ...strftime("%Y-%m-%d %H:%M:%S UTC") *)
}.

(** [str(v)] *)
Definition py_str (rt : runtime) (v : json) : string :=
  match v with JStr s => s | _ => py_repr rt v end.

(** [float(v)] *)
Definition py_float (rt : runtime) (v : json) : result pyfloat :=
  match v with
  | JFloat x => Ok x
  | JInt z => if fits_float z then Ok (Finite (float_of_int rt z))
              else Raise OverflowError
  | JBool b => Ok (Finite (if b then 1%Q else 0%Q))
  | JStr s => match float_of_str rt s with
              | Some x => Ok x
              | None => Raise ValueError
              end
  | _ => Raise TypeError
  end.

(** The fence stripping shared by [decision_api.parse_llm_response] and
    [DecisionAgent.make_decision]. *)
Definition strip_code_fences (content : string) : string :=
  let content := strip content in
  let content := if startswith "```json" content then drop 7 content else content in
  let content := if startswith "```" content then drop 3 content else content in
  let content := if endswith "```" content then drop_last 3 content else content in
  strip content.

(** [v[:3]] for iteration; a string yields its characters *)
Definition first3 (v : json) : result (list json) :=
  match v with
  | JArr l => Ok (firstn 3 l)
  | JStr s => Ok (firstn 3 (map JStr (code_points s)))
  | _ => Raise TypeError
  end.

(** * agents/classification_agent.py *)

Module classification_agent.

(** [f"{self.api_url}/predict"] *)
Definition predict_url (api_url : pystr) : string :=
  match api_url with Some u => u | None => "None" end ++ "/predict".

(** The loop that prints the first three predictions:
    [pred['label']] and [pred['confidence']:.4f]. *)
Fixpoint print_predictions {S} (preds : list json) : M S unit :=
  match preds with
  | [] => ret tt
  | pred :: rest =>
      lift (getitem pred "label") ;;
      c <- lift (getitem pred "confidence") ;;
      lift (format_f c) ;;
      print_predictions rest
  end.

(** [state[k]] of the agent state, a dict. *)
Definition state_item (k : string) : M pydict json :=
  fun st => (st, getitem (JObj st) k).

(** [requests.post(url, json=payload, timeout=30)]: when the client
    cannot encode the payload it raises a [RequestException] and nothing
    is sent. *)
Definition send `{Clients} (net : network) (u : string) (p : json)
  : post_outcome :=
  if requests_encodes p then net u p
  else Throws (RequestError "Out of range float values are not JSON compliant").

(** [ClassificationAgent.classify]; the state is the dict handed in, which
    is updated in place and returned. *)
Definition classify `{Clients} (net : network) (api_url : pystr)
  : M pydict pydict :=
  dn <- state_item "driver_note" ;;
  gps <- state_item "gps_deviation_km" ;;
  wc <- state_item "weather_condition" ;;
  att <- state_item "attempts" ;;
  hub <- state_item "hub_delay_minutes" ;;
  scan <- state_item "package_scan_result" ;;
  tod <- state_item "time_of_day" ;;
  let payload :=
    JObj [ ("driver_note", dn); ("gps_deviation_km", gps);
           ("weather_condition", wc); ("attempts", att);
           ("hub_delay_minutes", hub); ("package_scan_result", scan);
           ("time_of_day", tod) ] in
  try_except
    (response <- (fun st => (st, match send net (predict_url api_url) payload with
                                 | Responds r => Ok r
                                 | Throws e => Raise e
                                 end)) ;;
     if negb (status_code response =? 200) then
       raise (PyException ("Classification API returned status "
                           ++ str_of_Z (status_code response) ++ ": "
                           ++ text response))
     else
       result <- lift (json_of response) ;;
       pl <- lift (getitem result "predicted_label") ;;
       modify (dict_set "predicted_label" pl) ;;
       c <- lift (getitem result "confidence") ;;
       modify (dict_set "confidence" c) ;;
       (* the prints *)
       lift (getitem result "predicted_label") ;;
       c' <- lift (getitem result "confidence") ;;
       lift (format_f c') ;;
       tp <- lift (get result "top_predictions" (JArr [])) ;;
       preds <- lift (first3 tp) ;;
       print_predictions preds ;;
       gets (fun st => st))
    (fun e => Some (raise e)).   (* both handlers print and re-raise *)

End classification_agent.

(** * decision_api.py *)

Module decision_api.

Record DecisionRequest : Type := {
  predicted_label : string;
  confidence : pyfloat;
  top_predictions : option (list pydict);
  driver_note : string;
  gps_deviation_km : pyfloat;
  weather_condition : string;
  attempts : Z;
  hub_delay_minutes : Z;
  package_scan_result : string;
  time_of_day : string;
  sop_content : option string
}.

Record DecisionOutput : Type := {
  recommended_action : string;
  driver_instruction : string;
  customer_message : string;
  requires_escalation : bool;
  d_confidence : pyfloat;
  reasoning_summary : string
}.

Record DecisionResponse : Type := {
  decision : DecisionOutput;
  status : string;
  agent : string
}.

(** The values substituted into [DECISION_PROMPT]; [p_confidence] is
    rendered as a percentage. *)
Record prompt : Type := {
  p_predicted_label : string;
  p_confidence : pyfloat;
  p_driver_note : string;
  p_gps_deviation_km : pyfloat;
  p_weather_condition : string;
  p_attempts : Z;
  p_hub_delay_minutes : Z;
  p_package_scan_result : string;
  p_time_of_day : string;
  p_sop_content : string
}.

(** The global [llm] after startup: [None] when it is not initialised,
    else what [llm.invoke(prompt)] returns as [content], or raises. *)
Definition llm_client : Type := option (prompt -> result string).

Definition parse_llm_response (rt : runtime) (content : string) : parsed :=
  json_loads rt (strip_code_fences content).

Definition required_fields : list (string * json) :=
  [ ("recommended_action", JStr "Manual review required");
    ("driver_instruction", JStr "Follow standard procedure");
    ("customer_message", JStr "We will contact you shortly.");
    ("requires_escalation", JBool false);
    ("confidence", JFloat (1 # 2));
    ("reasoning_summary", JStr "Decision generated") ].

(** [for field, default in required_fields.items():
       if field not in decision_dict: decision_dict[field] = default] *)
Definition fill_required (decision_dict : pydict) : pydict :=
  fold_left
    (fun d fd => if dict_mem (fst fd) d then d else dict_set (fst fd) (snd fd) d)
    required_fields decision_dict.

Definition fallback_decision (msg : string) : pydict :=
  [ ("recommended_action", JStr "Manual review required due to LLM parsing error");
    ("driver_instruction", JStr "Follow standard procedure for this exception type");
    ("customer_message",
      JStr "We encountered an issue with your delivery. We will contact you shortly.");
    ("requires_escalation", JBool true);
    ("confidence", JFloat (3 # 10));
    ("reasoning_summary",
      JStr ("LLM response could not be parsed: " ++ take_chars 100 msg)) ].

Definition DecisionOutput_init `{Pydantic} (ra di cm re : json) (cf : pyfloat) (rs : json)
  : result DecisionOutput :=
  match v_str ra, v_str di, v_str cm, v_bool re, v_str rs with
  | Some ra', Some di', Some cm', Some re', Some rs' =>
      Ok {| recommended_action := ra'; driver_instruction := di';
            customer_message := cm'; requires_escalation := re';
            d_confidence := cf; reasoning_summary := rs' |}
  | _, _, _, _, _ => Raise ValidationError
  end.

(** [DECISION_PROMPT.format_messages(...)] for a request. *)
Definition build_prompt (request : DecisionRequest) : prompt :=
  let sop :=
    match sop_content request with
    | Some s => if String.eqb s "" then "SOP not available. Use standard procedures."
                else s
    | None => "SOP not available. Use standard procedures."
    end in
  {| p_predicted_label := predicted_label request;
     p_confidence := confidence request;
     p_driver_note := driver_note request;
     p_gps_deviation_km := gps_deviation_km request;
     p_weather_condition := weather_condition request;
     p_attempts := attempts request;
     p_hub_delay_minutes := hub_delay_minutes request;
     p_package_scan_result := package_scan_result request;
     p_time_of_day := time_of_day request;
     p_sop_content := sop |}.

(** The body of the outer [try] of [make_decision]. *)
Definition decide `{Pydantic} (rt : runtime) (invoke : prompt -> result string)
    (request : DecisionRequest) : result DecisionResponse :=
  rbind (invoke (build_prompt request)) (fun content =>
  let decision_dict :=
    match parse_llm_response rt content with
    | Parsed v => v
    | JSONDecodeError msg => JObj (fallback_decision msg)
    end in
  match decision_dict with
  | JObj d =>
      let d := fill_required d in
      rbind (getitem (JObj d) "recommended_action") (fun ra =>
      rbind (getitem (JObj d) "driver_instruction") (fun di =>
      rbind (getitem (JObj d) "customer_message") (fun cm =>
      rbind (getitem (JObj d) "requires_escalation") (fun re =>
      rbind (getitem (JObj d) "confidence") (fun cf =>
      rbind (py_float rt cf) (fun cf' =>
      rbind (getitem (JObj d) "reasoning_summary") (fun rs =>
      rbind (DecisionOutput_init ra di cm re cf' rs) (fun decision =>
      Ok {| decision := decision; status := "success";
            agent := "agent3_decision" |}))))))))
  | _ =>
      (* membership test or item assignment on a value that is no dict *)
      Raise TypeError
  end).

(** [make_decision]: 503 when the LLM is not initialised; any exception
    of the body becomes a 500. *)
Definition make_decision `{Pydantic} (rt : runtime) (llm : llm_client)
    (request : DecisionRequest) : result DecisionResponse :=
  match llm with
  | None =>
      Raise (HTTPException 503 "LLM not initialized. Check API logs for errors.")
  | Some invoke =>
      match decide rt invoke request with
      | Ok r => Ok r
      | Raise e =>
          Raise (HTTPException 500 ("Error making decision: " ++ str_exn e))
      end
  end.

End decision_api.

(** * agents/decision_agent.py *)

Module decision_agent.

Definition required_fields : list string :=
  [ "recommended_action"; "driver_instruction"; "customer_message";
    "requires_escalation"; "confidence"; "reasoning_summary" ].

(** The value the loop stores for a missing [field]. *)
Definition default_of (field : string) : json :=
  let v := if negb (String.eqb field "requires_escalation")
           then JStr "Not provided" else JBool false in
  if String.eqb field "confidence" then JFloat (1 # 2) else v.

Definition fill_required (decision_output : pydict) : pydict :=
  fold_left
    (fun d field => if dict_mem field d then d else dict_set field (default_of field) d)
    required_fields decision_output.

Definition parse_fallback (msg : string) : pydict :=
  [ ("recommended_action", JStr "Review exception manually");
    ("driver_instruction", JStr "Follow standard procedure for this exception type");
    ("customer_message",
      JStr "We encountered an issue with your delivery. We will contact you shortly.");
    ("requires_escalation", JBool true);
    ("confidence", JFloat (1 # 2));
    ("reasoning_summary",
      JStr ("LLM response could not be parsed. Error: " ++ msg)) ].

Definition error_fallback (e : exn) : pydict :=
  [ ("recommended_action", JStr "Manual review required");
    ("driver_instruction", JStr "Hold package and await further instructions");
    ("customer_message",
      JStr "We encountered an issue with your delivery. We will contact you shortly.");
    ("requires_escalation", JBool true);
    ("confidence", JFloat 0);
    ("reasoning_summary",
      JStr ("Error occurred during decision generation: " ++ str_exn e)) ].

(** What [build_prompt] does to the first three predictions: a dict entry
    has its confidence formatted, any other entry is shown with [str]. *)
Fixpoint format_predictions (preds : list json) : result unit :=
  match preds with
  | [] => Ok tt
  | JObj d :: rest =>
      match format_f (dict_get "confidence" (JFloat 0) d) with
      | Ok _ => format_predictions rest
      | Raise e => Raise e
      end
  | _ :: rest => format_predictions rest
  end.

(** [build_prompt]: the prompt is the state it is built from; building can
    raise while it formats the predictions. *)
Definition build_prompt (state : pydict) : result pydict :=
  let top_predictions := dict_get "top_predictions" (JArr []) state in
  if truthy top_predictions then
    match first3 top_predictions with
    | Raise e => Raise e
    | Ok preds =>
        match format_predictions preds with
        | Ok _ => Ok state
        | Raise e => Raise e
        end
    end
  else Ok state.

(** [DecisionAgent.make_decision] on the agent state. *)
Definition make_decision (rt : runtime) (invoke : pydict -> result string)
  : M pydict pydict :=
  try_except
    (st <- gets (fun st => st) ;;
     prompt <- lift (build_prompt st) ;;
     content <- lift (invoke prompt) ;;
     let decision_output :=
       match json_loads rt (strip_code_fences content) with
       | Parsed v => v
       | JSONDecodeError msg => JObj (parse_fallback msg)
       end in
     match decision_output with
     | JObj d =>
         let d := fill_required d in
         modify (dict_set "decision_output" (JObj d)) ;;
         (* the prints *)
         ra <- lift (getitem (JObj d) "recommended_action") ;;
         lift (slice_ok ra) ;;
         lift (getitem (JObj d) "requires_escalation") ;;
         cf <- lift (getitem (JObj d) "confidence") ;;
         lift (format_f cf) ;;
         rs <- lift (getitem (JObj d) "reasoning_summary") ;;
         lift (slice_ok rs) ;;
         gets (fun st => st)
     | _ => raise TypeError
     end)
    (fun e => Some (modify (dict_set "decision_output" (JObj (error_fallback e))) ;;
                    gets (fun st => st))).

End decision_agent.

(** * action_executor_api.py *)

Module action_executor_api.

Record ActionRequest : Type := {
  driver_note : string;
  gps_deviation_km : pyfloat;
  weather_condition : string;
  attempts : Z;
  hub_delay_minutes : Z;
  package_scan_result : string;
  time_of_day : string;
  predicted_label : string;
  confidence : pyfloat;
  top_predictions : option (list pydict);
  sop_retrieved : bool;
  sop_id : option string;
  decision : option pydict
}.

Record ActionResponse : Type := {
  sheet_updated : bool;
  email_simulated : bool;
  escalated : bool;
  timestamp : string;
  status : string;
  agent : string
}.

(** The service: the module globals set at startup, the rows of the
    spreadsheet behind [worksheet], and standard output. *)
Record service : Type := {
  sheets_initialized : bool;
  worksheet : bool;                 (* [worksheet is not None] *)
  sheet_rows : list (list json);
  stdout : list string
}.

Definition print (line : string) : M service unit :=
  modify (fun s => {| sheets_initialized := sheets_initialized s;
                      worksheet := worksheet s;
                      sheet_rows := sheet_rows s;
                      stdout := stdout s ++ [line] |}).

(** [startup_event]: the globals after startup. *)
Definition startup_event (c : cloud) (env : environ) (rows : list (list json))
  : service :=
  let off (w : bool) :=
    {| sheets_initialized := false; worksheet := w;
       sheet_rows := rows; stdout := [] |} in
  let sheet_id := getenv env "GOOGLE_SHEET_ID" in
  let credentials_json := getenv env "GOOGLE_SHEETS_CREDENTIALS_JSON" in
  let credentials_path := getenv env "GOOGLE_SHEETS_CREDENTIALS_PATH" in
  if negb (str_truthy sheet_id) then off false
  else if str_truthy credentials_json
          || (str_truthy credentials_path
              && match credentials_path with
                 | Some p => path_exists c p
                 | None => false
                 end)
  then
    match sheets_connect c credentials_path credentials_json sheet_id with
    | Connected =>
        {| sheets_initialized := true; worksheet := true;
           sheet_rows := rows; stdout := [] |}
    | ConnectFailed _ w => off w
    end
  else off false.

(** [worksheet.append_row(row, value_input_option='RAW')]: [fails row] is
    the exception gspread raises, if any; otherwise the row is added. *)
Definition append_row (fails : list json -> option exn) (row : list json)
  : M service unit :=
  fun s =>
    match fails row with
    | Some e => (s, Raise e)
    | None => ({| sheets_initialized := sheets_initialized s;
                  worksheet := worksheet s;
                  sheet_rows := sheet_rows s ++ [row];
                  stdout := stdout s |}, Ok tt)
    end.

Definition safe_str (rt : runtime) (value : json) : string :=
  match value with
  | JNull => ""
  | _ => let s := py_str rt value in
         if Nat.ltb 500 (py_len s) then take_chars 500 s ++ "..." else s
  end.

Definition yes_no (b : bool) : json := JStr (if b then "Yes" else "No").

(** [request.decision or {}] *)
Definition decision_or_empty (request : ActionRequest) : pydict :=
  match decision request with Some d => d | None => [] end.

Definition build_row (rt : runtime) (request : ActionRequest)
  : result (list json) :=
  let timestamp := utcnow_row rt in
  let decision := decision_or_empty request in
  let status :=
    if truthy (dict_get "requires_escalation" JNull decision) then "ESCALATED"
    else if truthy (dict_get "recommended_action" JNull decision) then "PROCESSED"
    else if negb (String.eqb (predicted_label request) "") then "CLASSIFIED ONLY"
    else "ERROR" in
  rbind
    (match top_predictions request with
     | Some (_ :: second :: _) =>
         let c := dict_get "confidence" (JInt 0) second in
         rbind (format_f c) (fun _ =>
         Ok (dict_get "label" (JStr "") second, JStr (fmt_f rt 4 c)))
     | _ => Ok (JStr "", JStr "")
     end)
    (fun second =>
  rbind
    (if truthy (dict_get "confidence" JNull decision) then
       let c := dict_get "confidence" (JInt 0) decision in
       rbind (format_f c) (fun _ => Ok (JStr (fmt_f rt 2 c)))
     else Ok (JStr ""))
    (fun decision_conf =>
  Ok [ JStr timestamp;
       JStr status;
       JStr (safe_str rt (JStr (driver_note request)));
       JStr (safe_str rt (JFloat (gps_deviation_km request)));
       JStr (safe_str rt (JStr (weather_condition request)));
       JStr (safe_str rt (num (attempts request)));
       JStr (safe_str rt (num (hub_delay_minutes request)));
       JStr (safe_str rt (JStr (package_scan_result request)));
       JStr (safe_str rt (JStr (time_of_day request)));
       JStr (safe_str rt (JStr (predicted_label request)));
       JStr (fmt_f rt 4 (JFloat (confidence request)));
       fst second;
       snd second;
       yes_no (sop_retrieved request);
       JStr (safe_str rt (match sop_id request with
                          | Some i => JStr i
                          | None => JNull
                          end));
       JStr (safe_str rt (dict_get "recommended_action" (JStr "") decision));
       JStr (safe_str rt (dict_get "driver_instruction" (JStr "") decision));
       JStr (safe_str rt (dict_get "customer_message" (JStr "") decision));
       yes_no (truthy (dict_get "requires_escalation" JNull decision));
       decision_conf;
       JStr (safe_str rt (dict_get "reasoning_summary" (JStr "") decision)) ])).

Definition ActionResponse_init `{Pydantic}
    (sheet_updated email_simulated : bool) (escalated : json)
    (timestamp : string) : result ActionResponse :=
  match v_bool escalated with
  | Some esc =>
      Ok {| sheet_updated := sheet_updated; email_simulated := email_simulated;
            escalated := esc; timestamp := timestamp;
            status := "success"; agent := "agent4_action" |}
  | None => Raise ValidationError
  end.

(** ACTION 1 of [execute_actions]: the value of [sheet_updated]. *)
Definition log_to_sheets (rt : runtime) (fails : list json -> option exn)
    (request : ActionRequest) : M service bool :=
  let decision := decision_or_empty request in
  initialized <- gets (fun s => sheets_initialized s && worksheet s) ;;
  if (initialized : bool) then
    try_except
      (row <- lift (build_row rt request) ;;
       append_row fails row ;;
       print ("Logged to Google Sheets: " ++ predicted_label request) ;;
       ret true)
      (fun e => Some (print ("Error logging to sheets: " ++ str_exn e) ;;
                      ret false))
  else
    (* Simulation mode *)
    ra <- lift (slice_to 50 (dict_get "recommended_action" (JStr "N/A") decision)) ;;
    print ("[SIMULATED] Would log: " ++ predicted_label request ++ " - "
           ++ py_str rt ra) ;;
    ret true.  (* Return true for simulation *)

(** ACTION 2 of [execute_actions]: the value of [email_simulated]. *)
Definition simulate_email (rt : runtime) (request : ActionRequest)
    (requires_escalation : json) : M service bool :=
  let decision := decision_or_empty request in
  let customer_message := dict_get "customer_message" (JStr "") decision in
  if truthy customer_message || truthy requires_escalation then
    (if truthy requires_escalation then
       print "[SIMULATED] Escalation email to dispatcher" ;;
       print ("   Subject: ESCALATION: " ++ predicted_label request)
     else
       print "[SIMULATED] Customer notification email" ;;
       m <- lift (slice_to 100 customer_message) ;;
       print ("   Message: " ++ py_str rt m ++ "...")) ;;
    ret true
  else ret false.

Definition execute_actions `{Pydantic} (rt : runtime)
    (fails : list json -> option exn) (request : ActionRequest)
  : M service ActionResponse :=
  let timestamp := utcnow_iso rt ++ "Z" in
  let decision := decision_or_empty request in
  let requires_escalation := dict_get "requires_escalation" (JBool false) decision in
  sheet_updated <- log_to_sheets rt fails request ;;
  email_simulated <- simulate_email rt request requires_escalation ;;
  lift (ActionResponse_init sheet_updated email_simulated requires_escalation
          timestamp).

End action_executor_api.

(** * agents/google_sheets_agent.py: logging a state *)

Module google_sheets_agent.
Import agents.

(** What the agents of the graph act on: the shared state dict, the
    simulated e-mails sent so far, and the rows of the spreadsheet. *)
Record world : Type := {
  state : pydict;
  outbox : list (pystr * string * json);   (* to, subject, body *)
  sheet_rows : list (list json)
}.

Definition set_state (f : pydict -> pydict) : M world unit :=
  modify (fun w => {| state := f (state w); outbox := outbox w;
                      sheet_rows := sheet_rows w |}).

Definition _safe_str (rt : runtime) (value : json) : string :=
  match value with
  | JNull => ""
  | _ => let s := py_str rt value in
         if Nat.ltb 500 (py_len s) then take_chars 500 s ++ "..." else s
  end.

(** [v[1]] *)
Definition getitem1 (v : json) : result json :=
  match v with
  | JArr (_ :: x :: _) => Ok x
  | JArr _ => Raise IndexError
  | JStr s => if Nat.ltb 1 (py_len s) then Ok (JStr (take_chars 1 (drop_chars 1 s)))
              else Raise IndexError
  | JObj _ => Raise (KeyError "1")
  | _ => Raise TypeError
  end.

(** [f"{v:.<n>f}" if <cond> else ""] *)
Definition fmt_if (rt : runtime) (n : nat) (cond v : json) : result json :=
  if truthy cond then rbind (format_f v) (fun _ => Ok (JStr (fmt_f rt n v)))
  else Ok (JStr "").

Definition _build_row_from_state (rt : runtime) (state : pydict)
  : result (list json) :=
  let timestamp := utcnow_row rt in
  match dict_get "decision_output" (JObj []) state with
  | JObj decision =>
      let status :=
        if truthy (dict_get "requires_escalation" JNull decision) then "ESCALATED"
        else if truthy (dict_get "recommended_action" JNull decision) then "PROCESSED"
        else if truthy (dict_get "predicted_label" JNull state) then "CLASSIFIED ONLY"
        else "ERROR" in
      let top_predictions := dict_get "top_predictions" (JArr []) state in
      rbind (len_gt 1 top_predictions) (fun at_least_two =>
      rbind
        (if (at_least_two : bool) then
           rbind (getitem1 top_predictions) (fun second =>
           rbind (get second "label" (JStr "")) (fun label =>
           rbind (get second "confidence" (JInt 0)) (fun c =>
           rbind (format_f c) (fun _ => Ok (label, JStr (fmt_f rt 4 c))))))
         else Ok (JStr "", JStr ""))
        (fun second =>
      rbind (fmt_if rt 4 (dict_get "confidence" JNull state)
               (dict_get "confidence" (JInt 0) state))
        (fun confidence =>
      rbind (get (dict_get "sop_metadata" (JObj []) state) "id" (JStr ""))
        (fun sop_meta_id =>
      rbind (fmt_if rt 2 (dict_get "confidence" JNull decision)
               (dict_get "confidence" (JInt 0) decision))
        (fun decision_confidence =>
      Ok [ JStr timestamp;
           JStr status;
           JStr (_safe_str rt (dict_get "driver_note" (JStr "") state));
           JStr (_safe_str rt (dict_get "gps_deviation_km" (JStr "") state));
           JStr (_safe_str rt (dict_get "weather_condition" (JStr "") state));
           JStr (_safe_str rt (dict_get "attempts" (JStr "") state));
           JStr (_safe_str rt (dict_get "hub_delay_minutes" (JStr "") state));
           JStr (_safe_str rt (dict_get "package_scan_result" (JStr "") state));
           JStr (_safe_str rt (dict_get "time_of_day" (JStr "") state));
           JStr (_safe_str rt (dict_get "predicted_label" (JStr "") state));
           confidence;
           fst second;
           snd second;
           JStr (if truthy (dict_get "sop_content" JNull state) then "Yes" else "No");
           JStr (_safe_str rt sop_meta_id);
           JStr (_safe_str rt (dict_get "recommended_action" (JStr "") decision));
           JStr (_safe_str rt (dict_get "driver_instruction" (JStr "") decision));
           JStr (_safe_str rt (dict_get "customer_message" (JStr "") decision));
           JStr (if truthy (dict_get "requires_escalation" JNull decision)
                 then "Yes" else "No");
           decision_confidence;
           JStr (_safe_str rt (dict_get "reasoning_summary" (JStr "") decision)) ])))))
  | _ => Raise AttributeError
  end.

(** The simulation print of one cell:
    [val[:60] + "..." if len(val) > 60 else val]. *)
Definition display (val : json) : result unit :=
  rbind (len_gt 60 val) (fun long =>
  if (long : bool) then
    match val with
    | JStr _ => Ok tt
    | _ => Raise TypeError
    end
  else Ok tt).

Fixpoint display_all (row : list json) : result unit :=
  match row with
  | [] => Ok tt
  | val :: rest => rbind (display val) (fun _ => display_all rest)
  end.

(** [GoogleSheetsAgent.log_to_sheet]:
    "True if successful (or simulated), False on error". *)
Definition log_to_sheet (rt : runtime) (fails : list json -> option exn)
    (self : GoogleSheetsAgent) : M world bool :=
  st <- gets state ;;
  row <- lift (_build_row_from_state rt st) ;;
  if negb (_initialized self) then
    lift (display_all row) ;;
    ret true
  else
    fun w =>
      match fails row with
      | None => ({| state := state w; outbox := outbox w;
                    sheet_rows := sheet_rows w ++ [row] |}, Ok true)
      | Some _ => (w, Ok false)
      end.

End google_sheets_agent.

(** * agents/action_executor_agent.py *)

Module action_executor_agent.
Import agents google_sheets_agent.

(** [ActionExecutorAgent.send_email]: simulated, prints and returns [True]. *)
Definition send_email (to : pystr) (subject : string) (body : json)
  : M world bool :=
  modify (fun w => {| state := state w;
                      outbox := outbox w ++ [(to, subject, body)];
                      sheet_rows := sheet_rows w |}) ;;
  (* print(f"   Body: {body[:200]}..." if len(body) > 200 else ...) *)
  long <- lift (len_gt 200 body) ;;
  (if (long : bool) then lift (slice_ok body) else ret tt) ;;
  ret true.

Definition escalation_body (rt : runtime) (st : pydict)
    (exception_type recommended_action reasoning : json) : string :=
  nl ++ "ESCALATION REQUIRED" ++ nl ++ nl
  ++ "Exception Type: " ++ py_str rt exception_type ++ nl
  ++ "Confidence: " ++ fmt_pct rt 2 (dict_get "confidence" (JInt 0) st) ++ nl
  ++ "Action Recommended: " ++ py_str rt recommended_action ++ nl ++ nl
  ++ "Driver Note: " ++ py_str rt (dict_get "driver_note" (JStr "N/A") st)
  ++ nl ++ nl
  ++ "Reasoning: " ++ py_str rt reasoning ++ nl ++ nl
  ++ "Please review and take appropriate action immediately." ++ nl.

(** [ActionExecutorAgent.execute_actions] for an agent with the given
    addresses and sheets agent. *)
Definition execute_actions (rt : runtime) (fails : list json -> option exn)
    (customer_email dispatcher_email : pystr) (sheets_agent : GoogleSheetsAgent)
  : M world pydict :=
  st <- gets state ;;
  let decision_output := dict_get "decision_output" (JObj []) st in
  recommended_action <-
    lift (get decision_output "recommended_action" (JStr "No action determined")) ;;
  customer_message <- lift (get decision_output "customer_message" (JStr "")) ;;
  requires_escalation <-
    lift (get decision_output "requires_escalation" (JBool false)) ;;
  let exception_type := dict_get "predicted_label" (JStr "Unknown") st in
  let timestamp := utcnow_iso rt ++ "Z" in
  let wants_email := truthy customer_message || truthy requires_escalation in
  sent <-
    (if wants_email then
       (if truthy requires_escalation then
          lift (format_f (dict_get "confidence" (JInt 0) st)) ;;
          reasoning <- lift (get decision_output "reasoning_summary" (JStr "N/A")) ;;
          email_sent <-
            send_email dispatcher_email
              ("ESCALATION: " ++ py_str rt exception_type ++ " Exception")
              (JStr (escalation_body rt st exception_type recommended_action
                       reasoning)) ;;
          ret (email_sent, dispatcher_email)
        else
          email_sent <-
            send_email customer_email
              ("Delivery Update: " ++ py_str rt exception_type)
              customer_message ;;
          ret (email_sent, customer_email))
     else ret (false, None)) ;;
  sheet_updated <- log_to_sheet rt fails sheets_agent ;;
  let executed_action :=
    JObj [ ("email_sent", JBool (fst sent));
           ("email_recipient",
             match snd sent with
             | Some r => if wants_email then JStr r else JNull
             | None => JNull
             end);
           ("sheet_updated", JBool sheet_updated);
           ("escalated", requires_escalation);
           ("action_taken", recommended_action);
           ("timestamp", JStr timestamp);
           ("exception_type", exception_type) ] in
  set_state (dict_set "executed_action" executed_action) ;;
  lift (slice_ok recommended_action) ;;
  gets state.

End action_executor_agent.

(** * The operational log: action_executor_api.py, agents/google_sheets_agent.py *)

Module operational_log.
Import agents google_sheets_agent.

(** [COLUMNS], the header row; the service and [GoogleSheetsAgent] define
    the same list. *)
Definition COLUMNS : list string :=
  [ "Timestamp";
    "Processing Status";
    "Driver Note";
    "GPS Deviation (km)";
    "Weather Condition";
    "Delivery Attempts";
    "Hub Delay (mins)";
    "Package Scan Result";
    "Time of Day";
    "Predicted Exception";
    "Classification Confidence";
    "2nd Best Prediction";
    "2nd Best Confidence";
    "SOP Retrieved";
    "SOP ID";
    "Recommended Action";
    "Driver Instruction";
    "Customer Message";
    "Requires Escalation";
    "Decision Confidence";
    "Reasoning Summary" ].

(** [GoogleSheetsAgent.execute]: log the state, then record the outcome
    in it. *)
Definition execute (rt : runtime) (fails : list json -> option exn)
    (self : GoogleSheetsAgent) : M world pydict :=
  success <- log_to_sheet rt fails self ;;
  set_state (dict_set "sheet_updated" (JBool success)) ;;
  set_state (dict_set "sheet_log_timestamp" (JStr (utcnow_iso rt ++ "Z"))) ;;
  gets state.

End operational_log.

(** * scripts/rag_retrieval.py *)

Module rag_retrieval.

(** A neighbor as Vector Search returns it. *)
Record neighbor : Type := { id : string; distance : pyfloat }.

(** Vertex AI and the file system, as the retrieval code uses them. *)
Record vertex : Type := {
  (* embedding_model.get_embeddings([query])[0].values *)
  get_embeddings : string -> result (list Q);
  (* index_endpoint.find_neighbors(deployed_index_id, queries=[embedding],
     num_neighbors, restricts): one list of neighbors per query; the last
     argument is the value of the exception-type restriction, if any *)
  find_neighbors :
    list Q -> option Z -> option json -> result (list (list neighbor));
  (* 1.0 - distance, in floating point *)
  one_minus : pyfloat -> pyfloat;
  (* open(path).read(), [None] when os.path.exists(path) is false *)
  read_file : string -> option (result string)
}.

Definition generate_query_embedding (v : vertex) (query : string)
  : result (list Q) :=
  get_embeddings v query.

Definition retrieved_doc (v : vertex) (n : neighbor) : json :=
  JObj [ ("datapoint_id", JStr (id n));
         ("distance", JFloat (distance n));
         ("score", JFloat (one_minus v (distance n))) ].

(** [query_vector_search]: any exception of the search ends in the empty
    list. *)
Definition query_vector_search (v : vertex) (query_embedding : list Q)
    (num_neighbors : Z) (exception_type_filter : json) : list json :=
  let restricts :=
    if truthy exception_type_filter then Some exception_type_filter else None in
  match find_neighbors v query_embedding (Some num_neighbors) restricts with
  | Ok (first :: _) => map (retrieved_doc v) first
  | Ok [] => []
  | Raise _ => []
  end.

(** The query text built from the exception type and the driver note. *)
Definition build_query (rt : runtime) (exception_type driver_note : json)
  : string :=
  if truthy driver_note then
    py_str rt exception_type ++ " exception: " ++ py_str rt driver_note
  else py_str rt exception_type ++ " exception procedure".

Definition retrieve_sops (rt : runtime) (v : vertex)
    (exception_type driver_note : json) (num_results : Z) : result pydict :=
  let query := build_query rt exception_type driver_note in
  rbind (generate_query_embedding v query) (fun query_embedding =>
  let results := query_vector_search v query_embedding num_results exception_type in
  Ok [ ("exception_type", exception_type);
       ("query", JStr query);
       ("num_results", num (Z.of_nat (length results)));
       ("sops", JArr results) ]).

Definition sop_file_map : list (string * string) :=
  [ ("sop_access_issue", "sops/access_issue.txt");
    ("sop_address_invalid", "sops/address_invalid.txt");
    ("sop_customer_not_home", "sops/customer_not_home.txt");
    ("sop_driver_issue", "sops/driver_issue.txt");
    ("sop_hub_delay", "sops/hub_delay.txt");
    ("sop_misroute", "sops/misroute.txt");
    ("sop_package_damage", "sops/package_damage.txt");
    ("sop_system_error", "sops/system_error.txt");
    ("sop_unknown", "sops/unknown.txt");
    ("sop_weather_delay", "sops/weather_delay.txt") ].

Fixpoint assoc (k : string) (l : list (string * string)) : option string :=
  match l with
  | [] => None
  | (k', x) :: l' => if String.eqb k k' then Some x else assoc k l'
  end.

(** [get_sop_content]: the text of the SOP file of a known id, [None] for
    an unknown id or a missing file. *)
Definition get_sop_content (v : vertex) (datapoint_id : json)
  : result (option string) :=
  match datapoint_id with
  | JStr i =>
      match assoc i sop_file_map with
      | Some sop_file =>
          match read_file v sop_file with
          | Some (Ok content) => Ok (Some content)
          | Some (Raise e) => Raise e
          | None => Ok None
          end
      | None => Ok None
      end
  | _ => Raise AttributeError     (* datapoint_id.replace *)
  end.

End rag_retrieval.

(** * agents/sop_retrieval_agent.py *)

Module sop_retrieval_agent.
Import rag_retrieval.

(** [v == 0] *)
Definition eq_zero (v : json) : bool :=
  match v with
  | JInt z => z =? 0
  | JFloat (Finite q) => Qeq_bool q 0
  | JBool b => negb b
  | _ => false
  end.

(** [f"SOP for {predicted_label} (ID: {datapoint_id})"] *)
Definition placeholder (rt : runtime) (predicted_label datapoint_id : json)
  : string :=
  "SOP for " ++ py_str rt predicted_label ++ " (ID: "
  ++ py_str rt datapoint_id ++ ")".

(** [SOPRetrievalAgentWrapper.retrieve_sop] on the agent state. *)
Definition retrieve_sop (rt : runtime) (v : vertex) : M pydict pydict :=
  predicted_label <- classification_agent.state_item "predicted_label" ;;
  driver_note <- gets (dict_get "driver_note" (JStr "")) ;;
  try_except
    (result <- lift (retrieve_sops rt v predicted_label driver_note 1) ;;
     n <- lift (getitem (JObj result) "num_results") ;;
     if eq_zero n then
       modify (dict_set "sop_content" (JStr "No relevant SOP found.")) ;;
       modify (dict_set "sop_metadata" (JObj [])) ;;
       gets (fun st => st)
     else
       sops <- lift (getitem (JObj result) "sops") ;;
       top_sop <- lift (getitem0 sops) ;;
       datapoint_id <- lift (getitem top_sop "datapoint_id") ;;
       content <- lift (get_sop_content v datapoint_id) ;;
       let sop_content :=
         match content with
         | Some c => if String.eqb c "" then placeholder rt predicted_label datapoint_id
                     else c
         | None => placeholder rt predicted_label datapoint_id
         end in
       modify (dict_set "sop_content" (JStr sop_content)) ;;
       modify (dict_set "sop_text" (JStr sop_content)) ;;
       score <- lift (getitem top_sop "score") ;;
       modify (dict_set "sop_metadata"
                 (JObj [ ("datapoint_id", datapoint_id);
                         ("score", score);
                         ("exception_type", predicted_label) ])) ;;
       (* print(f"   Score: {top_sop['score']:.4f}") *)
       lift (format_f score) ;;
       gets (fun st => st))
    (fun e =>
       Some (modify (dict_set "sop_content"
                       (JStr ("Error retrieving SOP: " ++ str_exn e))) ;;
             modify (dict_set "sop_metadata" (JObj [])) ;;
             gets (fun st => st))).

End sop_retrieval_agent.

(** * sop_retrieval_api.py *)

Module sop_retrieval_api.
Import rag_retrieval.

Record SOPRetrievalRequest : Type := {
  exception_type : string;
  driver_note : option string;
  num_results : option Z;
  confidence : option pyfloat
}.

Record SOPResult : Type := {
  datapoint_id : string;
  score : pyfloat;
  content : option string
}.

Record SOPRetrievalResponse : Type := {
  r_exception_type : string;
  query : string;
  r_num_results : Z;
  sops : list SOPResult;
  status : string
}.

(** The module globals after startup: whether the two clients exist, and
    the SOP texts loaded from the files. *)
Record service : Type := {
  embedding_model : bool;          (* [embedding_model is not None] *)
  index_endpoint : bool;           (* [index_endpoint is not None] *)
  SOP_CONTENT : list (string * string)
}.

Definition build_query (data : SOPRetrievalRequest) : string :=
  if str_truthy (driver_note data) then
    exception_type data ++ " exception: "
    ++ match driver_note data with Some n => n | None => "" end
  else exception_type data ++ " exception procedure".

Definition SOPResult_of (v : vertex) (svc : service) (n : neighbor) : SOPResult :=
  {| datapoint_id := id n;
     score := one_minus v (distance n);
     content := assoc (id n) (SOP_CONTENT svc) |}.

(** The body of the [try] of [retrieve_sops]. *)
Definition retrieve (v : vertex) (svc : service) (data : SOPRetrievalRequest)
  : result SOPRetrievalResponse :=
  let query := build_query data in
  rbind (get_embeddings v query) (fun query_embedding =>
  rbind (find_neighbors v query_embedding (num_results data) None) (fun results =>
  let sops :=
    match results with
    | first :: _ => map (SOPResult_of v svc) first
    | [] => []
    end in
  Ok {| r_exception_type := exception_type data;
        query := query;
        r_num_results := Z.of_nat (length sops);
        sops := sops;
        status := "success" |})).

(** [retrieve_sops]: 503 when the clients are missing; any exception of
    the body becomes a 500. *)
Definition retrieve_sops (v : vertex) (svc : service)
    (data : SOPRetrievalRequest) : result SOPRetrievalResponse :=
  if negb (embedding_model svc) || negb (index_endpoint svc) then
    Raise (HTTPException 503
      "Service not fully initialized. Vector Search or embedding model not available.")
  else
    match retrieve v svc data with
    | Ok r => Ok r
    | Raise e =>
        Raise (HTTPException 500 ("Error during SOP retrieval: " ++ str_exn e))
    end.

End sop_retrieval_api.

(** * The responses of the services on the wire

    FastAPI serialises a response model field by field; [None] becomes
    [null]. *)

Module wire.

Definition SOPResult_json (s : sop_retrieval_api.SOPResult) : json :=
  JObj [ ("datapoint_id", JStr (sop_retrieval_api.datapoint_id s));
         ("score", JFloat (sop_retrieval_api.score s));
         ("content", match sop_retrieval_api.content s with
                     | Some c => JStr c
                     | None => JNull
                     end) ].

Definition SOPRetrievalResponse_json
    (r : sop_retrieval_api.SOPRetrievalResponse) : json :=
  JObj [ ("exception_type", JStr (sop_retrieval_api.r_exception_type r));
         ("query", JStr (sop_retrieval_api.query r));
         ("num_results", num (sop_retrieval_api.r_num_results r));
         ("sops", JArr (map SOPResult_json (sop_retrieval_api.sops r)));
         ("status", JStr (sop_retrieval_api.status r)) ].

Definition DecisionOutput_json (o : decision_api.DecisionOutput) : json :=
  JObj [ ("recommended_action", JStr (decision_api.recommended_action o));
         ("driver_instruction", JStr (decision_api.driver_instruction o));
         ("customer_message", JStr (decision_api.customer_message o));
         ("requires_escalation", JBool (decision_api.requires_escalation o));
         ("confidence", JFloat (decision_api.d_confidence o));
         ("reasoning_summary", JStr (decision_api.reasoning_summary o)) ].

Definition DecisionResponse_json (r : decision_api.DecisionResponse) : json :=
  JObj [ ("decision", DecisionOutput_json (decision_api.decision r));
         ("status", JStr (decision_api.status r));
         ("agent", JStr (decision_api.agent r)) ].

Definition ActionResponse_json (r : action_executor_api.ActionResponse) : json :=
  JObj [ ("sheet_updated", JBool (action_executor_api.sheet_updated r));
         ("email_simulated", JBool (action_executor_api.email_simulated r));
         ("escalated", JBool (action_executor_api.escalated r));
         ("timestamp", JStr (action_executor_api.timestamp r));
         ("status", JStr (action_executor_api.status r));
         ("agent", JStr (action_executor_api.agent r)) ].

(** A 200 answer carrying [v]. *)
Definition ok_with (o : post_outcome) (v : json) : Prop :=
  exists r, o = Responds r /\ status_code r = 200 /\ body r = Some v.

End wire.

(** * classification_model/inference_pipeline.py *)

Module inference_pipeline.

(** NumPy, as [predict] uses it on the vector of class probabilities:
    [argsort] returns the indices in an order of non-decreasing value,
    [argmax] the index of a largest entry. *)
Class NumPy : Type := {
  argsort : list Q -> list nat;
  argmax : list Q -> nat;
  argsort_perm : forall p, Permutation (argsort p) (seq 0 (length p));
  argsort_sorted : forall p,
    StronglySorted (fun i j => (nth i p 0 <= nth j p 0)%Q) (argsort p);
  argmax_bound : forall p, p <> [] -> (argmax p < length p)%nat;
  argmax_max : forall p i,
    (i < length p)%nat -> (nth i p 0 <= nth (argmax p) p 0)%Q
}.

(** The delivery fields, the input of the model. *)
Record features : Type := {
  driver_note : string;
  gps_deviation_km : Q;
  weather_condition : string;
  attempts : Z;
  hub_delay_minutes : Z;
  package_scan_result : string;
  time_of_day : string
}.

(** A loaded classifier: preprocessing followed by [model.predict], which
    gives the probabilities of the classes or raises (an unseen category,
    a failure of the model), and the classes of the label encoder. *)
Record ExceptionClassifier : Type := {
  forward : features -> result (list Q);
  classes : list string
}.

Record prediction : Type := {
  predicted_label : string;
  confidence : Q;
  top_predictions : list (string * Q)
}.

(** [a[start:]] *)
Definition slice_from {A} (start : Z) (a : list A) : list A :=
  if start <? 0 then skipn (Z.to_nat (Z.of_nat (length a) + start)) a
  else skipn (Z.to_nat start) a.

(** [label_encoder.inverse_transform([idx])[0]] *)
Definition inverse_transform (self : ExceptionClassifier) (idx : nat)
  : result string :=
  match nth_error (classes self) idx with
  | Some c => Ok c
  | None => Raise ValueError
  end.

(** The loop that builds [top_predictions]. *)
Fixpoint build_results (self : ExceptionClassifier) (probabilities : list Q)
    (top_indices : list nat) : result (list (string * Q)) :=
  match top_indices with
  | [] => Ok []
  | idx :: rest =>
      rbind (inverse_transform self idx) (fun label =>
      rbind (build_results self probabilities rest) (fun results =>
      Ok ((label, nth idx probabilities 0%Q) :: results)))
  end.

(** [ExceptionClassifier.predict] *)
Definition predict `{NumPy} (self : ExceptionClassifier) (x : features)
    (top_k : option Z) : result prediction :=
  rbind (forward self x) (fun probabilities =>
  match top_k with
  | None => Raise TypeError                  (* -top_k *)
  | Some k =>
      let top_indices := rev (slice_from (- k) (argsort probabilities)) in
      rbind (build_results self probabilities top_indices) (fun top_predictions =>
      match probabilities with
      | [] => Raise ValueError               (* argmax of an empty sequence *)
      | _ =>
          let predicted_idx := argmax probabilities in
          rbind (inverse_transform self predicted_idx) (fun predicted_label =>
          Ok {| predicted_label := predicted_label;
                confidence := nth predicted_idx probabilities 0%Q;
                top_predictions := top_predictions |})
      end)
  end).

(** [run_inference] on the global [classifier]. *)
Definition run_inference `{NumPy} (classifier : option ExceptionClassifier)
    (x : features) (top_k : option Z) : result prediction :=
  match classifier with
  | None =>
      Raise (PyException
               "Classifier not initialized. Call initialize_classifier() first.")
  | Some c => predict c x top_k
  end.

End inference_pipeline.

(** * api.py *)

Module api.
Import inference_pipeline.

Record ExceptionRequest : Type := {
  input : features;
  top_k : option Z
}.

Record PredictionItem : Type := { label : string; p_confidence : Q }.

Record ExceptionResponse : Type := {
  r_predicted_label : string;
  r_confidence : Q;
  r_top_predictions : list PredictionItem
}.

Definition valid_weather : list string := ["Clear"; "Rain"; "Snow"; "Storm"].
Definition valid_scan : list string := ["OK"; "UNREADABLE"; "DAMAGED"].
Definition valid_time : list string := ["Morning"; "Afternoon"; "Evening"].

(** [x in l] for strings *)
Definition str_in (x : string) (l : list string) : bool :=
  existsb (String.eqb x) l.

(** The body of the [try] of [predict_exception]. *)
Definition predict_body `{NumPy} (classifier : option ExceptionClassifier)
    (data : ExceptionRequest) : result ExceptionResponse :=
  if negb (str_in (weather_condition (input data)) valid_weather) then
    Raise (HTTPException 400
      "Invalid weather_condition. Must be one of: ['Clear', 'Rain', 'Snow', 'Storm']")
  else if negb (str_in (package_scan_result (input data)) valid_scan) then
    Raise (HTTPException 400
      "Invalid package_scan_result. Must be one of: ['OK', 'UNREADABLE', 'DAMAGED']")
  else if negb (str_in (time_of_day (input data)) valid_time) then
    Raise (HTTPException 400
      "Invalid time_of_day. Must be one of: ['Morning', 'Afternoon', 'Evening']")
  else
    rbind (run_inference classifier (input data) (top_k data)) (fun result =>
    Ok {| r_predicted_label := predicted_label result;
          r_confidence := confidence result;
          r_top_predictions :=
            map (fun pred => {| label := fst pred; p_confidence := snd pred |})
              (top_predictions result) |}).

(** [predict_exception]: an [HTTPException] is re-raised as it is, any
    other exception becomes a 500. *)
Definition predict_exception `{NumPy} (classifier : option ExceptionClassifier)
    (data : ExceptionRequest) : result ExceptionResponse :=
  match predict_body classifier data with
  | Ok r => Ok r
  | Raise (HTTPException code detail) => Raise (HTTPException code detail)
  | Raise e =>
      Raise (HTTPException 500 ("Error during prediction: " ++ str_exn e))
  end.

End api.

(** * Specification vocabulary *)

(** ** Relating the state before and after a computation *)

(** [m] relates every start state to the state it ends in, whether it
    returns or raises. *)
Definition preserves {S A} (R : S -> S -> Prop) (m : M S A) : Prop :=
  forall s, R s (fst (m s)).

(** ** The orchestrator *)

Module workflow_spec.
Import workflow_api.

Definition predict_call (urls : AgentUrls) (data : WorkflowRequest) : call :=
  {| url := AGENT1_URL urls ++ "/predict"; payload := agent1_payload data |}.

(** The outcome of a POST as [run_workflow] sees it: what the
    collaborator does with the request, or the [ValueError] of a client
    that cannot encode the payload and sends nothing. *)
Definition attempt `{Clients} (net : network) (u : string) (p : json)
  : post_outcome :=
  if httpx_encodes p then net u p else Throws ValueError.

(** A request as it goes out, if it does. *)
Definition posted `{Clients} (c : call) : list call :=
  if httpx_encodes (payload c) then [c] else [].

(** What each collaborator does in a run, given what the orchestrator
    sends it. *)
Definition agent1_outcome `{Clients} (urls : AgentUrls) (net : network)
    (data : WorkflowRequest) : post_outcome :=
  attempt net (AGENT1_URL urls ++ "/predict") (agent1_payload data).

Definition agent2_outcome `{Clients} (urls : AgentUrls) (net : network)
    (data : WorkflowRequest) (predicted_label : json) : post_outcome :=
  attempt net (AGENT2_URL urls ++ "/retrieve")
    (agent2_payload data predicted_label).

(** The Classification stage fails: its collaborator cannot be reached
    (the request raises a request error, a timeout included) or answers
    outside 2xx. *)
Definition classification_fails `{Clients} (urls : AgentUrls) (net : network)
    (data : WorkflowRequest) : Prop :=
  match agent1_outcome urls net data with
  | Throws e => is_request_error e = true
  | Responds r => status_code r < 200 \/ 299 < status_code r
  end.

(** The exception [run_workflow] raises for a failing Agent 1. *)
Definition classification_failure `{Clients} (urls : AgentUrls) (net : network)
    (data : WorkflowRequest) : exn :=
  match agent1_outcome urls net data with
  | Throws e =>
      HTTPException 503 ("Agent 1 (Classification) unavailable: " ++ str_exn e)
  | Responds r =>
      HTTPException 502 ("Agent 1 (Classification) failed: " ++ text r)
  end.

(** The Classification stage succeeds with label [pl], confidence [c] and
    predictions [tps]: a 200 answer whose JSON object [d1] carries them
    with their declared types, a string, a float and a list of objects
    ([top_predictions] may be absent when [tps] is empty). *)
Definition classified `{Clients} (urls : AgentUrls) (net : network)
    (data : WorkflowRequest) (d1 : pydict)
    (pl : string) (c : pyfloat) (tps : list pydict) : Prop :=
  (exists r, agent1_outcome urls net data = Responds r
             /\ status_code r = 200 /\ body r = Some (JObj d1))
  /\ dict_lookup "predicted_label" d1 = Some (JStr pl)
  /\ dict_lookup "confidence" d1 = Some (JFloat c)
  /\ dict_get "top_predictions" (JArr []) d1 = JArr (map JObj tps).

(** A stage behind [o] fails: the request raises, the answer is not a
    200, or its body is not JSON. *)
Definition stage_fails (o : post_outcome) : Prop :=
  match o with
  | Throws _ => True
  | Responds r => status_code r <> 200 \/ body r = None
  end.

(** The failures of the Retrieval stage that [run_workflow] catches. *)
Definition retrieval_fails_quietly (o : post_outcome) : Prop :=
  match o with
  | Throws e => is_request_error e = true
  | Responds r => status_code r <> 200
  end.

(** The Retrieval collaborator answers 200 with an empty list of matches. *)
Definition zero_matches (o : post_outcome) : Prop :=
  exists r d2, o = Responds r /\ status_code r = 200
               /\ body r = Some (JObj d2)
               /\ dict_lookup "sops" d2 = Some (JArr []).

(** The requests Agents 2, 3 and 4 receive. *)
Definition retrieve_call (urls : AgentUrls) (data : WorkflowRequest)
    (pl : json) : call :=
  {| url := AGENT2_URL urls ++ "/retrieve"; payload := agent2_payload data pl |}.

Definition agent3_call (urls : AgentUrls) (data : WorkflowRequest)
    (d1 : pydict) (pl c : json) (f : frame) : call :=
  {| url := AGENT3_URL urls ++ "/decide";
     payload := agent3_payload data pl c
                  (dict_get "top_predictions" (JArr []) d1) (sop_content f) |}.

Definition agent4_call (urls : AgentUrls) (data : WorkflowRequest)
    (d1 : pydict) (pl c : json) (f : frame) : call :=
  {| url := AGENT4_URL urls ++ "/execute";
     payload := agent4_payload data pl c
                  (dict_get "top_predictions" (JArr []) d1)
                  (sop_retrieved f) (sop_id f) (decision_dict f) |}.

(** What becomes of a request. *)
Definition answer `{Clients} (net : network) (c : call) : post_outcome :=
  attempt net (url c) (payload c).

Definition keeps_sop (f f' : frame) : Prop :=
  sop_retrieved f' = sop_retrieved f /\ sop_content f' = sop_content f
  /\ sop_score f' = sop_score f /\ sop_id f' = sop_id f.

Definition keeps_decision (f f' : frame) : Prop :=
  decision f' = decision f /\ decision_dict f' = decision_dict f.

Definition keeps_requests (f f' : frame) : Prop := requests f' = requests f.

(** The log of executed agents and of requests only grows. *)
Definition extends (f f' : frame) : Prop :=
  (exists l, agents_executed f' = (agents_executed f ++ l)%list)
  /\ (exists l, requests f' = (requests f ++ l)%list).

End workflow_spec.

(** ** Concrete collaborators *)

(** The validation that accepts exactly the declared types. *)
#[export] Instance strict_pydantic : Pydantic.
Proof.
  refine {| v_str := strict_str; v_float := strict_float;
            v_bool := strict_bool; v_dicts := strict_dicts |};
    try reflexivity.
  intro l. simpl. induction l as [|d l IH]; simpl;
    [reflexivity | now rewrite IH].
Defined.

(** The clients that refuse a float that is not finite, as the current
    versions of httpx and requests do. *)
#[export] Instance strict_clients : Clients :=
  {| httpx_encodes := finite_json;
     requests_encodes := finite_json;
     httpx_encodes_finite := fun _ H => H;
     requests_encodes_finite := fun _ H => H |}.

Module samples.
Import workflow_api.

Definition urls : AgentUrls :=
  {| AGENT1_URL := "http://agent1"; AGENT2_URL := "http://agent2";
     AGENT3_URL := "http://agent3"; AGENT4_URL := "http://agent4" |}.

(** A network that answers by service, whatever the payload. *)
Definition scripted (o1 o2 o3 o4 : post_outcome) : network :=
  fun u _ =>
    if String.eqb u "http://agent1/predict" then o1
    else if String.eqb u "http://agent2/retrieve" then o2
    else if String.eqb u "http://agent3/decide" then o3
    else if String.eqb u "http://agent4/execute" then o4
    else Throws (RequestError "unknown host").

Definition gate_locked : WorkflowRequest :=
  {| driver_note := "gate locked"; gps_deviation_km := 2 # 10;
     weather_condition := "Clear"; attempts := 2; hub_delay_minutes := 10;
     package_scan_result := "OK"; time_of_day := "Afternoon" |}.

Definition ok (v : json) : post_outcome :=
  Responds {| status_code := 200; text := ""; body := Some v |}.

Definition status (code : Z) (t : string) : post_outcome :=
  Responds {| status_code := code; text := t; body := None |}.

Definition unreachable : post_outcome := Throws (RequestError "connection refused").

Definition access_issue : json :=
  JObj [ ("predicted_label", JStr "Access Issue");
         ("confidence", JFloat (9 # 10));
         ("top_predictions",
           JArr [ JObj [("label", JStr "Access Issue"); ("confidence", JFloat (9 # 10))];
                  JObj [("label", JStr "Customer Not Home"); ("confidence", JFloat (1 # 10))] ]) ].

(** The same classification with [top_predictions: null]. *)
Definition unlisted : json :=
  JObj [ ("predicted_label", JStr "Access Issue");
         ("confidence", JFloat (9 # 10));
         ("top_predictions", JNull) ].

Definition no_sops : json :=
  JObj [ ("exception_type", JStr "Access Issue"); ("query", JStr "Access Issue gate locked");
         ("num_results", num 0); ("sops", JArr []); ("status", JStr "success") ].

Definition one_sop : json :=
  JObj [ ("sops", JArr [ JObj [ ("datapoint_id", JStr "access_issue");
                               ("score", JFloat (8 # 10));
                               ("content", JStr "Request the gate code.") ] ]) ].

Definition two_sops : json :=
  JObj [ ("sops", JArr [ JObj [ ("datapoint_id", JStr "access_issue");
                               ("score", JFloat (8 # 10));
                               ("content", JStr "Request the gate code.") ];
                        JObj [ ("datapoint_id", JStr "unknown");
                               ("score", JFloat (2 # 10)) ] ]) ].

(** A classification whose confidence overflowed to [inf]. *)
Definition infinitely_sure : json :=
  JObj [ ("predicted_label", JStr "Access Issue");
         ("confidence", JFloat Inf);
         ("top_predictions", JArr []) ].

Definition decided : json :=
  JObj [ ("decision",
           JObj [ ("recommended_action", JStr "Schedule re-delivery");
                  ("driver_instruction", JStr "Try the alternate entrance");
                  ("customer_message", JStr "Please send your gate code.");
                  ("requires_escalation", JBool false);
                  ("confidence", JFloat (8 # 10));
                  ("reasoning_summary", JStr "Second attempt, access SOP applies") ]);
         ("status", JStr "success") ].

Definition acted : json :=
  JObj [ ("sheet_updated", JBool true); ("email_simulated", JBool true);
         ("escalated", JBool false); ("timestamp", JStr "2024-01-01T00:00:00Z");
         ("status", JStr "success") ].

End samples.

(** ** The pipeline builder *)

Module builder_spec.
Import agents langgraph_agents.

(** The configuration values after the fallback to the environment. *)
Definition resolved_project_id (env : environ) (a : workflow_args) : pystr :=
  por (project_id a) (getenv env "GCP_PROJECT_ID").
Definition resolved_region (env : environ) (a : workflow_args) : pystr :=
  por (region a) (getenv_default env "GCP_REGION" "us-central1").
Definition resolved_index_id (env : environ) (a : workflow_args) : pystr :=
  por (index_id a) (getenv env "VERTEX_AI_INDEX_ID").
Definition resolved_endpoint_id (env : environ) (a : workflow_args) : pystr :=
  por (endpoint_id a) (getenv env "VERTEX_AI_ENDPOINT_ID").
Definition resolved_deployed_index_id (env : environ) (a : workflow_args)
  : pystr :=
  por (deployed_index_id a) (getenv env "VERTEX_AI_DEPLOYED_INDEX_ID").

(** The Retrieval configuration as the builder checks it: project, index,
    endpoint and deployed index. *)
Definition retrieval_configured (env : environ) (a : workflow_args) : bool :=
  all_truthy [ resolved_project_id env a; resolved_index_id env a;
               resolved_endpoint_id env a; resolved_deployed_index_id env a ].

(** The Retrieval configuration "fully present" in the words of the
    specification: index identity, endpoint identity and deployed-index
    identity. *)
Definition retrieval_backing_present (env : environ) (a : workflow_args)
  : bool :=
  all_truthy [ resolved_index_id env a; resolved_endpoint_id env a;
               resolved_deployed_index_id env a ].

(** An LLM project is configured. *)
Definition llm_project_present (env : environ) (a : workflow_args) : bool :=
  str_truthy (resolved_project_id env a).

(** The Classification configuration, the service URL, is present. *)
Definition classification_configured (a : workflow_args) : bool :=
  str_truthy (api_url a).

End builder_spec.

Module builder_samples.
Import agents langgraph_agents.

Definition no_env : environ := fun _ => None.

(** Every outside service can be reached. *)
Definition cloud_up : cloud :=
  {| vertex_search_init := fun _ _ _ _ _ => None;
     chat_vertex_init := fun _ _ _ => None;
     path_exists := fun _ => true;
     sheets_connect := fun _ _ _ => Connected |}.

(** The LLM client cannot be constructed. *)
Definition cloud_without_llm : cloud :=
  {| vertex_search_init := fun _ _ _ _ _ => None;
     chat_vertex_init := fun _ _ _ => Some (PyException "permission denied");
     path_exists := fun _ => true;
     sheets_connect := fun _ _ _ => Connected |}.

Definition with_api_url (u : pystr) (a : workflow_args) : workflow_args :=
  {| api_url := u; project_id := project_id a; region := region a;
     index_id := index_id a; endpoint_id := endpoint_id a;
     deployed_index_id := deployed_index_id a;
     llm_model_name := llm_model_name a;
     customer_email := customer_email a;
     dispatcher_email := dispatcher_email a; sheet_id := sheet_id a;
     sheet_credentials_path := sheet_credentials_path a;
     sheet_credentials_json := sheet_credentials_json a |}.

Definition with_vertex (project index endpoint deployed : pystr)
    (a : workflow_args) : workflow_args :=
  {| api_url := api_url a; project_id := project; region := region a;
     index_id := index; endpoint_id := endpoint;
     deployed_index_id := deployed;
     llm_model_name := llm_model_name a;
     customer_email := customer_email a;
     dispatcher_email := dispatcher_email a; sheet_id := sheet_id a;
     sheet_credentials_path := sheet_credentials_path a;
     sheet_credentials_json := sheet_credentials_json a |}.

(** No classification URL at all. *)
Definition no_api_url : workflow_args := with_api_url None default_args.

(** Index, endpoint and deployed index are given, the project is not. *)
Definition vertex_without_project : workflow_args :=
  with_vertex None (Some "idx-1") (Some "ep-1") (Some "dep-1") default_args.

Definition fully_configured : workflow_args :=
  with_vertex (Some "proj") (Some "idx-1") (Some "ep-1") (Some "dep-1")
    default_args.

End builder_samples.

(** ** The classifier client *)

Module classifier_spec.
Import classification_agent.

Definition input_names : list string :=
  [ "driver_note"; "gps_deviation_km"; "weather_condition"; "attempts";
    "hub_delay_minutes"; "package_scan_result"; "time_of_day" ].

(** The state carries the seven delivery fields. *)
Definition has_inputs (st : pydict) : bool :=
  forallb (fun k => dict_mem k st) input_names.

(** The request [classify] sends for a state. *)
Definition classifier_payload (st : pydict) : json :=
  JObj (map (fun k => (k, dict_get k JNull st)) input_names).

(** What becomes of the request: the answer of the collaborator, or the
    exception of a client that cannot encode the payload. *)
Definition classifier_outcome `{Clients} (net : network) (api_url : pystr)
    (st : pydict) : post_outcome :=
  send net (predict_url api_url) (classifier_payload st).

(** The collaborator answers 200 with the JSON object [d]. *)
Definition answers (o : post_outcome) (d : pydict) : Prop :=
  exists r, o = Responds r /\ status_code r = 200 /\ body r = Some (JObj d).

(** The confidence of an answer lies outside [0, 1]. *)
Definition confidence_out_of_range (d : pydict) : Prop :=
  exists q, dict_lookup "confidence" d = Some (JFloat (Finite q))
            /\ (q < 0 \/ 1 < q)%Q.

(** What the progress prints of [classify] need from the first three
    predictions: each is an object with a label and a numeric confidence. *)
Definition printable_prediction (p : json) : bool :=
  match getitem p "label", getitem p "confidence" with
  | Ok _, Ok c => match format_f c with Ok _ => true | Raise _ => false end
  | _, _ => false
  end.

Definition predictions_printable (d : pydict) : bool :=
  match first3 (dict_get "top_predictions" (JArr []) d) with
  | Ok preds => forallb printable_prediction preds
  | Raise _ => false
  end.

(** The state after a successful classification. *)
Definition classified_state (st : pydict) (pl c : json) : pydict :=
  dict_set "confidence" c (dict_set "predicted_label" pl st).

End classifier_spec.

Module classifier_samples.

Definition delivery : pydict :=
  [ ("driver_note", JStr "gate locked");
    ("gps_deviation_km", JFloat (2 # 10));
    ("weather_condition", JStr "Clear");
    ("attempts", num 2);
    ("hub_delay_minutes", num 10);
    ("package_scan_result", JStr "OK");
    ("time_of_day", JStr "Afternoon");
    ("api_url", JStr "http://localhost:8000") ].

Definition always (o : post_outcome) : network := fun _ _ => o.

(** An answer whose confidence is an integer beyond the range of the
    floats. *)
Definition oversized : pydict :=
  [ ("predicted_label", JStr "Access Issue"); ("confidence", JInt (10 ^ 400)) ].

(** An answer without [top_predictions] and with a confidence above 1. *)
Definition overconfident : pydict :=
  [ ("predicted_label", JStr "Access Issue"); ("confidence", JFloat (3 # 2)) ].

Definition answer_of (d : pydict) : post_outcome :=
  Responds {| status_code := 200; text := ""; body := Some (JObj d) |}.

End classifier_samples.

(** ** The decider clients *)

Module decider_spec.

(** One round of "store the default unless the field is there". *)
Definition fill_step (d : pydict) (fd : string * json) : pydict :=
  if dict_mem (fst fd) d then d else dict_set (fst fd) (snd fd) d.

(** The LLM's reply, stripped of code fences, parses to the object [d]. *)
Definition parses_to (rt : runtime) (content : string) (d : pydict) : Prop :=
  json_loads rt (strip_code_fences content) = Parsed (JObj d).

(** The declared type of each decision field. *)
Definition well_typed_field (k : string) (v : json) : bool :=
  if String.eqb k "requires_escalation" then
    match v with JBool _ => true | _ => false end
  else if String.eqb k "confidence" then
    match v with JFloat _ => true | _ => false end
  else
    match v with JStr _ => true | _ => false end.

(** The decision fields that are present carry values of their type. *)
Definition present_fields_typed (d : pydict) : bool :=
  forallb (fun k => match dict_lookup k d with
                    | Some v => well_typed_field k v
                    | None => true
                    end)
    decision_agent.required_fields.

(** The default [decision_api] stores for a field. *)
Definition api_default (k : string) : json :=
  dict_get k JNull decision_api.required_fields.

(** A decision record as a dict. *)
Definition output_dict (o : decision_api.DecisionOutput) : pydict :=
  [ ("recommended_action", JStr (decision_api.recommended_action o));
    ("driver_instruction", JStr (decision_api.driver_instruction o));
    ("customer_message", JStr (decision_api.customer_message o));
    ("requires_escalation", JBool (decision_api.requires_escalation o));
    ("confidence", JFloat (decision_api.d_confidence o));
    ("reasoning_summary", JStr (decision_api.reasoning_summary o)) ].

End decider_spec.

Module decider_samples.

(** A runtime whose JSON parser knows one reply. *)
Definition runtime_with (reply : string) (v : json) : runtime :=
  {| json_loads := fun s => if String.eqb s reply then Parsed v
                            else JSONDecodeError "Expecting value";
     float_of_str := fun _ => None;
     float_of_int := inject_Z;
     py_repr := fun _ => "<value>";
     fmt_f := fun _ _ => "0.0000";
     fmt_pct := fun _ _ => "0.00%";
     utcnow_iso := "2024-01-01T00:00:00";
     utcnow_row := "2024-01-01 00:00:00 UTC" |}.

(** A decision without [requires_escalation] and [confidence]. *)
Definition partial_decision : pydict :=
  [ ("recommended_action", JStr "Schedule re-delivery");
    ("driver_instruction", JStr "Try the alternate entrance");
    ("customer_message", JStr "Please send your gate code.");
    ("reasoning_summary", JStr "Access SOP applies") ].

(** A decision whose action is a number, and one whose confidence is an
    integer beyond the range of the floats; neither has
    [requires_escalation]. *)
Definition numbered_action : pydict :=
  [ ("recommended_action", JInt 5);
    ("customer_message", JStr "Please send your gate code.") ].

Definition oversized_confidence : pydict :=
  [ ("recommended_action", JStr "Schedule re-delivery");
    ("confidence", JInt (10 ^ 400)) ].

Definition reply : string := "{...}".

Definition fenced_reply : string :=
  "```json" ++ nl ++ reply ++ nl ++ "```".

Definition request : decision_api.DecisionRequest :=
  {| decision_api.predicted_label := "Access Issue";
     decision_api.confidence := 9 # 10;
     decision_api.top_predictions := None;
     decision_api.driver_note := "gate locked";
     decision_api.gps_deviation_km := 2 # 10;
     decision_api.weather_condition := "Clear";
     decision_api.attempts := 2;
     decision_api.hub_delay_minutes := 10;
     decision_api.package_scan_result := "OK";
     decision_api.time_of_day := "Afternoon";
     decision_api.sop_content := None |}.

End decider_samples.

(** ** The action executor *)

Module executor_spec.
Import action_executor_api.

Definition is_bool_or_absent (o : option json) : bool :=
  match o with Some (JBool _) | None => true | _ => false end.

Definition is_str_or_absent (o : option json) : bool :=
  match o with Some (JStr _) | None => true | _ => false end.

(** The decision fields the executor reads have their declared types:
    [requires_escalation] is a bool, [customer_message] and
    [recommended_action] are strings. *)
Definition decision_typed (d : pydict) : bool :=
  is_bool_or_absent (dict_lookup "requires_escalation" d)
  && is_str_or_absent (dict_lookup "customer_message" d)
  && is_str_or_absent (dict_lookup "recommended_action" d).

(** [requires_escalation] of a decision, [false] when absent. *)
Definition escalation_required (d : pydict) : bool :=
  match dict_lookup "requires_escalation" d with
  | Some (JBool b) => b
  | _ => false
  end.

(** [customer_message] of a decision, empty when absent. *)
Definition message_for_customer (d : pydict) : string :=
  match dict_lookup "customer_message" d with
  | Some (JStr s) => s
  | _ => ""
  end.

Definition nonempty (s : string) : bool := negb (String.eqb s "").

(** A row was appended to the sheet between [s] and [s']. *)
Definition row_written (s s' : service) : Prop :=
  exists row, sheet_rows s' = (sheet_rows s ++ [row])%list.

Definition keeps_rows (s s' : service) : Prop := sheet_rows s' = sheet_rows s.

(** The sheet was opened at startup. *)
Definition sheet_ready (s : service) : bool :=
  sheets_initialized s && worksheet s.

(** The service after it has printed [lines]. *)
Definition printed (s : service) (lines : list string) : service :=
  {| sheets_initialized := sheets_initialized s; worksheet := worksheet s;
     sheet_rows := sheet_rows s; stdout := (stdout s ++ lines)%list |}.

(** The lines the service prints for the notification of a request: an
    escalation goes to the dispatcher, otherwise a message goes to the
    customer. *)
Definition notification (request : ActionRequest) : list string :=
  let d := decision_or_empty request in
  if escalation_required d then
    [ "[SIMULATED] Escalation email to dispatcher";
      "   Subject: ESCALATION: " ++ predicted_label request ]
  else if nonempty (message_for_customer d) then
    [ "[SIMULATED] Customer notification email";
      "   Message: " ++ take_chars 100 (message_for_customer d) ++ "..." ]
  else [].

End executor_spec.

Module executor_agent_spec.
Import google_sheets_agent action_executor_agent.

(** The decision in an agent state, empty when absent. *)
Definition decision_of (st : pydict) : option pydict :=
  match dict_get "decision_output" (JObj []) st with
  | JObj d => Some d
  | _ => None
  end.

(** The e-mail [execute_actions] sends for a state, if any: to the
    dispatcher on escalation, else to the customer when there is a
    message. *)
Definition expected_mail (rt : runtime) (customer_email dispatcher_email : pystr)
    (st d : pydict) : list (pystr * string * json) :=
  let exception_type := dict_get "predicted_label" (JStr "Unknown") st in
  if executor_spec.escalation_required d then
    [ (dispatcher_email,
       "ESCALATION: " ++ py_str rt exception_type ++ " Exception",
       JStr (escalation_body rt st exception_type
               (dict_get "recommended_action" (JStr "No action determined") d)
               (dict_get "reasoning_summary" (JStr "N/A") d))) ]
  else if executor_spec.nonempty (executor_spec.message_for_customer d) then
    [ (customer_email,
       "Delivery Update: " ++ py_str rt exception_type,
       JStr (executor_spec.message_for_customer d)) ]
  else [].

Definition keeps_outbox (w w' : world) : Prop := outbox w' = outbox w.

End executor_agent_spec.

Module executor_samples.
Import action_executor_api.

Definition rt : runtime := decider_samples.runtime_with "" JNull.

Definition request_with (d : option pydict) : ActionRequest :=
  {| driver_note := "gate locked"; gps_deviation_km := 2 # 10;
     weather_condition := "Clear"; attempts := 2; hub_delay_minutes := 10;
     package_scan_result := "OK"; time_of_day := "Afternoon";
     predicted_label := "Access Issue"; confidence := 9 # 10;
     top_predictions := None; sop_retrieved := false; sop_id := None;
     decision := d |}.

Definition escalating : pydict :=
  [ ("recommended_action", JStr "Hold the package");
    ("customer_message", JStr "We will contact you.");
    ("requires_escalation", JBool true) ].

Definition informing : pydict :=
  [ ("recommended_action", JStr "Schedule re-delivery");
    ("customer_message", JStr "Please send your gate code.");
    ("requires_escalation", JBool false) ].

(** The service when [GOOGLE_SHEET_ID] is unset, and when the sheet could
    not be opened at startup. *)
Definition unconfigured : service :=
  startup_event builder_samples.cloud_up builder_samples.no_env [].

Definition sheet_env : environ :=
  fun k => if String.eqb k "GOOGLE_SHEET_ID" then Some "sheet-1"
           else if String.eqb k "GOOGLE_SHEETS_CREDENTIALS_JSON" then Some "{}"
           else None.

Definition cloud_sheets_down : cloud :=
  {| vertex_search_init := fun _ _ _ _ _ => None;
     chat_vertex_init := fun _ _ _ => None;
     path_exists := fun _ => false;
     sheets_connect :=
       fun _ _ _ => ConnectFailed (PyException "sheets unavailable") false |}.

Definition sheets_down : service := startup_event cloud_sheets_down sheet_env [].

Definition sheets_up : service :=
  startup_event builder_samples.cloud_up sheet_env [].

Definition append_works : list json -> option exn := fun _ => None.
Definition append_breaks : list json -> option exn :=
  fun _ => Some (PyException "quota exceeded").

End executor_samples.

(** ** The run of the orchestrator as a whole *)

Module orchestration_spec.
Import workflow_api workflow_spec.

(** The collaborator behind [o] answered 200 with a JSON body. *)
Definition answered (o : post_outcome) : bool :=
  match o with
  | Responds r =>
      (status_code r =? 200)
      && match body r with Some _ => true | None => false end
  | Throws _ => false
  end.

(** The entry of [agents_executed] a collaborator earns. *)
Definition listed (name : string) (o : post_outcome) : list string :=
  if answered o then [name] else [].

(** The JSON object a collaborator answered with, if it did. *)
Definition answered_with (o : post_outcome) (d : pydict) : Prop :=
  exists r, o = Responds r /\ status_code r = 200 /\ body r = Some (JObj d).

(** The Retrieval collaborator answers 200 with a list of matches whose
    first entry is the object [sop]. *)
Definition first_match (o : post_outcome) (sop : pydict) : Prop :=
  exists d2 rest, answered_with o d2
                  /\ dict_lookup "sops" d2 = Some (JArr (JObj sop :: rest)).

(** The four endpoints in the order of the pipeline. *)
Definition stage_urls (urls : AgentUrls) : list string :=
  [ AGENT1_URL urls ++ "/predict"; AGENT2_URL urls ++ "/retrieve";
    AGENT3_URL urls ++ "/decide"; AGENT4_URL urls ++ "/execute" ].

Definition keeps_executed (f f' : frame) : Prop :=
  agents_executed f' = agents_executed f.

Definition keeps_decision_dict (f f' : frame) : Prop :=
  decision_dict f' = decision_dict f.

(** The [decision] object Agent 4 is sent: what Agent 3 answered under
    [decision] (an empty object when the key is missing), [None] when
    Agent 3 gave no JSON answer. *)
Definition forwarded_decision (o : post_outcome) : json :=
  match o with
  | Responds r =>
      if status_code r =? 200 then
        match body r with
        | Some (JObj a3) => dict_get "decision" (JObj []) a3
        | _ => JNull
        end
      else JNull
  | Throws _ => JNull
  end.

End orchestration_spec.
(** ** What the classifier client leaves alone *)

Module classifier_frame_spec.
Import classifier_spec.

(** Every key other than the two results keeps its value. *)
Definition only_results_change (st st' : pydict) : Prop :=
  forall k, k <> "predicted_label" -> k <> "confidence" ->
            dict_lookup k st' = dict_lookup k st.

(** The first delivery field the state lacks. *)
Definition first_missing (st : pydict) : option string :=
  find (fun k => negb (dict_mem k st)) input_names.

End classifier_frame_spec.
(** ** Invariants of the decider clients *)

Module decision_invariant_spec.

(** All six decision fields are there. *)
Definition complete_decision (d : pydict) : bool :=
  forallb (fun k => dict_mem k d) decision_agent.required_fields.

(** Every key other than [decision_output] keeps its value. *)
Definition only_decision_changes (st st' : pydict) : Prop :=
  forall k, k <> "decision_output" -> dict_lookup k st' = dict_lookup k st.

(** The decision asks for escalation, read the way the executors read it. *)
Definition escalates (d : pydict) : bool :=
  truthy (dict_get "requires_escalation" (JBool false) d).

(** A reply wrapped in a Markdown code fence with an optional language. *)
Definition fenced (lang s : string) : string :=
  "```" ++ lang ++ nl ++ s ++ nl ++ "```".

(** No white space at either end. *)
Definition trimmed (s : string) : Prop := lstrip s = s /\ rstrip s = s.

End decision_invariant_spec.
(** ** The operational log *)

Module log_spec.
Import operational_log.

(** The cell of a row under a column header. *)
Fixpoint column_index (name : string) (cols : list string) : option nat :=
  match cols with
  | [] => None
  | c :: rest => if String.eqb name c then Some O
                 else option_map S (column_index name rest)
  end.

Definition cell (name : string) (row : list json) : option json :=
  match column_index name COLUMNS with
  | Some i => nth_error row i
  | None => None
  end.

(** The service's globals and rows are the same in [s] and [s']. *)
Definition same_sheet (s s' : action_executor_api.service) : Prop :=
  action_executor_api.sheets_initialized s'
  = action_executor_api.sheets_initialized s
  /\ action_executor_api.worksheet s' = action_executor_api.worksheet s
  /\ action_executor_api.sheet_rows s' = action_executor_api.sheet_rows s.

(** Every key other than [k0] keeps its value. *)
Definition only_key_changes (k0 : string) (st st' : pydict) : Prop :=
  forall k, k <> k0 -> dict_lookup k st' = dict_lookup k st.

(** The [requires_escalation] of the decision in a state, as the executor
    agent reads it. *)
Definition escalation_flag (st : pydict) : result json :=
  get (dict_get "decision_output" (JObj []) st) "requires_escalation"
    (JBool false).

(** The world differs at most in the state. *)
Definition same_effects (w w' : google_sheets_agent.world) : Prop :=
  google_sheets_agent.outbox w' = google_sheets_agent.outbox w
  /\ google_sheets_agent.sheet_rows w' = google_sheets_agent.sheet_rows w.

End log_spec.
(** ** The retrieval agent *)

Module retrieval_spec.

(** Only the three SOP keys may differ. *)
Definition only_sop_changes (st st' : pydict) : Prop :=
  forall k, k <> "sop_content" -> k <> "sop_text" -> k <> "sop_metadata" ->
            dict_lookup k st' = dict_lookup k st.

(** The SOP keys that the logger and the decision agent read later are
    the same in both states. *)
Definition same_sop (st st' : pydict) : Prop :=
  dict_lookup "sop_content" st' = dict_lookup "sop_content" st
  /\ dict_lookup "sop_metadata" st' = dict_lookup "sop_metadata" st.

(** The vector search raised or returned no neighbor. *)
Definition no_neighbors
    (r : result (list (list rag_retrieval.neighbor))) : Prop :=
  match r with
  | Raise _ | Ok [] | Ok ([] :: _) => True
  | Ok ((_ :: _) :: _) => False
  end.

End retrieval_spec.

Module retrieval_samples.
Import rag_retrieval.

(** [1.0 - d] *)
Definition complement (d : pyfloat) : pyfloat :=
  match d with
  | Finite q => Finite (1 - q)
  | Inf => NegInf
  | NegInf => Inf
  | NaN => NaN
  end.

(** A search that finds the access SOP, whose file is on disk. *)
Definition finds_access_sop : vertex :=
  {| get_embeddings := fun _ => Ok [1 # 2; 1 # 3];
     find_neighbors := fun _ _ _ =>
       Ok [[ {| id := "sop_access_issue"; distance := 2 # 10 |} ]];
     one_minus := complement;
     read_file := fun p =>
       if String.eqb p "sops/access_issue.txt"
       then Some (Ok "Request the gate code.") else None |}.

(** The index endpoint is down. *)
Definition search_down : vertex :=
  {| get_embeddings := fun _ => Ok [1 # 2; 1 # 3];
     find_neighbors := fun _ _ _ => Raise (PyException "deadline exceeded");
     one_minus := complement;
     read_file := fun _ => None |}.

Definition classified_delivery : pydict :=
  [ ("driver_note", JStr "gate locked");
    ("predicted_label", JStr "Access Issue");
    ("confidence", JFloat (9 # 10)) ].

End retrieval_samples.

Module service_samples.

(** The retrieval service after a successful startup with one SOP file. *)
Definition retrieval_up : sop_retrieval_api.service :=
  {| sop_retrieval_api.embedding_model := true;
     sop_retrieval_api.index_endpoint := true;
     sop_retrieval_api.SOP_CONTENT :=
       [("sop_access_issue", "Request the gate code.")] |}.

Definition retrieval_request : sop_retrieval_api.SOPRetrievalRequest :=
  {| sop_retrieval_api.exception_type := "Access Issue";
     sop_retrieval_api.driver_note := Some "gate locked";
     sop_retrieval_api.num_results := Some 1;
     sop_retrieval_api.confidence := None |}.

Definition hold_decision : decision_api.DecisionResponse :=
  {| decision_api.decision :=
       {| decision_api.recommended_action := "Hold the package";
          decision_api.driver_instruction := "Return to the hub";
          decision_api.customer_message := "We will contact you.";
          decision_api.requires_escalation := true;
          decision_api.d_confidence := 7 # 10;
          decision_api.reasoning_summary := "Third attempt" |};
     decision_api.status := "success";
     decision_api.agent := "agent3_decision" |}.

Definition logged_action : action_executor_api.ActionResponse :=
  {| action_executor_api.sheet_updated := true;
     action_executor_api.email_simulated := true;
     action_executor_api.escalated := true;
     action_executor_api.timestamp := "2024-01-01T00:00:00Z";
     action_executor_api.status := "success";
     action_executor_api.agent := "agent4_action" |}.

End service_samples.
(** ** The classification service *)

Module prediction_spec.
Import inference_pipeline api.

(** The three categorical fields all have a value of their list. *)
Definition valid_categories (x : features) : bool :=
  str_in (weather_condition x) valid_weather
  && str_in (package_scan_result x) valid_scan
  && str_in (time_of_day x) valid_time.

(** The response carries what [predict] returned. *)
Definition carries (resp : ExceptionResponse) (r : prediction) : Prop :=
  r_predicted_label resp = predicted_label r
  /\ r_confidence resp = confidence r
  /\ map (fun it => (label it, p_confidence it)) (r_top_predictions resp)
     = top_predictions r.

End prediction_spec.

(** A NumPy to run the examples with: a stable insertion sort of the
    indices, and the first index of a largest entry. *)
Module reference_numpy.
Import inference_pipeline.

Fixpoint insert_index (p : list Q) (i : nat) (l : list nat) : list nat :=
  match l with
  | [] => [i]
  | j :: l' =>
      if Qle_bool (nth i p 0%Q) (nth j p 0%Q) then i :: l
      else j :: insert_index p i l'
  end.

Definition sort_indices (p : list Q) : list nat :=
  fold_right (insert_index p) [] (seq 0 (length p)).

Fixpoint first_max (best : nat) (i : nat) (p rest : list Q) : nat :=
  match rest with
  | [] => best
  | q :: rest' =>
      if Qle_bool q (nth best p 0%Q) then first_max best (S i) p rest'
      else first_max i (S i) p rest'
  end.

#[export] Instance numpy : NumPy.
Proof.
  refine {| argsort := sort_indices;
            argmax := fun p => first_max 0 0 p p |}.
  - (* permutation *)
    intro p. unfold sort_indices. generalize (seq 0 (length p)) as l.
    assert (Hins : forall i l, Permutation (insert_index p i l) (i :: l)).
    { intros i l. induction l as [|j l IH]; simpl; [reflexivity|].
      destruct (Qle_bool _ _); [reflexivity|].
      rewrite IH. apply perm_swap. }
    induction l as [|i l IH]; simpl; [reflexivity|].
    rewrite Hins. now constructor.
  - (* order *)
    intro p. unfold sort_indices. generalize (seq 0 (length p)) as l.
    set (R := fun i j : nat => (nth i p 0 <= nth j p 0)%Q).
    assert (Hperm : forall i l, Permutation (insert_index p i l) (i :: l)).
    { intros i l. induction l as [|j l IH]; simpl; [reflexivity|].
      destruct (Qle_bool _ _); [reflexivity|].
      rewrite IH. apply perm_swap. }
    assert (Hins : forall i l, StronglySorted R l ->
                               StronglySorted R (insert_index p i l)).
    { intros i l. induction 1 as [|j l Hs IH Hf]; simpl;
        [repeat constructor|].
      destruct (Qle_bool (nth i p 0%Q) (nth j p 0%Q)) eqn:E.
      - apply Qle_bool_iff in E. constructor; [now constructor|].
        constructor; [exact E|].
        eapply Forall_impl; [|exact Hf]. intros k Hk. unfold R in *.
        eapply Qle_trans; eassumption.
      - constructor; [exact IH|].
        apply (Permutation_Forall (Permutation_sym (Hperm i l))).
        constructor; [|exact Hf]. unfold R.
        destruct (Qlt_le_dec (nth i p 0%Q) (nth j p 0%Q)) as [Hlt|Hle];
          [|exact Hle].
        apply Qlt_le_weak, Qle_bool_iff in Hlt. congruence. }
    induction l as [|i l IH]; simpl; [constructor | now apply Hins].
  - (* the index of the maximum is an index *)
    intros p Hne.
    assert (H : forall (rest pre : list Q) (best : nat),
              p = (pre ++ rest)%list -> (best < length p)%nat ->
              (first_max best (length pre) p rest < length p)%nat).
    { induction rest as [|q rest IH]; intros pre best Hp Hb; simpl; [exact Hb|].
      assert (Hp' : p = ((pre ++ [q]) ++ rest)%list)
          by (now rewrite <- app_assoc).
      assert (Hl : length (pre ++ [q])%list = S (length pre))
        by (rewrite length_app; simpl; lia).
      destruct (Qle_bool _ _); rewrite <- Hl; apply IH; auto.
      rewrite Hp, length_app. simpl. lia. }
    apply (H p [] 0%nat eq_refl). destruct p; [congruence | simpl; lia].
  - (* and no entry is larger *)
    intros p i Hi.
    assert (H : forall (rest pre : list Q) (best : nat),
              p = (pre ++ rest)%list -> (best < length pre)%nat ->
              (forall j, (j < length pre)%nat ->
                         (nth j p 0 <= nth best p 0)%Q) ->
              forall j, (j < length p)%nat ->
                (nth j p 0 <= nth (first_max best (length pre) p rest) p 0)%Q).
    { induction rest as [|q rest IH]; intros pre best Hp Hb Hmax j Hj; simpl.
      - apply Hmax. rewrite Hp, length_app in Hj. simpl in Hj. lia.
      - assert (Hp' : p = ((pre ++ [q]) ++ rest)%list)
          by (now rewrite <- app_assoc).
        assert (Hl : length (pre ++ [q])%list = S (length pre))
          by (rewrite length_app; simpl; lia).
        assert (Hq : nth (length pre) p 0%Q = q)
          by (rewrite Hp, app_nth2, Nat.sub_diag by lia; reflexivity).
        destruct (Qle_bool q (nth best p 0%Q)) eqn:E; rewrite <- Hl.
        + apply Qle_bool_iff in E. apply IH; auto; [lia|].
          intros k Hk. rewrite Hl in Hk.
          destruct (Nat.eq_dec k (length pre)) as [->|Hne];
            [now rewrite Hq | apply Hmax; lia].
        + assert (Hlt : (nth best p 0 <= q)%Q).
          { destruct (Qlt_le_dec q (nth best p 0%Q)) as [Hlt|Hle]; [|exact Hle].
            apply Qlt_le_weak, Qle_bool_iff in Hlt. congruence. }
          apply IH; auto; [lia|].
          intros k Hk. rewrite Hl in Hk. rewrite Hq.
          destruct (Nat.eq_dec k (length pre)) as [->|Hne];
            [rewrite Hq; apply Qle_refl|].
          eapply Qle_trans; [apply Hmax; lia | exact Hlt]. }
    destruct p as [|q p]; [simpl in Hi; lia|].
    change (first_max 0 0 (q :: p) (q :: p))
      with (if Qle_bool q q then first_max 0 1 (q :: p) p
            else first_max 0 1 (q :: p) p).
    destruct (Qle_bool q q);
      apply (H p [q] 0%nat eq_refl); try exact Hi; simpl; try lia;
      intros [|k] Hk; try lia; apply Qle_refl.
Defined.

End reference_numpy.

Module prediction_samples.
Import inference_pipeline api.

(** A classifier of three classes that is surest in a storm. *)
Definition three_classes : ExceptionClassifier :=
  {| forward := fun x =>
       if String.eqb (weather_condition x) "Storm"
       then Ok [(1 # 10)%Q; (2 # 10)%Q; (7 # 10)%Q]
       else Ok [(5 # 10)%Q; (3 # 10)%Q; (2 # 10)%Q];
     classes := ["Access Issue"; "Address Issue"; "Weather Delay"] |}.

Definition locked_gate : features :=
  {| driver_note := "customer gate locked, couldn't enter";
     gps_deviation_km := (72 # 10)%Q;
     weather_condition := "Clear";
     attempts := 2;
     hub_delay_minutes := 30;
     package_scan_result := "OK";
     time_of_day := "Afternoon" |}.

End prediction_samples.
(** * Facts about the embedding *)

(** ** Dictionaries *)

Lemma dict_lookup_set_same (k : string) (v : json) (d : pydict) :
  dict_lookup k (dict_set k v d) = Some v.
Proof.
  induction d as [|[k' v'] d IH]; simpl.
  - rewrite String.eqb_refl. reflexivity.
  - destruct (String.eqb k k') eqn:E; simpl; rewrite E; auto.
Qed.

Lemma dict_lookup_set_other (k k0 : string) (v : json) (d : pydict) :
  k0 <> k -> dict_lookup k0 (dict_set k v d) = dict_lookup k0 d.
Proof.
  intros Hne. induction d as [|[k' v'] d IH]; simpl.
  - destruct (String.eqb k0 k) eqn:E; auto.
    apply String.eqb_eq in E. contradiction.
  - destruct (String.eqb k k') eqn:E; simpl.
    + apply String.eqb_eq in E. subst k'.
      destruct (String.eqb k0 k) eqn:E0; auto.
      apply String.eqb_eq in E0. contradiction.
    + destruct (String.eqb k0 k'); auto.
Qed.

(** ** Computations in [M] *)

Section Preserves.
Context {S : Type} (R : S -> S -> Prop) `{!PreOrder R}.

Lemma preserves_ret {A} (a : A) : preserves R (ret a).
Proof. intro s. reflexivity. Qed.

Lemma preserves_raise {A} (e : exn) : preserves R (@raise S A e).
Proof. intro s. reflexivity. Qed.

Lemma preserves_lift {A} (r : result A) : preserves R (lift r).
Proof. intro s. reflexivity. Qed.

Lemma preserves_gets {A} (g : S -> A) : preserves R (gets g).
Proof. intro s. reflexivity. Qed.

Lemma preserves_modify (g : S -> S) :
  (forall s, R s (g s)) -> preserves R (modify g).
Proof. intros H s. apply H. Qed.

Lemma preserves_bind {A B} (m : M S A) (k : A -> M S B) :
  preserves R m -> (forall a, preserves R (k a)) -> preserves R (bind m k).
Proof.
  intros Hm Hk s. unfold bind. specialize (Hm s).
  destruct (m s) as [s' [a|e]]; simpl in *; auto.
  etransitivity; [exact Hm | apply Hk].
Qed.

Lemma preserves_try {A} (m : M S A) (h : exn -> option (M S A)) :
  preserves R m -> (forall e k, h e = Some k -> preserves R k) ->
  preserves R (try_except m h).
Proof.
  intros Hm Hh s. unfold try_except. specialize (Hm s).
  destruct (m s) as [s' [a|e]]; simpl in *; auto.
  destruct (h e) as [k|] eqn:E; simpl; auto.
  etransitivity; [exact Hm | eapply Hh; eauto].
Qed.

End Preserves.

(** One syntax-directed step of a [preserves] proof. *)
Ltac pres_step :=
  lazymatch goal with
  | |- preserves _ (bind _ _) => apply preserves_bind; [try exact _ | | intro]
  | |- preserves _ (try_except _ _) =>
      apply preserves_try;
      [ try exact _
      | | let H := fresh in
          intros ? ? H; simpl in H;
          repeat match type of H with
                 | (if ?b then _ else _) = _ => destruct b
                 end;
          first [discriminate H | injection H as <-] ]
  | |- preserves _ (ret _) => apply preserves_ret; exact _
  | |- preserves _ (raise _) => apply preserves_raise; exact _
  | |- preserves _ (lift _) => apply preserves_lift; exact _
  | |- preserves _ (gets _) => apply preserves_gets; exact _
  | |- preserves _ (modify _) => apply preserves_modify; intro
  | |- preserves _ (if ?b then _ else _) => destruct b
  | |- preserves _ (match ?b with _ => _ end) => destruct b
  end.

(** A [try] whose handlers catch every exception and fall through never
    raises. *)
Lemma try_catch_all_ok {S} (m : M S unit) (s : S) :
  snd (try_except m (fun _ => Some (ret tt)) s) = Ok tt.
Proof.
  unfold try_except. destruct (m s) as [s' [[]|e]]; reflexivity.
Qed.

(** ** The orchestrator *)

Section Orchestrator.

Import workflow_api workflow_spec.
Context `{P : Pydantic} `{K : Clients}
  (urls : AgentUrls) (net : network) (data : WorkflowRequest).

#[local] Instance keeps_sop_preorder : PreOrder keeps_sop.
Proof.
  split.
  - intro f. repeat split.
  - intros a b c. unfold keeps_sop. intuition congruence.
Qed.

#[local] Instance keeps_decision_preorder : PreOrder keeps_decision.
Proof.
  split.
  - intro f. repeat split.
  - intros a b c. unfold keeps_decision. intuition congruence.
Qed.

#[local] Instance keeps_requests_preorder : PreOrder keeps_requests.
Proof.
  split.
  - intro f. reflexivity.
  - intros a b c. unfold keeps_requests. congruence.
Qed.

#[local] Instance extends_preorder : PreOrder extends.
Proof.
  split.
  - intro f. split; exists []; now rewrite app_nil_r.
  - intros a b c [[l1 H1] [l2 H2]] [[l3 H3] [l4 H4]]. split.
    + exists (l1 ++ l3)%list. rewrite H3, H1. now rewrite app_assoc.
    + exists (l2 ++ l4)%list. rewrite H4, H2. now rewrite app_assoc.
Qed.

Lemma post_keeps_sop u p : preserves keeps_sop (post net u p).
Proof.
  intro f. unfold post.
  destruct (httpx_encodes p); [destruct (net u p)|]; repeat split.
Qed.

Lemma post_keeps_decision u p : preserves keeps_decision (post net u p).
Proof.
  intro f. unfold post.
  destruct (httpx_encodes p); [destruct (net u p)|]; repeat split.
Qed.

Lemma post_extends u p : preserves extends (post net u p).
Proof.
  intro f. unfold post.
  destruct (httpx_encodes p); [destruct (net u p)|];
    (split; [exists []; simpl; now rewrite app_nil_r
            | first [eexists; reflexivity
                    | exists []; simpl; now rewrite app_nil_r]]).
Qed.

Lemma executed_extends n f : extends f (executed n f).
Proof. split; [eexists; reflexivity | exists []; simpl; now rewrite app_nil_r]. Qed.

Ltac pres :=
  repeat pres_step;
  try apply post_keeps_sop; try apply post_keeps_decision;
  try apply post_extends; try apply executed_extends;
  try (repeat split; fail);
  try (split; exists []; simpl; now rewrite app_nil_r);
  try reflexivity.

(** Agents 3 and 4 leave what Agent 2 retrieved untouched. *)
Lemma call_agent3_keeps_sop a1 :
  preserves keeps_sop (call_agent3 urls net data a1).
Proof. unfold call_agent3. pres. Qed.

Lemma call_agent4_keeps_sop a1 :
  preserves keeps_sop (call_agent4 urls net data a1).
Proof. unfold call_agent4. pres. Qed.

(** Agent 4 leaves the decision of Agent 3 untouched. *)
Lemma call_agent4_keeps_decision a1 :
  preserves keeps_decision (call_agent4 urls net data a1).
Proof. unfold call_agent4. pres. Qed.

Lemma call_agent3_extends a1 : preserves extends (call_agent3 urls net data a1).
Proof. unfold call_agent3. pres. Qed.

Lemma call_agent4_extends a1 : preserves extends (call_agent4 urls net data a1).
Proof. unfold call_agent4. pres. Qed.


(** Stepping through the straight-line prefix of a computation. *)
Lemma bind_modify {S B} (g : S -> S) (k : unit -> M S B) (s : S) :
  bind (modify g) k s = k tt (g s).
Proof. reflexivity. Qed.

Lemma bind_gets {S A B} (g : S -> A) (k : A -> M S B) (s : S) :
  bind (gets g) k s = k (g s) s.
Proof. reflexivity. Qed.

Lemma bind_lift_ok {S A B} (a : A) (k : A -> M S B) (s : S) :
  bind (lift (Ok a)) k s = k a s.
Proof. reflexivity. Qed.

Lemma getitem_found d k v : dict_lookup k d = Some v -> getitem (JObj d) k = Ok v.
Proof. intro H. unfold getitem. now rewrite H. Qed.

Lemma get_dict d k v : get (JObj d) k v = Ok (dict_get k v d).
Proof. reflexivity. Qed.

Ltac prefix H1 H2 :=
  repeat first
    [ rewrite bind_modify | rewrite bind_gets
    | rewrite (getitem_found _ _ _ H1) | rewrite (getitem_found _ _ _ H2)
    | rewrite get_dict | rewrite bind_lift_ok ].

(** Agents 3 and 4 never raise, whatever their collaborators do. *)
Lemma call_agent3_ok d1 pl c f :
  dict_lookup "predicted_label" d1 = Some pl ->
  dict_lookup "confidence" d1 = Some c ->
  snd (call_agent3 urls net data (JObj d1) f) = Ok tt.
Proof.
  intros H1 H2. unfold call_agent3. prefix H1 H2. apply try_catch_all_ok.
Qed.

Lemma call_agent4_ok d1 pl c f :
  dict_lookup "predicted_label" d1 = Some pl ->
  dict_lookup "confidence" d1 = Some c ->
  snd (call_agent4 urls net data (JObj d1) f) = Ok tt.
Proof.
  intros H1 H2. unfold call_agent4. prefix H1 H2. apply try_catch_all_ok.
Qed.

(** A failed Decision stage leaves [decision] at [None]. *)
Lemma call_agent3_failed d1 pl c f :
  dict_lookup "predicted_label" d1 = Some pl ->
  dict_lookup "confidence" d1 = Some c ->
  stage_fails (answer net (agent3_call urls data d1 pl c f)) ->
  decision (fst (call_agent3 urls net data (JObj d1) f)) = None.
Proof.
  intros H1 H2. unfold answer, attempt, agent3_call; simpl.
  unfold call_agent3. prefix H1 H2.
  unfold try_except, bind at 1, post. simpl.
  destruct (httpx_encodes _); [|reflexivity].
  destruct (net _ _) as [r|e]; simpl; [|reflexivity].
  intros [Hs|Hb].
  - apply Z.eqb_neq in Hs. rewrite Hs. reflexivity.
  - destruct (status_code r =? 200); [|reflexivity].
    unfold json_of. rewrite Hb. reflexivity.
Qed.

Lemma call_agent4_failed d1 pl c f :
  dict_lookup "predicted_label" d1 = Some pl ->
  dict_lookup "confidence" d1 = Some c ->
  stage_fails (answer net (agent4_call urls data d1 pl c f)) ->
  action (fst (call_agent4 urls net data (JObj d1) f)) = None.
Proof.
  intros H1 H2. unfold answer, attempt, agent4_call; simpl.
  unfold call_agent4. prefix H1 H2.
  unfold try_except, bind at 1, post. simpl.
  destruct (httpx_encodes _); [|reflexivity].
  destruct (net _ _) as [r|e]; simpl; [|reflexivity].
  intros [Hs|Hb].
  - apply Z.eqb_neq in Hs. rewrite Hs. reflexivity.
  - destruct (status_code r =? 200); [|reflexivity].
    unfold json_of. rewrite Hb. reflexivity.
Qed.

(** A [try] that starts with a request sends exactly that request, if
    the client can encode it, when nothing after it sends another. *)
Lemma try_post_requests {A} u p (k : Response -> M frame A) h f :
  (forall r, preserves keeps_requests (k r)) ->
  (forall e kk, h e = Some kk -> preserves keeps_requests kk) ->
  requests (fst (try_except (bind (post net u p) k) h f))
  = (requests f ++ posted {| url := u; payload := p |})%list.
Proof.
  intros Hk Hh. unfold try_except, bind, post, posted. simpl payload.
  destruct (httpx_encodes p).
  - destruct (net u p) as [r|e].
    + pose proof (Hk r (sent {| url := u; payload := p |} f)) as Hr.
      destruct (k r _) as [s' [a|e]]; simpl in *; [exact Hr|].
      destruct (h e) as [kk|] eqn:E; simpl; [|exact Hr].
      rewrite (Hh _ _ E s'). exact Hr.
    + destruct (h e) as [kk|] eqn:E; simpl; [|reflexivity].
      rewrite (Hh _ _ E _). reflexivity.
  - rewrite app_nil_r.
    destruct (h ValueError) as [kk|] eqn:E; simpl; [|reflexivity].
    rewrite (Hh _ _ E _). reflexivity.
Qed.

(** The Execution stage is always attempted: Agent 4 is sent the record
    accumulated so far. *)
Lemma call_agent4_requests d1 pl c f :
  dict_lookup "predicted_label" d1 = Some pl ->
  dict_lookup "confidence" d1 = Some c ->
  requests (fst (call_agent4 urls net data (JObj d1) f))
  = (requests f ++ posted (agent4_call urls data d1 pl c f))%list.
Proof.
  intros H1 H2. unfold agent4_call.
  unfold call_agent4. prefix H1 H2.
  rewrite try_post_requests; [reflexivity | |].
  - intro r. repeat pres_step; reflexivity.
  - intros e kk H. injection H as <-. apply preserves_ret; exact _.
Qed.


Lemma call_agent3_requests d1 pl c f :
  dict_lookup "predicted_label" d1 = Some pl ->
  dict_lookup "confidence" d1 = Some c ->
  requests (fst (call_agent3 urls net data (JObj d1) f))
  = (requests f ++ posted (agent3_call urls data d1 pl c f))%list.
Proof.
  intros H1 H2. unfold agent3_call.
  unfold call_agent3. prefix H1 H2.
  rewrite try_post_requests; [reflexivity | |].
  - intro r. repeat pres_step; reflexivity.
  - intros e kk H. injection H as <-. apply preserves_ret; exact _.
Qed.

(** Agent 1 on a well-formed answer. *)
Lemma call_agent1_classified d1 pl c tps f :
  classified urls net data d1 pl c tps ->
  call_agent1 urls net data f
  = (executed "agent1_classification" (sent (predict_call urls data) f),
     Ok (JObj d1)).
Proof.
  intros [(r & Hnet & Hs & Hb) (Hpl & Hc & _)].
  unfold call_agent1, try_except, bind at 1, post.
  unfold agent1_outcome, attempt in Hnet.
  destruct (httpx_encodes (agent1_payload data)); [|discriminate].
  rewrite Hnet, Hs. simpl.
  unfold json_of. rewrite Hb. rewrite bind_lift_ok, bind_modify.
  rewrite (getitem_found _ _ _ Hpl), bind_lift_ok.
  rewrite (getitem_found _ _ _ Hc), bind_lift_ok. reflexivity.
Qed.

(** Agent 2 when its collaborator is unreachable or answers with an error
    status: the failure is swallowed and the SOP slots stay empty. *)
Lemma call_agent2_quiet d1 pl f :
  dict_lookup "predicted_label" d1 = Some pl ->
  retrieval_fails_quietly (agent2_outcome urls net data pl) ->
  call_agent2 urls net data (JObj d1) f
  = (sent (retrieve_call urls data pl) (set_sop false JNull JNull JNull f), Ok tt).
Proof.
  intros Hpl. unfold retrieval_fails_quietly, agent2_outcome, attempt, call_agent2.
  rewrite (getitem_found _ _ _ Hpl), bind_lift_ok, bind_modify.
  unfold try_except, bind at 1, post.
  destruct (httpx_encodes _); [|discriminate].
  destruct (net _ _) as [r|e]; intros H.
  - apply Z.eqb_neq in H. rewrite H. reflexivity.
  - rewrite H. reflexivity.
Qed.

(** Agent 2 on an answer without matches. *)
Lemma call_agent2_zero d1 pl f :
  dict_lookup "predicted_label" d1 = Some pl ->
  zero_matches (agent2_outcome urls net data pl) ->
  call_agent2 urls net data (JObj d1) f
  = (executed "agent2_sop_retrieval"
       (sent (retrieve_call urls data pl) (set_sop false JNull JNull JNull f)), Ok tt).
Proof.
  intros Hpl (r & d2 & Hnet & Hs & Hb & Hsops).
  unfold agent2_outcome, attempt in Hnet. unfold call_agent2.
  rewrite (getitem_found _ _ _ Hpl), bind_lift_ok, bind_modify.
  unfold try_except, bind at 1, post.
  destruct (httpx_encodes _); [|discriminate].
  rewrite Hnet, Hs. simpl.
  unfold json_of. rewrite Hb. rewrite bind_lift_ok, bind_modify.
  rewrite get_dict, bind_lift_ok. unfold dict_get. rewrite Hsops. reflexivity.
Qed.

(** The response is built from the classification and the frame. *)
Lemma build_response_ok d1 pl c tps f sc ss si :
  dict_lookup "predicted_label" d1 = Some (JStr pl) ->
  dict_lookup "confidence" d1 = Some (JFloat c) ->
  dict_get "top_predictions" (JArr []) d1 = JArr (map JObj tps) ->
  v_optional v_str (sop_content f) = Some sc ->
  v_optional v_float (sop_score f) = Some ss ->
  v_optional v_str (sop_id f) = Some si ->
  build_response (JObj d1) f
  = (f, Ok {| wr_predicted_label := pl; wr_confidence := c;
              wr_top_predictions := tps;
              wr_sop_retrieved := sop_retrieved f;
              wr_sop_content := sc; wr_sop_score := ss; wr_sop_id := si;
              wr_decision := decision f; wr_action := action f;
              wr_agents_executed := agents_executed f;
              wr_status := "success" |}).
Proof.
  intros Hpl Hc Htp Hsc Hss Hsi. unfold build_response.
  rewrite (getitem_found _ _ _ Hpl), bind_lift_ok.
  rewrite (getitem_found _ _ _ Hc), bind_lift_ok.
  rewrite get_dict, bind_lift_ok, bind_gets. rewrite Htp.
  unfold lift, WorkflowResponse_init.
  rewrite v_str_exact, v_float_exact, v_dicts_exact, Hsc, Hss, Hsi. reflexivity.
Qed.

(** The stages after Retrieval, from any frame [f2]: whatever Agents 3 and
    4 do, a response with status "success" is returned; it carries the
    classification and the SOP slots of [f2] unchanged; a failed Decision
    stage leaves [decision] absent, a failed Execution stage leaves
    [action] absent. *)
Lemma downstream_failures_absorbed d1 pl c tps f2 sc ss si :
  dict_lookup "predicted_label" d1 = Some (JStr pl) ->
  dict_lookup "confidence" d1 = Some (JFloat c) ->
  dict_get "top_predictions" (JArr []) d1 = JArr (map JObj tps) ->
  v_optional v_str (sop_content f2) = Some sc ->
  v_optional v_float (sop_score f2) = Some ss ->
  v_optional v_str (sop_id f2) = Some si ->
  exists f resp c4,
    (call_agent3 urls net data (JObj d1) ;;
     call_agent4 urls net data (JObj d1) ;;
     build_response (JObj d1)) f2 = (f, Ok resp)
    /\ wr_status resp = "success"
    /\ wr_predicted_label resp = pl /\ wr_confidence resp = c
    /\ wr_top_predictions resp = tps
    /\ wr_sop_retrieved resp = sop_retrieved f2
    /\ wr_sop_content resp = sc /\ wr_sop_score resp = ss /\ wr_sop_id resp = si
    /\ requests f
       = (requests f2
          ++ posted (agent3_call urls data d1 (JStr pl) (JFloat c) f2)
          ++ posted c4)%list
    /\ url c4 = AGENT4_URL urls ++ "/execute"
    /\ (exists l, wr_agents_executed resp = (agents_executed f2 ++ l)%list)
    /\ (stage_fails (answer net (agent3_call urls data d1 (JStr pl) (JFloat c) f2)) ->
        wr_decision resp = None)
    /\ (stage_fails (answer net c4) -> wr_action resp = None).
Proof.
  intros Hpl Hc Htp Hsc Hss Hsi.
  pose proof (call_agent3_ok d1 _ _ f2 Hpl Hc) as H3ok.
  pose proof (call_agent3_keeps_sop (JObj d1) f2) as (K1 & K2 & K3 & K4).
  pose proof (call_agent3_requests d1 _ _ f2 Hpl Hc) as H3req.
  pose proof (call_agent3_extends (JObj d1) f2) as [[l3 H3ext] _].
  pose proof (call_agent3_failed d1 _ _ f2 Hpl Hc) as H3fail.
  unfold bind at 1.
  destruct (call_agent3 urls net data (JObj d1) f2) as [f3 r3]. simpl in *.
  subst r3.
  pose proof (call_agent4_ok d1 _ _ f3 Hpl Hc) as H4ok.
  pose proof (call_agent4_keeps_sop (JObj d1) f3) as (L1 & L2 & L3 & L4).
  pose proof (call_agent4_keeps_decision (JObj d1) f3) as (D1 & D2).
  pose proof (call_agent4_requests d1 _ _ f3 Hpl Hc) as H4req.
  pose proof (call_agent4_extends (JObj d1) f3) as [[l4 H4ext] _].
  pose proof (call_agent4_failed d1 _ _ f3 Hpl Hc) as H4fail.
  unfold bind at 1.
  destruct (call_agent4 urls net data (JObj d1) f3) as [f4 r4]. simpl in *.
  subst r4.
  assert (Hsc4 : v_optional v_str (sop_content f4) = Some sc) by congruence.
  assert (Hss4 : v_optional v_float (sop_score f4) = Some ss) by congruence.
  assert (Hsi4 : v_optional v_str (sop_id f4) = Some si) by congruence.
  rewrite (build_response_ok d1 pl c tps f4 sc ss si Hpl Hc Htp Hsc4 Hss4 Hsi4).
  eexists _, _, (agent4_call urls data d1 (JStr pl) (JFloat c) f3).
  split; [reflexivity|]. simpl.
  repeat split; try congruence.
  - rewrite H4req, H3req. now rewrite <- app_assoc.
  - exists (l3 ++ l4)%list. rewrite H4ext, H3ext. now rewrite app_assoc.
  - intro Hf. rewrite D1. auto.
  - exact H4fail.
Qed.


(** C1.  If the Classification stage fails (non-2xx answer, or the
    collaborator is unreachable), [run_workflow] raises to its caller, the
    only request it has sent is the one to the classification service, and
    the list of executed agents is empty. *)
Theorem classification_failure_is_fatal :
  classification_fails urls net data ->
  exists f,
    run_workflow urls net data frame0
    = (f, Raise (classification_failure urls net data))
    /\ requests f = [predict_call urls data]
    /\ agents_executed f = [].
Proof.
  unfold classification_fails, classification_failure, agent1_outcome, attempt.
  unfold run_workflow, call_agent1, bind, try_except, post.
  destruct (httpx_encodes (agent1_payload data)); [|discriminate].
  destruct (net (AGENT1_URL urls ++ "/predict") (agent1_payload data))
    as [r | e] eqn:Hnet; intros Hfail.
  - assert (Hne : (status_code r =? 200) = false) by (apply Z.eqb_neq; lia).
    rewrite Hne. simpl. eexists. split; [reflexivity|]. split; reflexivity.
  - rewrite Hfail. simpl. eexists. split; [reflexivity|]. split; reflexivity.
Qed.

(** A run whose Retrieval stage is unreachable or answers with an error
    status, and whose later stages do anything at all, still returns
    "success": the SOP slots are absent, the classification is returned as
    Agent 1 gave it, and a failed Decision or Execution stage shows as an
    absent [decision] or [action]. *)
Theorem degraded_run_succeeds d1 pl c tps :
  classified urls net data d1 pl c tps ->
  retrieval_fails_quietly (agent2_outcome urls net data (JStr pl)) ->
  exists f resp c3 c4,
    run_workflow urls net data frame0 = (f, Ok resp)
    /\ wr_status resp = "success"
    /\ wr_predicted_label resp = pl /\ wr_confidence resp = c
    /\ wr_top_predictions resp = tps
    /\ wr_sop_retrieved resp = false
    /\ wr_sop_content resp = None /\ wr_sop_score resp = None
    /\ wr_sop_id resp = None
    /\ requests f
       = ([predict_call urls data; retrieve_call urls data (JStr pl)]
          ++ posted c3 ++ posted c4)%list
    /\ url c3 = AGENT3_URL urls ++ "/decide"
    /\ url c4 = AGENT4_URL urls ++ "/execute"
    /\ (stage_fails (answer net c3) -> wr_decision resp = None)
    /\ (stage_fails (answer net c4) -> wr_action resp = None).
Proof.
  intros Hcl Hq. pose proof Hcl as (_ & Hpl & Hc & Htp).
  unfold run_workflow. unfold bind at 1.
  rewrite (call_agent1_classified _ _ _ _ _ Hcl).
  unfold bind at 1. rewrite (call_agent2_quiet _ _ _ Hpl Hq).
  match goal with |- context [(_ ;; _ ;; _) ?f2] => set (f2' := f2) end.
  destruct (downstream_failures_absorbed d1 pl c tps f2' None None None
              Hpl Hc Htp eq_refl eq_refl eq_refl)
    as (f & resp & c4 & Hrun & Hst & Hl & Hcf & Htps & Hsr & Hsc & Hss & Hsi
        & Hreq & Hu4 & _ & Hd & Ha).
  exists f, resp, (agent3_call urls data d1 (JStr pl) (JFloat c) f2'), c4.
  rewrite Hrun. repeat split; auto.
Qed.


(** With a Retrieval answer whose body is not JSON the run raises: only
    request errors are caught around Agent 2. *)
Lemma retrieval_malformed_body_raises d1 pl c tps r :
  classified urls net data d1 pl c tps ->
  agent2_outcome urls net data (JStr pl) = Responds r ->
  status_code r = 200 -> body r = None ->
  exists f, run_workflow urls net data frame0 = (f, Raise ValueError)
            /\ requests f = [predict_call urls data; retrieve_call urls data (JStr pl)].
Proof.
  intros Hcl Hnet Hs Hb. pose proof Hcl as (_ & Hpl & Hc & Htp).
  unfold run_workflow. unfold bind at 1.
  rewrite (call_agent1_classified _ _ _ _ _ Hcl).
  unfold bind at 1. unfold call_agent2.
  rewrite (getitem_found _ _ _ Hpl), bind_lift_ok, bind_modify.
  unfold try_except, bind at 1, post. unfold agent2_outcome, attempt in Hnet.
  destruct (httpx_encodes _); [|discriminate].
  rewrite Hnet, Hs. simpl. unfold json_of. rewrite Hb.
  eexists. split; reflexivity.
Qed.

End Orchestrator.

Section OrchestratorExamples.
Import workflow_api workflow_spec samples.

(** C1, witness: the classification service answers 500. *)
Lemma classification_failure_is_fatal_witness :
  classification_fails urls
    (scripted (status 500 "Internal Server Error") (ok no_sops) (ok decided)
       (ok acted)) gate_locked
  /\ exists f,
       run_workflow urls
         (scripted (status 500 "Internal Server Error") (ok no_sops)
            (ok decided) (ok acted))
         gate_locked frame0
       = (f, Raise (HTTPException 502
                      "Agent 1 (Classification) failed: Internal Server Error"))
       /\ requests f = [predict_call urls gate_locked]
       /\ agents_executed f = [].
Proof.
  assert (H : classification_fails urls
                (scripted (status 500 "Internal Server Error") (ok no_sops)
                   (ok decided) (ok acted)) gate_locked).
  { unfold classification_fails. simpl. lia. }
  split; [exact H|].
  exact (classification_failure_is_fatal urls _ gate_locked H).
Defined.

(** The sample classification is a well-formed answer. *)
Lemma classified_sample o2 o3 o4 :
  classified urls (scripted (ok access_issue) o2 o3 o4) gate_locked
    [ ("predicted_label", JStr "Access Issue");
      ("confidence", JFloat (9 # 10));
      ("top_predictions",
        JArr [ JObj [("label", JStr "Access Issue"); ("confidence", JFloat (9 # 10))];
               JObj [("label", JStr "Customer Not Home"); ("confidence", JFloat (1 # 10))] ]) ]
    "Access Issue" (9 # 10)
    [ [("label", JStr "Access Issue"); ("confidence", JFloat (9 # 10))];
      [("label", JStr "Customer Not Home"); ("confidence", JFloat (1 # 10))] ].
Proof.
  split; [|repeat split].
  eexists. split; [reflexivity|]. split; reflexivity.
Defined.



(** The two scenarios of the specification: every collaborator healthy,
    and the decision collaborator unreachable. *)
Example all_stages_healthy :
  exists f resp,
    run_workflow urls
      (scripted (ok access_issue) (ok one_sop) (ok decided) (ok acted))
      gate_locked frame0 = (f, Ok resp)
    /\ wr_agents_executed resp
       = [ "agent1_classification"; "agent2_sop_retrieval";
           "agent3_decision"; "agent4_action" ]
    /\ wr_status resp = "success"
    /\ wr_sop_retrieved resp = true.
Proof.
  eexists _, _. split; [vm_compute; reflexivity|]. repeat split.
Qed.

Example decision_unreachable :
  exists f resp,
    run_workflow urls
      (scripted (ok access_issue) (ok one_sop) unreachable (ok acted))
      gate_locked frame0 = (f, Ok resp)
    /\ wr_agents_executed resp
       = [ "agent1_classification"; "agent2_sop_retrieval"; "agent4_action" ]
    /\ wr_decision resp = None
    /\ wr_status resp = "success".
Proof.
  eexists _, _. split; [vm_compute; reflexivity|]. repeat split.
Qed.

(** C2, the failing input.  The Retrieval service answers 200 with a body
    that is not JSON, or with a match that carries no score: the run
    raises and Agents 3 and 4 are never called.  The same malformed answer
    from the Decision service is absorbed. *)
Theorem retrieval_failure_not_absorbed :
  (exists f,
     run_workflow urls
       (scripted (ok access_issue) (status 200 "<html>Bad gateway</html>")
          (ok decided) (ok acted))
       gate_locked frame0 = (f, Raise ValueError)
     /\ map url (requests f) = ["http://agent1/predict"; "http://agent2/retrieve"])
  /\ (exists f,
        run_workflow urls
          (scripted (ok access_issue)
             (ok (JObj [("sops", JArr [JObj [("datapoint_id", JStr "access_issue")]])]))
             (ok decided) (ok acted))
          gate_locked frame0 = (f, Raise TypeError)
        /\ map url (requests f)
           = ["http://agent1/predict"; "http://agent2/retrieve"])
  /\ (exists f resp,
        run_workflow urls
          (scripted (ok access_issue) (ok no_sops)
             (status 200 "<html>Bad gateway</html>") (ok acted))
          gate_locked frame0 = (f, Ok resp)
        /\ wr_status resp = "success" /\ wr_decision resp = None).
Proof.
  split; [|split].
  - eexists. split; vm_compute; reflexivity.
  - eexists. split; vm_compute; reflexivity.
  - eexists _, _. split; [vm_compute; reflexivity|]. split; reflexivity.
Qed.

(** An answer of the classifier without [top_predictions] and with a
    confidence above 1 is accepted by the orchestrator as well. *)
Example orchestrator_accepts_incomplete_classification :
  exists f resp,
    run_workflow urls
      (scripted (ok (JObj classifier_samples.overconfident)) (ok no_sops)
         (ok decided) (ok acted))
      gate_locked frame0 = (f, Ok resp)
    /\ wr_confidence resp = Finite (3 # 2) /\ wr_top_predictions resp = []
    /\ wr_status resp = "success".
Proof.
  eexists _, _. split; [vm_compute; reflexivity|]. repeat split.
Qed.

End OrchestratorExamples.
(** ** The pipeline builder *)

Section Builder.
Import agents langgraph_agents builder_spec builder_samples.

(** The class body of [AgentState] is refused by the compiler at its
    last two lines, and at no other. *)
Lemma refused_lines :
  filter (fun a => negb (well_formed a)) AgentState
  = [ {| lhs := Name "api_url"; annotation := "str"; comma := true |};
      {| lhs := Literal "messages";
         annotation := "Annotated[list, add_messages]"; comma := false |} ].
Proof. reflexivity. Qed.

Lemma import_fails : import_module = Raise SyntaxError.
Proof. reflexivity. Qed.

(** C3, the failing input.  The builder is never reached: loading
    [langgraph_agents] raises [SyntaxError], so a build raises it for
    every configuration.  A configuration without the classification URL
    fails with this error and not with a configuration error, and the
    default configuration, which has the URL, fails in the same way. *)
Theorem build_raises_syntax_error :
  (forall c env a, create_exception_workflow c env a = Raise SyntaxError)
  /\ classification_configured no_api_url = false
  /\ create_exception_workflow cloud_up no_env no_api_url = Raise SyntaxError
  /\ classification_configured default_args = true
  /\ create_exception_workflow cloud_up no_env default_args = Raise SyntaxError.
Proof. repeat split. Qed.

(** C4, the failing input.  No stage sequence is ever built: for every
    configuration the builder raises [SyntaxError] instead of returning a
    graph; in particular for a complete configuration, for which the
    specification expects all four stages. *)
Theorem no_stage_sequence_is_built :
  (forall c env a,
     match create_exception_workflow c env a with
     | Ok _ => False
     | Raise e => e = SyntaxError
     end)
  /\ retrieval_configured no_env fully_configured = true
  /\ llm_project_present no_env fully_configured = true
  /\ create_exception_workflow cloud_up no_env fully_configured
     = Raise SyntaxError.
Proof. repeat split. Qed.

(** C5, the failing input.  With project, index, endpoint and deployed
    index present, [create_sop_retrieval_agent] makes the Retrieval agent,
    but the builder that would add its stage cannot be loaded: the build
    raises [SyntaxError] and the stage is in no sequence.  In
    [create_sop_retrieval_agent] itself the test is on four values: with
    index, endpoint and deployed index given and no project, no agent is
    made. *)
Theorem retrieval_stage_is_never_built :
  create_sop_retrieval_agent cloud_up no_env (Some "proj")
    (Some "us-central1") (Some "idx-1") (Some "ep-1") (Some "dep-1")
  = Ok (Some (SOPRetrievalAgentWrapper (Some "proj") (Some "us-central1")
                (Some "idx-1") (Some "ep-1") (Some "dep-1")))
  /\ create_exception_workflow cloud_up no_env fully_configured
     = Raise SyntaxError
  /\ retrieval_backing_present no_env vertex_without_project = true
  /\ create_sop_retrieval_agent cloud_up no_env None (Some "us-central1")
       (Some "idx-1") (Some "ep-1") (Some "dep-1")
     = Ok None
  /\ create_exception_workflow cloud_up no_env vertex_without_project
     = Raise SyntaxError.
Proof. repeat split. Qed.

End Builder.
(** ** The classifier client *)

Section Classifier.
Import classification_agent classifier_spec.
Context `{K : Clients} (net : network) (api_url : pystr).

Lemma dict_mem_get k st :
  dict_mem k st = true -> dict_lookup k st = Some (dict_get k JNull st).
Proof.
  unfold dict_mem, dict_get. destruct (dict_lookup k st); [reflexivity|discriminate].
Qed.

Lemma state_item_found {B} k st (kont : json -> M pydict B) :
  dict_mem k st = true ->
  bind (state_item k) kont st = kont (dict_get k JNull st) st.
Proof.
  intro H. unfold bind, state_item, getitem. now rewrite (dict_mem_get _ _ H).
Qed.

Lemma print_predictions_ok (preds : list json) (st : pydict) :
  forallb printable_prediction preds = true ->
  print_predictions preds st = (st, Ok tt).
Proof.
  induction preds as [|p preds IH]; simpl; [reflexivity|].
  intro H. apply andb_prop in H. destruct H as [Hp Hrest].
  unfold printable_prediction in Hp. unfold bind, lift.
  destruct (getitem p "label"); [|discriminate].
  destruct (getitem p "confidence") as [c|]; [|discriminate].
  destruct (format_f c); [|discriminate]. auto.
Qed.

Ltac enter_classify Hin :=
  unfold has_inputs in Hin; simpl in Hin;
  repeat (let H := fresh in apply andb_prop in Hin; destruct Hin as [H Hin]);
  unfold classify; rewrite !state_item_found by assumption;
  unfold try_except, bind at 1;
  unfold classifier_outcome, classifier_payload, input_names in *;
  cbn [map] in *.


End Classifier.

Section ClassifierExamples.
Import classification_agent classifier_spec classifier_samples.



(** An integer confidence beyond the range of the floats is stored and
    then refused by the progress print. *)
Example classify_refuses_oversized_confidence :
  classify (always (answer_of oversized)) (Some "http://localhost:8000") delivery
  = (classified_state delivery (JStr "Access Issue") (JInt (10 ^ 400)),
     Raise OverflowError).
Proof. vm_compute. reflexivity. Qed.

End ClassifierExamples.
(** ** The decider clients *)

Ltac field_in := simpl; intuition congruence.

Section Decider.
Import decider_spec.

Lemma fill_step_same d k v :
  dict_lookup k (fill_step d (k, v)) = Some (dict_get k v d).
Proof.
  unfold fill_step, dict_mem, dict_get. simpl.
  destruct (dict_lookup k d) eqn:E; [exact E | apply dict_lookup_set_same].
Qed.

Lemma fill_step_other d k v k0 :
  k0 <> k -> dict_lookup k0 (fill_step d (k, v)) = dict_lookup k0 d.
Proof.
  intro Hne. unfold fill_step. simpl.
  destruct (dict_mem k d); [reflexivity | now apply dict_lookup_set_other].
Qed.

Lemma fill_fold_absent l : forall d k0,
  ~ In k0 (map fst l) ->
  dict_lookup k0 (fold_left fill_step l d) = dict_lookup k0 d.
Proof.
  induction l as [|[k v] l IH]; intros d k0 Hn; simpl; [reflexivity|].
  rewrite IH by (intro; apply Hn; simpl; auto).
  apply fill_step_other. intro; apply Hn; simpl; auto.
Qed.

(** After the loop every listed field is there: with the value it had, or
    with its default. *)
Lemma fill_fold_lookup l : forall d k v,
  NoDup (map fst l) -> In (k, v) l ->
  dict_lookup k (fold_left fill_step l d) = Some (dict_get k v d).
Proof.
  induction l as [|[k' v'] l IH]; intros d k v Hnd Hin; simpl in *; [contradiction|].
  inversion Hnd as [|? ? Hnotin Hnd']; subst.
  destruct Hin as [Heq|Hin].
  - injection Heq as -> ->.
    rewrite fill_fold_absent by assumption. apply fill_step_same.
  - rewrite (IH _ _ _ Hnd' Hin).
    assert (Hne : k <> k').
    { intro; subst. apply Hnotin. apply (in_map fst) in Hin. exact Hin. }
    unfold dict_get. now rewrite fill_step_other.
Qed.

Lemma api_fill_lookup d k v :
  In (k, v) decision_api.required_fields ->
  dict_lookup k (decision_api.fill_required d) = Some (dict_get k v d).
Proof.
  intro Hin. apply fill_fold_lookup; [|exact Hin].
  repeat constructor; simpl; intuition discriminate.
Qed.

Lemma agent_fill_as_fold d :
  decision_agent.fill_required d
  = fold_left fill_step
      (map (fun k => (k, decision_agent.default_of k)) decision_agent.required_fields)
      d.
Proof. reflexivity. Qed.

Lemma agent_fill_lookup d k :
  In k decision_agent.required_fields ->
  dict_lookup k (decision_agent.fill_required d)
  = Some (dict_get k (decision_agent.default_of k) d).
Proof.
  intro Hin. rewrite agent_fill_as_fold. apply fill_fold_lookup.
  - repeat constructor; simpl; intuition discriminate.
  - apply (in_map (fun k => (k, decision_agent.default_of k))) in Hin. exact Hin.
Qed.


Lemma typed_get d k dflt :
  present_fields_typed d = true ->
  In k decision_agent.required_fields ->
  well_typed_field k dflt = true ->
  well_typed_field k (dict_get k dflt d) = true.
Proof.
  unfold present_fields_typed. rewrite forallb_forall. intros Ht Hin Hd.
  specialize (Ht k Hin). unfold dict_get.
  destruct (dict_lookup k d); assumption.
Qed.

Lemma typed_str k v :
  k <> "requires_escalation" -> k <> "confidence" ->
  well_typed_field k v = true -> exists s, v = JStr s.
Proof.
  intros H1 H2. unfold well_typed_field.
  apply String.eqb_neq in H1, H2. rewrite H1, H2.
  destruct v; try discriminate. eauto.
Qed.

Lemma typed_bool v :
  well_typed_field "requires_escalation" v = true -> exists b, v = JBool b.
Proof. unfold well_typed_field. simpl. destruct v; try discriminate. eauto. Qed.

Lemma typed_num v :
  well_typed_field "confidence" v = true -> exists x, v = JFloat x.
Proof. unfold well_typed_field. simpl. destruct v; try discriminate. eauto. Qed.

(** [DecisionAgent.make_decision] never raises: every exception ends in
    the fallback decision. *)
Lemma decision_agent_never_raises rt invoke st :
  exists st', decision_agent.make_decision rt invoke st = (st', Ok st').
Proof.
  unfold decision_agent.make_decision, try_except.
  match goal with
  | |- context [match ?m st with _ => _ end] => destruct (m st) as [s1 [a|e]] eqn:Hm
  end.
  - assert (a = s1); [|subst; eauto].
    revert Hm. rewrite bind_gets. unfold bind at 1, lift.
    destruct (decision_agent.build_prompt st); [|discriminate].
    unfold bind at 1, lift. destruct (invoke _); [|discriminate].
    destruct (match json_loads rt _ with Parsed v => v | JSONDecodeError msg => _ end);
      try discriminate.
    rewrite bind_modify. unfold bind, lift, gets.
    repeat match goal with
           | |- context [match ?x with Ok _ => _ | Raise _ => _ end] =>
               destruct x; try discriminate
           end.
    intro H. now injection H as <- <-.
  - simpl. rewrite bind_modify. unfold gets. eauto.
Qed.

End Decider.

Section OrchestratorDefaults.
Import workflow_api workflow_spec decider_spec.
Context `{P : Pydantic} `{K : Clients}
  (urls : AgentUrls) (net : network) (data : WorkflowRequest).

(** The orchestrator reads the decision with defaults of its own: empty
    strings, [false] and 0. *)
Lemma orchestrator_defaults_decision_fields d1 pl c f r a3 dd :
  dict_lookup "predicted_label" d1 = Some pl ->
  dict_lookup "confidence" d1 = Some c ->
  answer net (agent3_call urls data d1 pl c f) = Responds r ->
  status_code r = 200 -> body r = Some (JObj a3) ->
  dict_get "decision" (JObj []) a3 = JObj dd ->
  present_fields_typed dd = true ->
  exists o,
    decision (fst (call_agent3 urls net data (JObj d1) f)) = Some o
    /\ JStr (recommended_action o) = dict_get "recommended_action" (JStr "") dd
    /\ JStr (driver_instruction o) = dict_get "driver_instruction" (JStr "") dd
    /\ JStr (customer_message o) = dict_get "customer_message" (JStr "") dd
    /\ JBool (requires_escalation o)
       = dict_get "requires_escalation" (JBool false) dd
    /\ JFloat (confidence o) = dict_get "confidence" (JFloat 0) dd
    /\ JStr (reasoning_summary o) = dict_get "reasoning_summary" (JStr "") dd.
Proof.
  intros H1 H2 Hnet Hs Hb Hdd Ht.
  unfold answer, attempt, agent3_call in Hnet. simpl in Hnet.
  destruct (httpx_encodes _) eqn:Henc; [|discriminate].
  unfold call_agent3.
  rewrite !bind_modify, (getitem_found _ _ _ H1), bind_lift_ok,
    (getitem_found _ _ _ H2), bind_lift_ok, get_dict, bind_lift_ok, bind_gets.
  unfold try_except, bind at 1, post. simpl sop_content.
  rewrite Henc, Hnet, Hs.
  simpl. unfold json_of. rewrite Hb.
  rewrite bind_lift_ok, bind_modify, get_dict, bind_lift_ok, Hdd, bind_modify.
  rewrite !get_dict, !bind_lift_ok.
  destruct (typed_str "recommended_action" _ ltac:(discriminate) ltac:(discriminate)
              (typed_get dd "recommended_action" (JStr "") Ht ltac:(field_in) eq_refl))
    as [ra Hra].
  destruct (typed_str "driver_instruction" _ ltac:(discriminate) ltac:(discriminate)
              (typed_get dd "driver_instruction" (JStr "") Ht ltac:(field_in) eq_refl))
    as [di Hdi].
  destruct (typed_str "customer_message" _ ltac:(discriminate) ltac:(discriminate)
              (typed_get dd "customer_message" (JStr "") Ht ltac:(field_in) eq_refl))
    as [cm Hcm].
  destruct (typed_bool _ (typed_get dd "requires_escalation" (JBool false) Ht
                            ltac:(field_in) eq_refl))
    as [re Hre].
  destruct (typed_num _ (typed_get dd "confidence" (JFloat 0) Ht ltac:(field_in) eq_refl))
    as [cf Hcf].
  destruct (typed_str "reasoning_summary" _ ltac:(discriminate) ltac:(discriminate)
              (typed_get dd "reasoning_summary" (JStr "") Ht ltac:(field_in) eq_refl))
    as [rs Hrs].
  rewrite Hra, Hdi, Hcm, Hre, Hcf, Hrs.
  unfold DecisionOutput_init. rewrite !v_str_exact, v_bool_exact, v_float_exact.
  simpl. eexists. split; [reflexivity|]. simpl. repeat split.
Qed.

End OrchestratorDefaults.

Section DeciderExamples.
Import decider_spec decider_samples.

(** The fence around a reply is removed before parsing. *)
Example fences_stripped : strip_code_fences fenced_reply = reply.
Proof. reflexivity. Qed.



(** A reply that does not parse: the conservative fallback escalates. *)
Example unparsable_reply_escalates :
  exists o,
    decision_api.make_decision (runtime_with reply (JObj partial_decision))
      (Some (fun _ => Ok "I cannot decide.")) request
    = Ok {| decision_api.decision := o;
            decision_api.status := "success";
            decision_api.agent := "agent3_decision" |}
    /\ decision_api.requires_escalation o = true.
Proof. eexists. split; [vm_compute; reflexivity|]. reflexivity. Qed.

End DeciderExamples.
(** ** The action executor service *)

Section Executor.
Import action_executor_api executor_spec.
Context `{P : Pydantic} (rt : runtime) (fails : list json -> option exn).

Lemma printed_nil s : printed s [] = s.
Proof. destruct s. unfold printed. simpl. now rewrite app_nil_r. Qed.

(** What a typed decision yields for the two values the executor tests. *)
Lemma typed_escalation d :
  decision_typed d = true ->
  dict_get "requires_escalation" (JBool false) d = JBool (escalation_required d).
Proof.
  unfold decision_typed, dict_get, escalation_required. intro H.
  apply andb_prop in H. destruct H as [H _]. apply andb_prop in H. destruct H as [H _].
  destruct (dict_lookup "requires_escalation" d) as [[]|]; try discriminate; reflexivity.
Qed.

Lemma typed_message d :
  decision_typed d = true ->
  dict_get "customer_message" (JStr "") d = JStr (message_for_customer d).
Proof.
  unfold decision_typed, dict_get, message_for_customer. intro H.
  apply andb_prop in H. destruct H as [H _]. apply andb_prop in H. destruct H as [_ H].
  destruct (dict_lookup "customer_message" d) as [[]|]; try discriminate; reflexivity.
Qed.

Lemma typed_action d dflt :
  decision_typed d = true ->
  exists a, dict_get "recommended_action" (JStr dflt) d = JStr a.
Proof.
  unfold decision_typed, dict_get. intro H.
  apply andb_prop in H. destruct H as [_ H].
  destruct (dict_lookup "recommended_action" d) as [[]|]; try discriminate; eauto.
Qed.

(** ACTION 2 for a typed decision: the notification is printed, and the
    flag says whether there was one. *)
Lemma simulate_email_spec request s :
  decision_typed (decision_or_empty request) = true ->
  simulate_email rt request
    (dict_get "requires_escalation" (JBool false) (decision_or_empty request)) s
  = (printed s (notification request),
     Ok (nonempty (message_for_customer (decision_or_empty request))
         || escalation_required (decision_or_empty request))).
Proof.
  intro Ht. unfold simulate_email, notification, nonempty.
  rewrite (typed_escalation _ Ht), (typed_message _ Ht). cbn [truthy].
  destruct (escalation_required (decision_or_empty request)).
  - rewrite !orb_true_r.
    unfold bind, print, modify, ret, printed. simpl.
    now rewrite <- app_assoc.
  - rewrite !orb_false_r.
    destruct (String.eqb (message_for_customer (decision_or_empty request)) "");
      simpl negb; cbv iota.
    + now rewrite printed_nil.
    + unfold bind, print, modify, ret, lift, printed. simpl.
      now rewrite <- app_assoc.
Qed.

(** ACTION 1 when the sheet was not opened: nothing is written and the
    flag is [true]. *)
Lemma log_to_sheets_simulated request s :
  decision_typed (decision_or_empty request) = true ->
  sheet_ready s = false ->
  exists line, log_to_sheets rt fails request s = (printed s [line], Ok true).
Proof.
  intros Ht Hr. unfold log_to_sheets. rewrite bind_gets.
  fold (sheet_ready s). rewrite Hr.
  destruct (typed_action _ "N/A" Ht) as [a Ha]. rewrite Ha. simpl.
  eexists. reflexivity.
Qed.

(** ACTION 1 when the sheet was opened: the flag is [true] exactly when
    the row was appended. *)
Lemma log_to_sheets_ready request s :
  sheet_ready s = true ->
  exists s1 b,
    log_to_sheets rt fails request s = (s1, Ok b)
    /\ (b = true -> row_written s s1)
    /\ (b = false -> sheet_rows s1 = sheet_rows s).
Proof.
  intros Hr. unfold log_to_sheets. rewrite bind_gets.
  fold (sheet_ready s). rewrite Hr.
  unfold try_except, bind at 1, lift.
  destruct (build_row rt request) as [row|e]; simpl.
  - unfold bind at 1, append_row. destruct (fails row) as [e|]; simpl.
    + eexists _, _. split; [reflexivity|]. split; [discriminate | reflexivity].
    + eexists _, _. split; [reflexivity|]. split; [|discriminate].
      intros _. exists row. reflexivity.
  - eexists _, _. split; [reflexivity|]. split; [discriminate | reflexivity].
Qed.

Lemma not_row_written s s' : sheet_rows s' = sheet_rows s -> ~ row_written s s'.
Proof.
  intros H [row Hrow]. rewrite H in Hrow.
  apply (f_equal (@List.length _)) in Hrow. rewrite length_app in Hrow.
  simpl in Hrow. lia.
Qed.


#[local] Instance keeps_rows_preorder : PreOrder keeps_rows.
Proof.
  split.
  - intro s. reflexivity.
  - intros a b c. unfold keeps_rows. congruence.
Qed.

Lemma print_keeps_rows line : preserves keeps_rows (print line).
Proof. intro s. reflexivity. Qed.

Lemma simulate_email_keeps_rows request re :
  preserves keeps_rows (simulate_email rt request re).
Proof.
  unfold simulate_email. repeat pres_step; apply print_keeps_rows.
Qed.

(** The flag of ACTION 2 is the truth value of
    [customer_message or requires_escalation]. *)
Lemma simulate_email_flag request re s s' e :
  simulate_email rt request re s = (s', Ok e) ->
  e = truthy (dict_get "customer_message" (JStr "") (decision_or_empty request))
      || truthy re.
Proof.
  unfold simulate_email.
  destruct (truthy _ || truthy re).
  - unfold bind at 1.
    match goal with
    | |- context [match ?m s with _ => _ end] =>
        destruct (m s) as [s1 [[]|err]]; [|discriminate]
    end.
    unfold ret. intro H. now injection H as _ <-.
  - unfold ret. intro H. now injection H as _ <-.
Qed.

(** In simulation mode ACTION 1 either raises or reports [true] without
    touching the sheet. *)
Lemma log_to_sheets_simulated_flag request s s1 b :
  sheet_ready s = false ->
  log_to_sheets rt fails request s = (s1, Ok b) ->
  b = true /\ sheet_rows s1 = sheet_rows s.
Proof.
  intros Hr. unfold log_to_sheets. rewrite bind_gets.
  fold (sheet_ready s). rewrite Hr.
  unfold bind at 1, lift.
  destruct (slice_to 50 _) as [ra|err]; [|discriminate].
  unfold bind, print, modify, ret. intro H. injection H as <- <-. split; reflexivity.
Qed.

(** A returning [execute_actions] decomposed into its two actions. *)
Lemma execute_actions_returns request s s' resp :
  execute_actions rt fails request s = (s', Ok resp) ->
  exists s1,
    log_to_sheets rt fails request s = (s1, Ok (sheet_updated resp))
    /\ simulate_email rt request
         (dict_get "requires_escalation" (JBool false) (decision_or_empty request))
         s1 = (s', Ok (email_simulated resp))
    /\ v_bool (dict_get "requires_escalation" (JBool false)
                 (decision_or_empty request)) = Some (escalated resp).
Proof.
  unfold execute_actions. unfold bind at 1.
  destruct (log_to_sheets rt fails request s) as [s1 [b|err]] eqn:Hlog;
    [|discriminate].
  unfold bind at 1.
  destruct (simulate_email rt request _ s1) as [s2 [e|err]] eqn:Hmail;
    [|discriminate].
  unfold lift, ActionResponse_init.
  destruct (v_bool _) as [esc|] eqn:Hesc; [|discriminate].
  intro H. injection H as <- <-. exists s1. simpl. auto.
Qed.

(** [execute_actions] for a typed decision: the response and the final
    service in terms of ACTION 1. *)
Lemma execute_actions_spec request s s1 b :
  decision_typed (decision_or_empty request) = true ->
  log_to_sheets rt fails request s = (s1, Ok b) ->
  execute_actions rt fails request s
  = (printed s1 (notification request),
     Ok {| sheet_updated := b;
           email_simulated :=
             nonempty (message_for_customer (decision_or_empty request))
             || escalation_required (decision_or_empty request);
           escalated := escalation_required (decision_or_empty request);
           timestamp := utcnow_iso rt ++ "Z";
           status := "success"; agent := "agent4_action" |}).
Proof.
  intros Ht Hlog. unfold execute_actions. unfold bind at 1. rewrite Hlog.
  unfold bind at 1. rewrite (simulate_email_spec _ _ Ht).
  unfold lift, ActionResponse_init.
  rewrite (typed_escalation _ Ht), v_bool_exact. reflexivity.
Qed.


(** The service side of C10. *)
Lemma execute_actions_notifies (request : ActionRequest) (s : service) :
  decision_typed (decision_or_empty request) = true ->
  exists s1 s' resp,
    execute_actions rt fails request s = (s', Ok resp)
    /\ email_simulated resp
       = nonempty (message_for_customer (decision_or_empty request))
         || escalation_required (decision_or_empty request)
    /\ escalated resp = escalation_required (decision_or_empty request)
    /\ stdout s' = (stdout s1 ++ notification request)%list
    /\ fst (log_to_sheets rt fails request s) = s1.
Proof.
  intro Ht.
  assert (Hlog : exists s1 b, log_to_sheets rt fails request s = (s1, Ok b)).
  { destruct (sheet_ready s) eqn:Hr.
    - destruct (log_to_sheets_ready request s Hr) as (s1 & b & Hlog & _). eauto.
    - destruct (log_to_sheets_simulated request s Ht Hr) as (line & Hlog). eauto. }
  destruct Hlog as (s1 & b & Hlog).
  exists s1. eexists _, _.
  split; [apply (execute_actions_spec _ _ _ _ Ht Hlog)|].
  rewrite Hlog. repeat split.
Qed.

End Executor.


(** ** The action executor agent *)

Section ExecutorAgent.
Import agents google_sheets_agent action_executor_agent.
Import executor_spec executor_agent_spec.
Context (rt : runtime) (fails : list json -> option exn).
Context (customer_email dispatcher_email : pystr) (sheets_agent : GoogleSheetsAgent).

#[local] Instance keeps_outbox_preorder : PreOrder keeps_outbox.
Proof.
  split.
  - intro w. reflexivity.
  - intros a b c. unfold keeps_outbox. congruence.
Qed.

Lemma log_to_sheet_keeps_outbox :
  preserves keeps_outbox (log_to_sheet rt fails sheets_agent).
Proof.
  unfold log_to_sheet. repeat pres_step.
  intro w. destruct (fails _); reflexivity.
Qed.

(** Once [m] has returned, what follows can only move the state along [R]. *)
Lemma bind_returned {S A B} (R : S -> S -> Prop) (m : M S A) (k : A -> M S B) s s1 a :
  m s = (s1, Ok a) -> preserves R (k a) -> R s1 (fst (bind m k s)).
Proof. intros Hm Hk. unfold bind. rewrite Hm. apply Hk. Qed.

Lemma send_email_str to subject body w :
  send_email to subject (JStr body) w
  = ({| state := state w; outbox := outbox w ++ [(to, subject, JStr body)];
        sheet_rows := sheet_rows w |}, Ok true).
Proof.
  unfold send_email. rewrite bind_modify. unfold bind, lift, len_gt, slice_ok, slice_to.
  destruct (Nat.ltb 200 (py_len body)); reflexivity.
Qed.

(** The agent side of C10: the mail that is sent follows the decision,
    whatever happens to the sheet afterwards. *)
Lemma agent_mail_follows_decision (w : world) (d : pydict) :
  decision_of (state w) = Some d ->
  decision_typed d = true ->
  format_f (dict_get "confidence" (JInt 0) (state w)) = Ok tt ->
  outbox (fst (execute_actions rt fails customer_email dispatcher_email
                 sheets_agent w))
  = (outbox w
     ++ expected_mail rt customer_email dispatcher_email (state w) d)%list.
Proof.
  intros Hd Ht Hf. unfold decision_of in Hd.
  destruct (dict_get "decision_output" (JObj []) (state w)) as [| | | | | |d'] eqn:Hdo;
    try discriminate. injection Hd as ->.
  unfold execute_actions. rewrite bind_gets. rewrite Hdo.
  rewrite !get_dict, !bind_lift_ok.
  destruct (typed_action d "No action determined" Ht) as [ra Hra].
  rewrite (typed_escalation _ Ht), (typed_message _ Ht), Hra. cbn [truthy].
  unfold expected_mail, nonempty. rewrite Hra.
  assert (Hrest : forall ea : bool -> json,
            preserves keeps_outbox
              (sheet_updated <- log_to_sheet rt fails sheets_agent ;;
               set_state (dict_set "executed_action" (ea sheet_updated)) ;;
               lift (slice_ok (JStr ra)) ;; gets state)).
  { intros ea. repeat pres_step; try apply log_to_sheet_keeps_outbox.
    intro w0. reflexivity. }
  destruct (escalation_required d).
  - rewrite orb_true_r. cbv iota.
    erewrite (bind_returned keeps_outbox); [| |apply Hrest].
    2:{ rewrite Hf, bind_lift_ok, bind_lift_ok.
        unfold bind at 1. rewrite send_email_str. reflexivity. }
    reflexivity.
  - rewrite orb_false_r.
    destruct (String.eqb (message_for_customer d) "") eqn:Hm; simpl negb; cbv iota.
    + erewrite (bind_returned keeps_outbox); [| reflexivity | apply Hrest].
      simpl. now rewrite app_nil_r.
    + erewrite (bind_returned keeps_outbox); [| |apply Hrest].
      2:{ unfold bind at 1. rewrite send_email_str. reflexivity. }
      reflexivity.
Qed.

End ExecutorAgent.

(** ** Notifications *)

Section Notifications.
Import executor_spec executor_agent_spec.


End Notifications.

Section NotificationExamples.
Import executor_spec executor_agent_spec executor_samples.


End NotificationExamples.

Section ExecutorExamples.
Import action_executor_api executor_spec executor_samples.



End ExecutorExamples.
(** ** Runs of the orchestrator, stage by stage *)

Section OrchestratorRuns.
Import workflow_api workflow_spec orchestration_spec.
Context `{P : Pydantic} `{K : Clients}
  (urls : AgentUrls) (net : network) (data : WorkflowRequest).

#[local] Existing Instance keeps_requests_preorder.
#[local] Existing Instance keeps_sop_preorder.
#[local] Existing Instance keeps_decision_preorder.

#[local] Instance keeps_executed_preorder : PreOrder keeps_executed.
Proof.
  split.
  - intro f. reflexivity.
  - intros a b c. unfold keeps_executed. congruence.
Qed.

Ltac straight H1 H2 :=
  repeat first
    [ rewrite bind_modify | rewrite bind_gets
    | rewrite (getitem_found _ _ _ H1) | rewrite (getitem_found _ _ _ H2)
    | rewrite get_dict | rewrite bind_lift_ok ].

(** What a returning Agent 1 block has established. *)
Lemma call_agent1_returns f f1 a1 :
  call_agent1 urls net data f = (f1, Ok a1) ->
  exists d1 pl c,
    a1 = JObj d1
    /\ dict_lookup "predicted_label" d1 = Some pl
    /\ dict_lookup "confidence" d1 = Some c
    /\ answered_with (agent1_outcome urls net data) d1
    /\ f1 = executed "agent1_classification" (sent (predict_call urls data) f).
Proof.
  unfold call_agent1, try_except, bind at 1, post, agent1_outcome, attempt,
    answered_with.
  destruct (httpx_encodes _); [|discriminate].
  destruct (net _ _) as [r|e] eqn:Hnet.
  - destruct (status_code r =? 200) eqn:Hs; simpl.
    + unfold json_of. destruct (body r) as [v|] eqn:Hb; [|discriminate].
      rewrite bind_lift_ok, bind_modify.
      destruct v as [| | | | | |d1]; try discriminate.
      unfold getitem.
      destruct (dict_lookup "predicted_label" d1) as [pl|] eqn:Hpl; [|discriminate].
      rewrite bind_lift_ok.
      destruct (dict_lookup "confidence" d1) as [c|] eqn:Hc; [|discriminate].
      rewrite bind_lift_ok.
      destruct (format_f c) as [[]|e] eqn:Hf;
        [|simpl; destruct (is_request_error e); discriminate].
      rewrite bind_lift_ok. unfold ret. intros [= <- <-].
      exists d1, pl, c. repeat split; auto.
      exists r. apply Z.eqb_eq in Hs. auto.
    + discriminate.
  - destruct (is_request_error e); discriminate.
Qed.

Lemma call_agent1_requests f :
  requests (fst (call_agent1 urls net data f))
  = (requests f ++ posted (predict_call urls data))%list.
Proof.
  unfold call_agent1, predict_call.
  rewrite try_post_requests; [reflexivity | |].
  - intro r. repeat pres_step; reflexivity.
  - intros e kk H. destruct (is_request_error e); [|discriminate].
    injection H as <-. apply preserves_raise; exact _.
Qed.

Lemma call_agent2_requests d1 pl f :
  dict_lookup "predicted_label" d1 = Some pl ->
  requests (fst (call_agent2 urls net data (JObj d1) f))
  = (requests f ++ posted (retrieve_call urls data pl))%list.
Proof.
  intros H1. unfold call_agent2, retrieve_call.
  rewrite (getitem_found _ _ _ H1), bind_lift_ok, bind_modify.
  rewrite try_post_requests; [reflexivity | |].
  - intro r. repeat pres_step; reflexivity.
  - intros e kk H. destruct (is_request_error e); [|discriminate].
    injection H as <-. apply preserves_ret; exact _.
Qed.


(** A Retrieval block that returns has sent its request: the refusal of
    the client is no request error and is not caught. *)
Lemma call_agent2_posted d1 pl f f2 :
  dict_lookup "predicted_label" d1 = Some pl ->
  call_agent2 urls net data (JObj d1) f = (f2, Ok tt) ->
  posted (retrieve_call urls data pl) = [retrieve_call urls data pl].
Proof.
  intros H1. unfold call_agent2, posted, retrieve_call. cbn [payload].
  rewrite (getitem_found _ _ _ H1), bind_lift_ok, bind_modify.
  unfold try_except, bind at 1, post.
  destruct (httpx_encodes _); [reflexivity | discriminate].
Qed.

(** A [try] that posts, and on a 200 answer with a JSON body records the
    agent before it does anything else, lists the agent exactly when the
    collaborator answered so. *)
Lemma try_post_executed u p name (k : json -> M frame unit) h f :
  (forall a, preserves keeps_executed (k a)) ->
  (forall e kk, h e = Some kk -> preserves keeps_executed kk) ->
  agents_executed
    (fst (try_except
            (resp <- post net u p ;;
             if status_code resp =? 200 then
               a <- lift (json_of resp) ;;
               modify (executed name) ;;
               k a
             else ret tt) h f))
  = (agents_executed f ++ listed name (attempt net u p))%list.
Proof.
  intros Hk Hh. unfold listed, answered, attempt, try_except, bind at 1, post.
  assert (Hcatch : forall e s, agents_executed
            (fst (match h e with Some kk => kk s | None => (s, Raise e) end))
            = agents_executed s).
  { intros e s. destruct (h e) as [kk|] eqn:E; [|reflexivity].
    apply (Hh _ _ E s). }
  destruct (httpx_encodes p);
    [|rewrite Hcatch; simpl; now rewrite app_nil_r].
  destruct (net u p) as [r|e].
  - destruct (status_code r =? 200); simpl.
    + unfold json_of. destruct (body r) as [v|].
      * rewrite bind_lift_ok, bind_modify.
        pose proof (Hk v (executed name (sent {| url := u; payload := p |} f))) as Hr.
        destruct (k v _) as [s' [a|e]]; simpl in *; [exact Hr|].
        rewrite Hcatch. exact Hr.
      * unfold bind, lift. rewrite Hcatch. simpl. now rewrite app_nil_r.
    + now rewrite app_nil_r.
  - rewrite Hcatch. simpl. now rewrite app_nil_r.
Qed.

Lemma call_agent2_executed d1 pl f :
  dict_lookup "predicted_label" d1 = Some pl ->
  agents_executed (fst (call_agent2 urls net data (JObj d1) f))
  = (agents_executed f
     ++ listed "agent2_sop_retrieval" (agent2_outcome urls net data pl))%list.
Proof.
  intros H1. unfold call_agent2, agent2_outcome.
  rewrite (getitem_found _ _ _ H1), bind_lift_ok, bind_modify.
  refine (try_post_executed _ _ _ _ _ _ _ _).
  - intro a. repeat pres_step; reflexivity.
  - intros e kk H. destruct (is_request_error e); [|discriminate].
    injection H as <-. apply preserves_ret; exact _.
Qed.

Lemma call_agent3_executed d1 pl c f :
  dict_lookup "predicted_label" d1 = Some pl ->
  dict_lookup "confidence" d1 = Some c ->
  agents_executed (fst (call_agent3 urls net data (JObj d1) f))
  = (agents_executed f
     ++ listed "agent3_decision" (answer net (agent3_call urls data d1 pl c f)))%list.
Proof.
  intros H1 H2. unfold answer, agent3_call; cbn [url payload].
  unfold call_agent3. straight H1 H2.
  refine (try_post_executed _ _ _ _ _ _ _ _).
  - intro a. repeat pres_step; reflexivity.
  - intros e kk H. injection H as <-. apply preserves_ret; exact _.
Qed.

Lemma call_agent4_executed d1 pl c f :
  dict_lookup "predicted_label" d1 = Some pl ->
  dict_lookup "confidence" d1 = Some c ->
  agents_executed (fst (call_agent4 urls net data (JObj d1) f))
  = (agents_executed f
     ++ listed "agent4_action" (answer net (agent4_call urls data d1 pl c f)))%list.
Proof.
  intros H1 H2. unfold answer, agent4_call; cbn [url payload].
  unfold call_agent4. straight H1 H2.
  refine (try_post_executed _ _ _ _ _ _ _ _).
  - intro a. repeat pres_step; reflexivity.
  - intros e kk H. injection H as <-. apply preserves_ret; exact _.
Qed.

Lemma build_response_returns a1 f f' resp :
  build_response a1 f = (f', Ok resp) ->
  f' = f
  /\ wr_agents_executed resp = agents_executed f
  /\ wr_sop_retrieved resp = sop_retrieved f
  /\ wr_decision resp = decision f /\ wr_action resp = action f
  /\ wr_status resp = "success"
  /\ v_optional v_str (sop_content f) = Some (wr_sop_content resp)
  /\ v_optional v_float (sop_score f) = Some (wr_sop_score resp)
  /\ v_optional v_str (sop_id f) = Some (wr_sop_id resp).
Proof.
  unfold build_response, bind, lift, gets.
  destruct (getitem a1 "predicted_label"); [|discriminate].
  destruct (getitem a1 "confidence"); [|discriminate].
  destruct (get a1 "top_predictions" (JArr [])); [|discriminate].
  unfold WorkflowResponse_init.
  destruct (v_str a); [|discriminate].
  destruct (v_float a0); [|discriminate].
  destruct (v_dicts a2); [|discriminate].
  destruct (v_optional v_str (sop_content f)); [|discriminate].
  destruct (v_optional v_float (sop_score f)); [|discriminate].
  destruct (v_optional v_str (sop_id f)); [|discriminate].
  intros [= <- <-]. repeat split.
Qed.

Lemma build_response_frame a1 f : fst (build_response a1 f) = f.
Proof.
  unfold build_response, bind, lift, gets.
  destruct (getitem a1 "predicted_label"); [|reflexivity].
  destruct (getitem a1 "confidence"); [|reflexivity].
  destruct (get a1 "top_predictions" (JArr [])); [|reflexivity].
  destruct (WorkflowResponse_init _ _ _ _); reflexivity.
Qed.

#[local] Instance keeps_decision_dict_preorder : PreOrder keeps_decision_dict.
Proof.
  split.
  - intro f. reflexivity.
  - intros a b c. unfold keeps_decision_dict. congruence.
Qed.

(** After the Decision block, [decision_dict] holds what Agent 3 answered
    under [decision], validated or not. *)
Lemma call_agent3_decision_dict d1 pl c f :
  dict_lookup "predicted_label" d1 = Some pl ->
  dict_lookup "confidence" d1 = Some c ->
  decision_dict (fst (call_agent3 urls net data (JObj d1) f))
  = forwarded_decision (answer net (agent3_call urls data d1 pl c f)).
Proof.
  intros H1 H2.
  unfold answer, attempt, agent3_call, forwarded_decision; cbn [url payload].
  unfold call_agent3. straight H1 H2.
  unfold try_except, bind at 1, post.
  change (sop_content (set_decision_dict JNull (set_decision None f)))
    with (sop_content f).
  destruct (httpx_encodes _); [|reflexivity].
  destruct (net _ _) as [r|e]; [|reflexivity].
  destruct (status_code r =? 200); [|reflexivity].
  unfold json_of. destruct (body r) as [v|]; [|reflexivity].
  rewrite bind_lift_ok, bind_modify.
  destruct v as [| | | | | |a3]; try reflexivity.
  rewrite get_dict, bind_lift_ok, bind_modify.
  match goal with
  | |- context [bind ?m ?k ?s] =>
      assert (Hp : preserves keeps_decision_dict (bind m k))
        by (repeat pres_step; reflexivity);
      specialize (Hp s); destruct (bind m k s) as [s' [[]|e]]; exact Hp
  end.
Qed.

(** What a returning run has done, stage by stage. *)
Lemma run_workflow_returns f resp :
  run_workflow urls net data frame0 = (f, Ok resp) ->
  exists d1 pl c f2 f3,
    answered_with (agent1_outcome urls net data) d1
    /\ dict_lookup "predicted_label" d1 = Some pl
    /\ dict_lookup "confidence" d1 = Some c
    /\ call_agent2 urls net data (JObj d1)
         (executed "agent1_classification" (sent (predict_call urls data) frame0))
       = (f2, Ok tt)
    /\ posted (retrieve_call urls data pl) = [retrieve_call urls data pl]
    /\ call_agent3 urls net data (JObj d1) f2 = (f3, Ok tt)
    /\ call_agent4 urls net data (JObj d1) f3 = (f, Ok tt)
    /\ build_response (JObj d1) f = (f, Ok resp).
Proof.
  unfold run_workflow. unfold bind at 1.
  destruct (call_agent1 urls net data frame0) as [f1 [a1|e]] eqn:E1; [|discriminate].
  apply call_agent1_returns in E1 as (d1 & pl & c & -> & Hpl & Hc & Hans & ->).
  unfold bind at 1.
  destruct (call_agent2 _ _ _ _ _) as [f2 [[]|e]] eqn:E2; [|discriminate].
  unfold bind at 1.
  destruct (call_agent3 _ _ _ _ _) as [f3 [[]|e]] eqn:E3; [|discriminate].
  unfold bind at 1.
  destruct (call_agent4 _ _ _ _ _) as [f4 [[]|e]] eqn:E4; [|discriminate].
  intros Hb. pose proof (build_response_frame (JObj d1) f4) as Hf.
  rewrite Hb in Hf. simpl in Hf. subst f4.
  exists d1, pl, c, f2, f3. repeat split; auto.
  eapply call_agent2_posted; eauto.
Qed.

(** X1.  Whenever a run returns a response, it has sent one request to
    Agent 1 and one to Agent 2, followed by the request to Agent 3 and
    the request to Agent 4, each of these two unless the client could not
    encode its payload, and nothing else; and [agents_executed] lists
    exactly the agents that answered 200 with a JSON body, in that order:
    Agent 1 always, each later agent if and only if it was sent its
    request and answered. *)
Theorem run_lists_answering_agents f resp :
  run_workflow urls net data frame0 = (f, Ok resp) ->
  exists pl c3 c4,
    requests f
    = ([predict_call urls data; retrieve_call urls data pl]
       ++ posted c3 ++ posted c4)%list
    /\ url c3 = AGENT3_URL urls ++ "/decide"
    /\ url c4 = AGENT4_URL urls ++ "/execute"
    /\ answered (agent1_outcome urls net data) = true
    /\ wr_agents_executed resp
       = ("agent1_classification"
          :: listed "agent2_sop_retrieval" (agent2_outcome urls net data pl)
          ++ listed "agent3_decision" (answer net c3)
          ++ listed "agent4_action" (answer net c4))%list.
Proof.
  intros Hrun.
  apply run_workflow_returns in Hrun
    as (d1 & pl & c & f2 & f3 & Hans & Hpl & Hc & E2 & P2 & E3 & E4 & Hb).
  set (f1 := executed "agent1_classification"
               (sent (predict_call urls data) frame0)) in *.
  pose proof (call_agent2_requests d1 pl f1 Hpl) as R2.
  pose proof (call_agent2_executed d1 pl f1 Hpl) as X2.
  rewrite E2 in R2, X2. rewrite P2 in R2. simpl in R2, X2.
  pose proof (call_agent3_requests urls net data d1 pl c f2 Hpl Hc) as R3.
  pose proof (call_agent3_executed d1 pl c f2 Hpl Hc) as X3.
  rewrite E3 in R3, X3. simpl in R3, X3.
  pose proof (call_agent4_requests urls net data d1 pl c f3 Hpl Hc) as R4.
  pose proof (call_agent4_executed d1 pl c f3 Hpl Hc) as X4.
  rewrite E4 in R4, X4. simpl in R4, X4.
  apply build_response_returns in Hb as (_ & Hx & _).
  exists pl, (agent3_call urls data d1 pl c f2), (agent4_call urls data d1 pl c f3).
  repeat split.
  - rewrite R4, R3, R2. now rewrite <- app_assoc.
  - destruct Hans as (r & Hr & Hs & Hbody). unfold answered.
    rewrite Hr, Hs, Hbody. reflexivity.
  - rewrite Hx, X4, X3, X2. simpl. now rewrite <- !app_assoc.
Qed.

(** X2.  In every run, returning or raising, the requests go out in
    pipeline order and no stage is sent more than one.  Either the run
    got past the Retrieval block, and then it has sent the requests to
    Agents 1 and 2 followed by those to Agents 3 and 4 that the client
    could encode; or the run raised, having sent at most the request to
    Agent 1, or that request and at most the one to Agent 2.  A request
    is left out only when the client cannot encode its payload. *)
Theorem requests_follow_pipeline :
  let run := run_workflow urls net data frame0 in
  (exists c2 c3 c4,
     map url [predict_call urls data; c2; c3; c4] = stage_urls urls
     /\ requests (fst run)
        = ([predict_call urls data; c2] ++ posted c3 ++ posted c4)%list)
  \/ (exists e, snd run = Raise e)
     /\ (requests (fst run) = posted (predict_call urls data)
         \/ exists c2,
              url c2 = AGENT2_URL urls ++ "/retrieve"
              /\ requests (fst run) = predict_call urls data :: posted c2).
Proof.
  cbv zeta.
  remember (run_workflow urls net data frame0) as run eqn:Hrun.
  unfold run_workflow in Hrun. unfold bind at 1 in Hrun.
  pose proof (call_agent1_requests frame0) as R1.
  destruct (call_agent1 urls net data frame0) as [f1 [a1|e]] eqn:E1; simpl in R1.
  - apply call_agent1_returns in E1 as (d1 & pl & c & -> & Hpl & Hc & _ & Hf1).
    assert (R1' : requests f1 = [predict_call urls data]) by (now subst f1).
    unfold bind at 1 in Hrun.
    pose proof (call_agent2_requests d1 pl f1 Hpl) as R2.
    destruct (call_agent2 _ _ _ _ f1) as [f2 [[]|e]] eqn:E2; simpl in R2.
    + left. unfold bind at 1 in Hrun.
      rewrite (call_agent2_posted d1 pl f1 f2 Hpl E2) in R2.
      pose proof (call_agent3_requests urls net data d1 pl c f2 Hpl Hc) as R3.
      pose proof (call_agent3_ok urls net data d1 pl c f2 Hpl Hc) as O3.
      destruct (call_agent3 _ _ _ _ f2) as [f3 r3]; simpl in R3, O3. subst r3.
      unfold bind at 1 in Hrun.
      pose proof (call_agent4_requests urls net data d1 pl c f3 Hpl Hc) as R4.
      pose proof (call_agent4_ok urls net data d1 pl c f3 Hpl Hc) as O4.
      destruct (call_agent4 _ _ _ _ f3) as [f4 r4]; simpl in R4, O4. subst r4.
      exists (retrieve_call urls data pl), (agent3_call urls data d1 pl c f2),
        (agent4_call urls data d1 pl c f3).
      split; [reflexivity|].
      subst run. rewrite build_response_frame, R4, R3, R2, R1'.
      simpl. reflexivity.
    + subst run. right. split; [simpl; eauto|]. right.
      exists (retrieve_call urls data pl). split; [reflexivity|].
      simpl. rewrite R2, R1'. reflexivity.
  - subst run. right. split; [simpl; eauto|]. left. simpl. exact R1.
Qed.


(** X3.  In every run that returns, what Agents 3 and 4 are sent agrees
    with what the caller is told: the request made for Agent 3 carries
    the SOP content, and the one made for Agent 4 the [sop_retrieved]
    flag and the SOP id, that the response reports; and the request made
    for Agent 4 carries the decision object exactly as Agent 3 answered
    it, whether or not the orchestrator could validate it ([None] when
    Agent 3 gave no JSON answer or was not sent its request).  These two
    requests are the only ones after those to Agents 1 and 2, and each
    goes out unless the client cannot encode it. *)
Theorem downstream_payloads_match_response f resp :
  run_workflow urls net data frame0 = (f, Ok resp) ->
  exists c1 c2 c3 c4 content id,
    requests f = ([c1; c2] ++ posted c3 ++ posted c4)%list
    /\ getitem (payload c3) "sop_content" = Ok content
    /\ v_optional v_str content = Some (wr_sop_content resp)
    /\ getitem (payload c4) "sop_retrieved" = Ok (JBool (wr_sop_retrieved resp))
    /\ getitem (payload c4) "sop_id" = Ok id
    /\ v_optional v_str id = Some (wr_sop_id resp)
    /\ getitem (payload c4) "decision" = Ok (forwarded_decision (answer net c3)).
Proof.
  intros Hrun.
  apply run_workflow_returns in Hrun
    as (d1 & pl & c & f2 & f3 & Hans & Hpl & Hc & E2 & P2 & E3 & E4 & Hb).
  set (f1 := executed "agent1_classification"
               (sent (predict_call urls data) frame0)) in *.
  pose proof (call_agent2_requests d1 pl f1 Hpl) as R2.
  rewrite E2 in R2. rewrite P2 in R2. simpl in R2.
  pose proof (call_agent3_requests urls net data d1 pl c f2 Hpl Hc) as R3.
  pose proof (call_agent3_keeps_sop urls net data (JObj d1) f2) as (K1 & K2 & K3 & K4).
  pose proof (call_agent3_decision_dict d1 pl c f2 Hpl Hc) as D3.
  rewrite E3 in R3, K1, K2, K3, K4, D3. simpl in R3, K1, K2, K3, K4, D3.
  pose proof (call_agent4_requests urls net data d1 pl c f3 Hpl Hc) as R4.
  pose proof (call_agent4_keeps_sop urls net data (JObj d1) f3) as (L1 & L2 & L3 & L4).
  rewrite E4 in R4, L1, L2, L3, L4. simpl in R4, L1, L2, L3, L4.
  apply build_response_returns in Hb as (_ & _ & Hsr & _ & _ & _ & Hsc & _ & Hsi).
  exists (predict_call urls data), (retrieve_call urls data pl),
    (agent3_call urls data d1 pl c f2), (agent4_call urls data d1 pl c f3),
    (sop_content f2), (sop_id f3).
  repeat split.
  - rewrite R4, R3, R2. now rewrite <- app_assoc.
  - congruence.
  - simpl. unfold getitem. simpl. congruence.
  - congruence.
  - unfold agent4_call, getitem. simpl. congruence.
Qed.

(** Agent 2 on an answer with at least one match: the first match fills
    the SOP slots. *)
Lemma call_agent2_found d1 pl sop f :
  dict_lookup "predicted_label" d1 = Some pl ->
  first_match (agent2_outcome urls net data pl) sop ->
  format_f (dict_get "score" JNull sop) = Ok tt ->
  call_agent2 urls net data (JObj d1) f
  = (set_sop true (dict_get "content" JNull sop) (dict_get "score" JNull sop)
       (dict_get "datapoint_id" JNull sop)
       (executed "agent2_sop_retrieval" (sent (retrieve_call urls data pl) f)),
     Ok tt).
Proof.
  intros Hpl (d2 & rest & (r & Hnet & Hs & Hb) & Hsops) Hfmt.
  unfold agent2_outcome, attempt in Hnet. unfold call_agent2.
  rewrite (getitem_found _ _ _ Hpl), bind_lift_ok, bind_modify.
  unfold try_except, bind at 1, post.
  destruct (httpx_encodes _); [|discriminate].
  rewrite Hnet, Hs. simpl.
  unfold json_of. rewrite Hb. rewrite bind_lift_ok, bind_modify.
  assert (Hget : get (JObj d2) "sops" JNull = Ok (JArr (JObj sop :: rest)))
    by (unfold get, dict_get; now rewrite Hsops).
  rewrite Hget, !(getitem_found _ _ _ Hsops).
  cbn -[dict_get format_f]. rewrite Hfmt. reflexivity.
Qed.


End OrchestratorRuns.

Section OrchestratorRunExamples.
Import workflow_api workflow_spec orchestration_spec samples.

(** The Decision service is down: the run lists Agents 1, 2 and 4. *)
Lemma run_lists_answering_agents_witness :
  exists f resp,
    run_workflow urls
      (scripted (ok access_issue) (ok one_sop) unreachable (ok acted))
      gate_locked frame0 = (f, Ok resp)
    /\ wr_agents_executed resp
       = ["agent1_classification"; "agent2_sop_retrieval"; "agent4_action"].
Proof.
  destruct (run_workflow urls
              (scripted (ok access_issue) (ok one_sop) unreachable (ok acted))
              gate_locked frame0) as [f [resp|e]] eqn:Hrun.
  - exists f, resp. split; [reflexivity|].
    destruct (run_lists_answering_agents _ _ _ _ _ Hrun)
      as (pl & c3 & c4 & Hreq & Hu3 & Hu4 & _ & Hx).
    vm_compute in Hrun. injection Hrun as <- <-.
    destruct c3 as [u3 p3], c4 as [u4 p4]. simpl in Hu3, Hu4. subst u3 u4.
    unfold posted in Hreq. cbn [payload] in Hreq.
    destruct (httpx_encodes p3) eqn:E3, (httpx_encodes p4) eqn:E4;
      try discriminate Hreq.
    injection Hreq as <- <- <-.
    unfold answer, attempt in Hx. cbn [url payload] in Hx.
    rewrite E3, E4 in Hx. exact Hx.
  - vm_compute in Hrun. discriminate Hrun.
Defined.

(** A confidence of [inf]: the client refuses the payloads for Agents 3
    and 4, both refusals are absorbed, and the run returns after two
    requests. *)
Example unencodable_payloads_are_skipped :
  exists f resp,
    run_workflow urls
      (scripted (ok infinitely_sure) (ok no_sops) (ok decided) (ok acted))
      gate_locked frame0 = (f, Ok resp)
    /\ map url (requests f) = ["http://agent1/predict"; "http://agent2/retrieve"]
    /\ wr_agents_executed resp
       = ["agent1_classification"; "agent2_sop_retrieval"]
    /\ wr_confidence resp = Inf
    /\ wr_decision resp = None /\ wr_action resp = None.
Proof.
  eexists _, _. split; [vm_compute; reflexivity|]. repeat split.
Qed.

(** A healthy run: Agent 4 is sent the decision of Agent 3. *)
Lemma downstream_payloads_match_response_witness :
  exists f resp c4,
    run_workflow urls
      (scripted (ok access_issue) (ok one_sop) (ok decided) (ok acted))
      gate_locked frame0 = (f, Ok resp)
    /\ nth_error (requests f) 3 = Some c4
    /\ getitem (payload c4) "sop_retrieved" = Ok (JBool true)
    /\ (exists d, getitem (payload c4) "decision" = Ok d
                  /\ getitem decided "decision" = Ok d).
Proof.
  destruct (run_workflow urls
              (scripted (ok access_issue) (ok one_sop) (ok decided) (ok acted))
              gate_locked frame0) as [f [resp|e]] eqn:Hrun.
  - destruct (downstream_payloads_match_response _ _ _ _ _ Hrun)
      as (c1 & c2 & c3 & c4 & content & id & Hreq & _ & _ & Hsr & _ & _ & Hd).
    exists f, resp, c4. split; [reflexivity|].
    vm_compute in Hrun. injection Hrun as <- <-.
    destruct c3 as [u3 p3], c4 as [u4 p4].
    unfold posted in Hreq. cbn [payload] in Hreq.
    destruct (httpx_encodes p3) eqn:E3, (httpx_encodes p4) eqn:E4;
      try discriminate Hreq.
    injection Hreq as <- <- <- <- <- <-.
    unfold answer, attempt in Hd. cbn [url payload] in Hd. rewrite E3 in Hd.
    split; [reflexivity|]. split; [exact Hsr|].
    eexists. split; [exact Hd | reflexivity].
  - vm_compute in Hrun. discriminate Hrun.
Defined.


(** Retrieval is unreachable: the run succeeds without an SOP. *)
Lemma degraded_run_succeeds_witness :
  retrieval_fails_quietly
    (agent2_outcome urls
       (scripted (ok access_issue) unreachable (ok decided) (ok acted))
       gate_locked (JStr "Access Issue"))
  /\ exists f resp,
       run_workflow urls
         (scripted (ok access_issue) unreachable (ok decided) (ok acted))
         gate_locked frame0 = (f, Ok resp)
       /\ wr_status resp = "success"
       /\ wr_sop_retrieved resp = false
       /\ wr_sop_content resp = None.
Proof.
  split; [reflexivity|].
  destruct (degraded_run_succeeds urls
              (scripted (ok access_issue) unreachable (ok decided) (ok acted))
              gate_locked _ _ _ _ (classified_sample _ _ _) eq_refl)
    as (f & resp & c3 & c4 & Hrun & Hst & _ & _ & _ & Hsr & Hsc & _).
  exists f, resp. repeat split; assumption.
Defined.

End OrchestratorRunExamples.
(** ** What the classifier client leaves alone *)

Section ClassifierFrame.
Import classification_agent classifier_spec classifier_frame_spec.
Context `{K : Clients} (net : network) (api_url : pystr).

#[local] Instance only_results_change_preorder : PreOrder only_results_change.
Proof.
  split.
  - intros st k _ _. reflexivity.
  - intros a b c Hab Hbc k H1 H2. rewrite (Hbc k H1 H2). now apply Hab.
Qed.

Lemma state_item_keeps k : preserves only_results_change (state_item k).
Proof. intros st. simpl. reflexivity. Qed.

Lemma print_predictions_keeps preds :
  preserves only_results_change (@print_predictions pydict preds).
Proof.
  induction preds as [|p rest IH]; simpl; repeat pres_step; assumption.
Qed.

Lemma state_item_missing {B} k st (kont : json -> M pydict B) :
  dict_mem k st = false ->
  bind (state_item k) kont st = (st, Raise (KeyError k)).
Proof.
  unfold dict_mem, bind, state_item, getitem.
  destruct (dict_lookup k st); [discriminate | reflexivity].
Qed.

(** X7.  The classifier client writes [predicted_label] and [confidence] and
    nothing else: in every outcome, returning or raising, every other key
    of the state keeps the value it had. *)
Theorem classify_only_writes_its_results (st : pydict) (k : string) :
  k <> "predicted_label" -> k <> "confidence" ->
  dict_lookup k (fst (classify net api_url st)) = dict_lookup k st.
Proof.
  revert k.
  change (only_results_change st (fst (classify net api_url st))).
  revert st. change (preserves only_results_change (classify net api_url)).
  unfold classify.
  repeat first
    [ apply state_item_keeps
    | apply print_predictions_keeps
    | pres_step
    | (intros st; destruct (send _ _ _); reflexivity) ].
  all: intros k H1 H2; apply dict_lookup_set_other; assumption.
Qed.

(** X8.  A state that lacks one of the seven delivery fields makes the client
    raise [KeyError] for the first missing one, with the state untouched
    and whatever the classification service would have answered. *)
Theorem classify_needs_every_input (st : pydict) (k : string) :
  first_missing st = Some k ->
  In k input_names /\ dict_mem k st = false
  /\ classify net api_url st = (st, Raise (KeyError k)).
Proof.
  unfold first_missing, input_names. unfold classify. simpl find.
  repeat match goal with
  | |- (if negb (dict_mem ?x st) then _ else _) = _ -> _ =>
      let E := fresh "E" in
      destruct (dict_mem x st) eqn:E; simpl negb; cbv iota;
      [ rewrite (state_item_found x st _ E)
      | intros [= <-]; split; [simpl; tauto|]; split; [exact E|];
        apply state_item_missing; exact E ]
  end.
  discriminate.
Qed.

End ClassifierFrame.

Section ClassifierFrameExamples.
Import classification_agent classifier_spec classifier_frame_spec classifier_samples.

Lemma classify_only_writes_its_results_witness :
  dict_lookup "driver_note"
    (fst (classify (always (answer_of overconfident))
            (Some "http://localhost:8000") delivery))
  = Some (JStr "gate locked").
Proof.
  rewrite (classify_only_writes_its_results
             (always (answer_of overconfident)) (Some "http://localhost:8000")
             delivery "driver_note");
    [reflexivity | discriminate | discriminate].
Defined.

(** A state without [attempts]. *)
Lemma classify_needs_every_input_witness :
  classify (always (answer_of overconfident)) (Some "http://localhost:8000")
    [ ("driver_note", JStr "gate locked");
      ("gps_deviation_km", JFloat (2 # 10));
      ("weather_condition", JStr "Clear") ]
  = ([ ("driver_note", JStr "gate locked");
       ("gps_deviation_km", JFloat (2 # 10));
       ("weather_condition", JStr "Clear") ],
     Raise (KeyError "attempts")).
Proof.
  apply (classify_needs_every_input (always (answer_of overconfident))
           (Some "http://localhost:8000")
           [ ("driver_note", JStr "gate locked");
             ("gps_deviation_km", JFloat (2 # 10));
             ("weather_condition", JStr "Clear") ]
           "attempts" eq_refl).
Defined.

End ClassifierFrameExamples.
(** ** Stripping code fences *)

Section Fences.
Import decision_invariant_spec.

Lemma substring_all s : String.substring 0 (String.length s) s = s.
Proof. induction s as [|c s IH]; simpl; [reflexivity | now rewrite IH]. Qed.

Lemma substring_app_left a b :
  String.substring 0 (String.length a) (a ++ b) = a.
Proof.
  induction a as [|c a IH]; simpl.
  - destruct b; reflexivity.
  - now rewrite IH.
Qed.

Lemma substring_app_right a b :
  String.substring (String.length a) (String.length b) (a ++ b) = b.
Proof. induction a as [|c a IH]; simpl; [apply substring_all | exact IH]. Qed.

Lemma string_length_app a b :
  String.length (a ++ b) = (String.length a + String.length b)%nat.
Proof. induction a as [|c a IH]; simpl; [reflexivity | now rewrite IH]. Qed.

Lemma drop_app p r : drop (String.length p) (p ++ r) = r.
Proof.
  unfold drop. rewrite string_length_app.
  replace (String.length p + String.length r - String.length p)%nat
    with (String.length r) by lia.
  apply substring_app_right.
Qed.

Lemma drop_last_app a p : drop_last (String.length p) (a ++ p) = a.
Proof.
  unfold drop_last. rewrite string_length_app.
  replace (String.length a + String.length p - String.length p)%nat
    with (String.length a) by lia.
  apply substring_app_left.
Qed.

Lemma drop_fence a : drop 3 ("```" ++ a) = a.
Proof. exact (drop_app "```" a). Qed.

Lemma drop_json_fence a : drop 7 ("```json" ++ a) = a.
Proof. exact (drop_app "```json" a). Qed.

Lemma drop_last_fence a : drop_last 3 (a ++ "```") = a.
Proof. exact (drop_last_app a "```"). Qed.

Lemma endswith_app a p : endswith p (a ++ p) = true.
Proof.
  unfold endswith. rewrite string_length_app.
  replace (String.length a + String.length p - String.length p)%nat
    with (String.length a) by lia.
  rewrite substring_app_right, String.eqb_refl.
  rewrite andb_true_r. apply Nat.leb_le. lia.
Qed.

Lemma prefix_app a b s :
  String.prefix (a ++ b) s = true -> String.prefix a s = true.
Proof.
  revert s. induction a as [|c a IH]; intros s; simpl.
  - destruct s; reflexivity.
  - destruct s as [|c' s]; [discriminate|]. simpl.
    destruct (Ascii.ascii_dec c c'); [apply IH | discriminate].
Qed.

Lemma app_assoc_str a b c : ((a ++ b) ++ c = a ++ (b ++ c))%string.
Proof. induction a as [|x a IH]; simpl; [reflexivity | now rewrite IH]. Qed.

Lemma append_nil_r a : (a ++ "")%string = a.
Proof. induction a as [|x a IH]; simpl; [reflexivity | now rewrite IH]. Qed.

Lemma rev_string_app a b : rev_string (a ++ b) = rev_string b ++ rev_string a.
Proof.
  induction a as [|x a IH]; simpl.
  - now rewrite append_nil_r.
  - now rewrite IH, app_assoc_str.
Qed.

Lemma rev_string_involutive a : rev_string (rev_string a) = a.
Proof.
  induction a as [|x a IH]; simpl; [reflexivity|].
  now rewrite rev_string_app, IH.
Qed.

(** A byte below 128 is a character of its own: it ends no white space of
    two or three bytes. *)
Lemma is_space2_ascii c1 c2 : (byte c2 < 128)%nat -> is_space2 c1 c2 = false.
Proof.
  intro H. unfold is_space2.
  destruct (Nat.eqb_spec (byte c2) 133); [lia|].
  destruct (Nat.eqb_spec (byte c2) 160); [lia|].
  apply andb_false_r.
Qed.

Lemma is_space3_ascii c1 c2 c3 : (byte c3 < 128)%nat -> is_space3 c1 c2 c3 = false.
Proof.
  intro H. unfold is_space3.
  destruct (Nat.eqb_spec (byte c3) 128); [lia|].
  destruct (Nat.leb_spec 128 (byte c3)); [lia|].
  destruct (Nat.eqb_spec (byte c3) 168); [lia|].
  destruct (Nat.eqb_spec (byte c3) 169); [lia|].
  destruct (Nat.eqb_spec (byte c3) 175); [lia|].
  destruct (Nat.eqb_spec (byte c3) 159); [lia|].
  simpl. now rewrite !andb_false_r.
Qed.

Lemma lstrip_length_upto n s :
  (String.length s <= n)%nat -> (String.length (lstrip s) <= String.length s)%nat.
Proof.
  revert s. induction n as [|n IH]; intros s Hn.
  - destruct s; simpl in *; lia.
  - destruct s as [|c1 s1]; [simpl; lia|]. simpl in Hn.
    cbn [lstrip]. destruct (is_space c1).
    { assert (H := IH s1 ltac:(lia)). simpl. lia. }
    destruct s1 as [|c2 s2]; [lia|]. simpl in Hn.
    destruct (is_space2 c1 c2).
    { assert (H := IH s2 ltac:(lia)). simpl. lia. }
    destruct s2 as [|c3 s3]; [lia|]. simpl in Hn.
    destruct (is_space3 c1 c2 c3); [|lia].
    assert (H := IH s3 ltac:(lia)). simpl. lia.
Qed.

Lemma lstrip_length s : (String.length (lstrip s) <= String.length s)%nat.
Proof. now apply (lstrip_length_upto (String.length s)). Qed.

(** A string that ends in a fence has no white space at its end. *)
Lemma rstrip_app_fence a : rstrip (a ++ "```") = a ++ "```".
Proof.
  unfold rstrip. rewrite rev_string_app.
  change (rev_string "```") with "```".
  change (lstrip_reversed ("```" ++ rev_string a)) with ("```" ++ rev_string a).
  change (rev_string ("```" ++ rev_string a))
    with (((rev_string (rev_string a) ++ "`") ++ "`") ++ "`").
  rewrite rev_string_involutive, !app_assoc_str. reflexivity.
Qed.

Lemma rstrip_app_nl a : rstrip (a ++ nl) = rstrip a.
Proof. unfold rstrip. rewrite rev_string_app. reflexivity. Qed.

(** What has no white space in front keeps none when a line feed is put
    after it. *)
Lemma lstrip_app_nl s : s <> "" -> lstrip s = s -> lstrip (s ++ nl) = s ++ nl.
Proof.
  assert (Hnl : forall c, is_space2 c (Ascii.ascii_of_nat 10) = false)
    by (intro c; apply is_space2_ascii; vm_compute; lia).
  assert (Hnl3 : forall c1 c2, is_space3 c1 c2 (Ascii.ascii_of_nat 10) = false)
    by (intros c1 c2; apply is_space3_ascii; vm_compute; lia).
  destruct s as [|c1 s1]; [congruence|]. intros _.
  cbn [lstrip append]. destruct (is_space c1).
  { intro H. pose proof (lstrip_length s1) as Hl. rewrite H in Hl.
    simpl in Hl. lia. }
  destruct s1 as [|c2 s2].
  { intros _. cbn [append]. unfold nl. now rewrite Hnl. }
  cbn [append]. destruct (is_space2 c1 c2).
  { intro H. pose proof (lstrip_length s2) as Hl. rewrite H in Hl.
    simpl in Hl. lia. }
  destruct s2 as [|c3 s3].
  { intros _. cbn [append]. unfold nl. now rewrite Hnl3. }
  cbn [append]. destruct (is_space3 c1 c2 c3); [|reflexivity].
  intro H. pose proof (lstrip_length s3) as Hl. rewrite H in Hl.
  simpl in Hl. lia.
Qed.

Lemma strip_between_newlines s : trimmed s -> strip (nl ++ s ++ nl) = s.
Proof.
  intros [Hl Hr]. unfold strip.
  change (lstrip (nl ++ s ++ nl)) with (lstrip (s ++ nl)).
  destruct s as [|c s]; [reflexivity|].
  rewrite lstrip_app_nl by (assumption || discriminate).
  rewrite rstrip_app_nl. exact Hr.
Qed.

Lemma strip_fenced lang s :
  strip ("```" ++ lang ++ nl ++ s ++ nl ++ "```")
  = "```" ++ lang ++ nl ++ s ++ nl ++ "```".
Proof.
  unfold strip.
  change (lstrip ("```" ++ lang ++ nl ++ s ++ nl ++ "```"))
    with ("```" ++ lang ++ nl ++ s ++ nl ++ "```").
  rewrite <- !app_assoc_str. apply rstrip_app_fence.
Qed.

(** X9.  The fence stripping of both decider clients removes a whole fence and
    nothing else: a reply without white space (ASCII or other Unicode
    white space, as [str.strip] removes it) at its ends comes back
    unchanged from inside a [json] fence and from inside a plain fence,
    and a reply that neither starts nor ends with a fence is returned as
    it is. *)
Theorem fences_round_trip (s : string) :
  trimmed s ->
  strip_code_fences (fenced "json" s) = s
  /\ strip_code_fences (fenced "" s) = s
  /\ (startswith "```" s = false -> endswith "```" s = false ->
      strip_code_fences s = s).
Proof.
  intros Ht. split; [|split].
  - unfold strip_code_fences, fenced. rewrite strip_fenced.
    change (startswith "```json" ("```" ++ "json" ++ nl ++ s ++ nl ++ "```"))
      with true. cbv iota.
    change ("```" ++ "json" ++ nl ++ s ++ nl ++ "```")
      with ("```json" ++ (nl ++ s ++ nl ++ "```")).
    rewrite drop_json_fence.
    change (startswith "```" (nl ++ s ++ nl ++ "```")) with false. cbv iota.
    replace (nl ++ s ++ nl ++ "```") with ((nl ++ s ++ nl) ++ "```")
      by (now rewrite !app_assoc_str).
    rewrite endswith_app.
    cbv iota. rewrite drop_last_fence.
    now apply strip_between_newlines.
  - unfold strip_code_fences, fenced. rewrite strip_fenced.
    change (startswith "```json" ("```" ++ "" ++ nl ++ s ++ nl ++ "```"))
      with false. cbv iota.
    change (startswith "```" ("```" ++ "" ++ nl ++ s ++ nl ++ "```"))
      with true. cbv iota.
    change ("```" ++ "" ++ nl ++ s ++ nl ++ "```")
      with ("```" ++ (nl ++ s ++ nl ++ "```")).
    rewrite drop_fence.
    replace (nl ++ s ++ nl ++ "```") with ((nl ++ s ++ nl) ++ "```")
      by (now rewrite !app_assoc_str).
    rewrite endswith_app.
    cbv iota. rewrite drop_last_fence.
    now apply strip_between_newlines.
  - intros Hs He. destruct Ht as [Hl Hr].
    assert (Hstrip : strip s = s) by (unfold strip; now rewrite Hl).
    unfold strip_code_fences. rewrite Hstrip.
    assert (Hj : startswith "```json" s = false).
    { destruct (startswith "```json" s) eqn:E; [|reflexivity].
      unfold startswith in *.
      apply (prefix_app "```" "json") in E. congruence. }
    rewrite Hj, Hs, He. exact Hstrip.
Qed.

End Fences.

Section FencesExamples.
Import decision_invariant_spec decider_samples.

Lemma fences_round_trip_witness :
  trimmed reply
  /\ strip_code_fences (fenced "json" reply) = reply
  /\ strip_code_fences (fenced "" reply) = reply
  /\ strip_code_fences reply = reply.
Proof.
  assert (Ht : trimmed reply) by (split; reflexivity).
  destruct (fences_round_trip reply Ht) as (H1 & H2 & H3).
  repeat split; auto.
Defined.

(** White space outside ASCII is stripped too: a no-break space (U+00A0)
    in front and a line separator (U+2028) behind. *)
Example strip_removes_unicode_space :
  let nbsp := String (Ascii.ascii_of_nat 194) (String (Ascii.ascii_of_nat 160) EmptyString) in
  let ls := String (Ascii.ascii_of_nat 226)
              (String (Ascii.ascii_of_nat 128) (String (Ascii.ascii_of_nat 168) EmptyString)) in
  strip (nbsp ++ reply ++ ls) = reply
  /\ strip_code_fences (nbsp ++ fenced "json" reply ++ ls) = reply.
Proof. split; vm_compute; reflexivity. Qed.

End FencesExamples.
(** ** Invariants of the decider clients *)

Section DeciderInvariants.
Import decider_spec decision_invariant_spec.

Lemma fill_fold_present l : forall d,
  (forall fd, In fd l -> dict_mem (fst fd) d = true) ->
  fold_left fill_step l d = d.
Proof.
  induction l as [|fd l IH]; intros d H; simpl; [reflexivity|].
  unfold fill_step at 2. rewrite (H fd) by (simpl; auto).
  apply IH. intros fd' Hin. apply H. simpl. auto.
Qed.

Lemma fill_fold_keeps l : forall d k v,
  dict_lookup k d = Some v -> dict_lookup k (fold_left fill_step l d) = Some v.
Proof.
  induction l as [|[k' v'] l IH]; intros d k v H; simpl; [exact H|].
  apply IH. unfold fill_step. simpl.
  destruct (dict_mem k' d) eqn:E; [exact H|].
  rewrite dict_lookup_set_other; [exact H|].
  intro; subst. unfold dict_mem in E. now rewrite H in E.
Qed.

(** X10.  The defaulting loops of both decider clients only add: a key that is
    there keeps its value, whether it is one of the six fields or not,
    and running the loop a second time changes nothing. *)
Theorem defaulting_only_adds (d : pydict) :
  (forall k v, dict_lookup k d = Some v ->
     dict_lookup k (decision_api.fill_required d) = Some v
     /\ dict_lookup k (decision_agent.fill_required d) = Some v)
  /\ (forall k, ~ In k decision_agent.required_fields ->
        dict_lookup k (decision_api.fill_required d) = dict_lookup k d
        /\ dict_lookup k (decision_agent.fill_required d) = dict_lookup k d)
  /\ decision_api.fill_required (decision_api.fill_required d)
     = decision_api.fill_required d
  /\ decision_agent.fill_required (decision_agent.fill_required d)
     = decision_agent.fill_required d.
Proof.
  split; [|split; [|split]].
  - intros k v H. split.
    + apply (fill_fold_keeps decision_api.required_fields). exact H.
    + rewrite agent_fill_as_fold. apply fill_fold_keeps. exact H.
  - intros k Hk. split.
    + apply (fill_fold_absent decision_api.required_fields). exact Hk.
    + rewrite agent_fill_as_fold. apply fill_fold_absent.
      exact Hk.
  - apply (fill_fold_present decision_api.required_fields).
    intros [k v] Hin. unfold dict_mem. simpl.
    now rewrite (api_fill_lookup d k v Hin).
  - rewrite (agent_fill_as_fold (decision_agent.fill_required d)).
    apply fill_fold_present. intros [k v] Hin. unfold dict_mem. simpl.
    apply in_map_iff in Hin as (k0 & [= <- <-] & Hin).
    now rewrite (agent_fill_lookup d k0 Hin).
Qed.

#[local] Instance only_decision_changes_preorder : PreOrder only_decision_changes.
Proof.
  split.
  - intros st k _. reflexivity.
  - intros a b c Hab Hbc k H. rewrite (Hbc k H). now apply Hab.
Qed.

Lemma make_decision_frame rt invoke :
  preserves only_decision_changes (decision_agent.make_decision rt invoke).
Proof.
  unfold decision_agent.make_decision.
  repeat pres_step.
  all: try (intros k Hk; apply dict_lookup_set_other; assumption).
Qed.

Lemma complete_filled d :
  complete_decision (decision_agent.fill_required d) = true.
Proof.
  unfold complete_decision. apply forallb_forall. intros k Hk.
  unfold dict_mem. now rewrite (agent_fill_lookup d k Hk).
Qed.

Lemma bind_lift_raise {S A B} (e : exn) (k : A -> M S B) (s : S) :
  bind (lift (Raise e)) k s = (s, Raise e).
Proof. reflexivity. Qed.

(** Where the decision that [make_decision] leaves in the state comes
    from: the completed reply, the completed parse fallback, or the error
    fallback. *)
Lemma make_decision_outcome rt invoke st :
  let st' := fst (decision_agent.make_decision rt invoke st) in
  (exists content d0,
      invoke st = Ok content /\ parses_to rt content d0
      /\ dict_lookup "decision_output" st'
         = Some (JObj (decision_agent.fill_required d0)))
  \/ (exists msg,
        dict_lookup "decision_output" st'
        = Some (JObj (decision_agent.fill_required
                        (decision_agent.parse_fallback msg))))
  \/ (exists e,
        dict_lookup "decision_output" st'
        = Some (JObj (decision_agent.error_fallback e))).
Proof.
  cbv zeta. unfold decision_agent.make_decision, try_except.
  rewrite bind_gets.
  assert (Hfail : forall e s, exists e',
             dict_lookup "decision_output"
               (fst ((modify (dict_set "decision_output"
                                (JObj (decision_agent.error_fallback e))) ;;
                      gets (fun st => st)) s))
             = Some (JObj (decision_agent.error_fallback e'))).
  { intros e s. exists e. rewrite bind_modify. simpl.
    apply dict_lookup_set_same. }
  assert (Hp : forall p, decision_agent.build_prompt st = Ok p -> p = st).
  { unfold decision_agent.build_prompt. intros p.
    destruct (truthy _); [|congruence].
    destruct (first3 _); [|discriminate].
    destruct (decision_agent.format_predictions _); [congruence|discriminate]. }
  destruct (decision_agent.build_prompt st) as [p|e] eqn:Hb;
    [|rewrite bind_lift_raise; right; right; apply Hfail].
  rewrite (Hp p eq_refl), bind_lift_ok.
  destruct (invoke st) as [content|e] eqn:Hi;
    [|rewrite bind_lift_raise; right; right; apply Hfail].
  rewrite bind_lift_ok.
  destruct (json_loads rt (strip_code_fences content)) as [v|msg] eqn:Hj.
  - destruct v as [| | | | | |d0]; try (right; right; apply Hfail).
    rewrite bind_modify.
    match goal with
    | |- context [match ?m ?s with pair _ _ => _ end] =>
        assert (Hs : fst (m s) = s);
        [ apply (@eq_sym _ _ _);
          assert (Hq : preserves eq m) by (repeat pres_step; reflexivity);
          apply Hq
        | destruct (m s) as [s2 [a|e]]; simpl in Hs; subst s2 ]
    end.
    + left. exists content, d0. repeat split; auto. simpl.
      apply dict_lookup_set_same.
    + right; right; cbv beta iota; apply Hfail.
  - rewrite bind_modify.
    match goal with
    | |- context [match ?m ?s with pair _ _ => _ end] =>
        assert (Hs : fst (m s) = s);
        [ apply (@eq_sym _ _ _);
          assert (Hq : preserves eq m) by (repeat pres_step; reflexivity);
          apply Hq
        | destruct (m s) as [s2 [a|e]]; simpl in Hs; subst s2 ]
    end.
    + right; left. exists msg. simpl. apply dict_lookup_set_same.
    + right; right; cbv beta iota; apply Hfail.
Qed.

(** X11.  The decision agent always decides: for every state, every reply of
    the LLM and every failure on the way, [make_decision] returns the
    state, which then holds a [decision_output] with all six fields, and
    no other key of the state has changed. *)
Theorem decision_agent_always_decides rt invoke (st : pydict) :
  exists st' d,
    decision_agent.make_decision rt invoke st = (st', Ok st')
    /\ dict_lookup "decision_output" st' = Some (JObj d)
    /\ complete_decision d = true
    /\ only_decision_changes st st'.
Proof.
  destruct (decision_agent_never_raises rt invoke st) as (st' & Hrun).
  pose proof (make_decision_frame rt invoke st) as Hframe.
  pose proof (make_decision_outcome rt invoke st) as Hout.
  rewrite Hrun in Hframe, Hout. simpl in Hframe, Hout.
  destruct Hout as [(content & d0 & _ & _ & Hd) | [(msg & Hd) | (e & Hd)]];
    eexists st', _; (split; [exact Hrun|]); (split; [exact Hd|]);
    (split; [|exact Hframe]).
  - apply complete_filled.
  - apply complete_filled.
  - reflexivity.
Qed.

(** X12.  The decision agent never invents a decision that does not escalate:
    whenever the decision it leaves in the state has a false
    [requires_escalation], the LLM was reached, its reply parsed to an
    object, and the decision is that object with the missing fields
    defaulted.  Every failure, of the prompt, of the LLM, of the parser
    or of the progress prints, ends in a decision that escalates. *)
Theorem only_a_parsed_reply_avoids_escalation rt invoke (st : pydict) (d : pydict) :
  dict_lookup "decision_output"
    (fst (decision_agent.make_decision rt invoke st)) = Some (JObj d) ->
  escalates d = false ->
  exists content d0,
    invoke st = Ok content /\ parses_to rt content d0
    /\ d = decision_agent.fill_required d0.
Proof.
  intros Hd Hesc.
  destruct (make_decision_outcome rt invoke st)
    as [(content & d0 & Hi & Hp & Hd') | [(msg & Hd') | (e & Hd')]];
    rewrite Hd in Hd'; injection Hd' as ->.
  - eauto.
  - discriminate Hesc.
  - discriminate Hesc.
Qed.

(** X13.  A reply that cannot be parsed is not an error in either decider: the
    service answers "success" with its fallback decision, the agent
    stores its own, and both fallbacks escalate. *)
Theorem unparsable_reply_falls_back `{Pydantic} rt (content msg : string) :
  json_loads rt (strip_code_fences content) = JSONDecodeError msg ->
  (forall invoke request,
     invoke (decision_api.build_prompt request) = Ok content ->
     exists o,
       decision_api.make_decision rt (Some invoke) request
       = Ok {| decision_api.decision := o;
               decision_api.status := "success";
               decision_api.agent := "agent3_decision" |}
       /\ output_dict o = decision_api.fallback_decision msg
       /\ decision_api.requires_escalation o = true)
  /\ (forall invoke st,
        decision_agent.build_prompt st = Ok st ->
        invoke st = Ok content ->
        decision_agent.make_decision rt invoke st
        = (dict_set "decision_output"
             (JObj (decision_agent.parse_fallback msg)) st,
           Ok (dict_set "decision_output"
                 (JObj (decision_agent.parse_fallback msg)) st))
        /\ escalates (decision_agent.parse_fallback msg) = true).
Proof.
  intros Hj. split.
  - intros invoke request Hi.
    unfold decision_api.make_decision, decision_api.decide,
      decision_api.parse_llm_response.
    rewrite Hi. simpl rbind. rewrite Hj.
    cbn -[take_chars]. unfold decision_api.DecisionOutput_init. rewrite !v_str_exact, v_bool_exact.
    eexists. split; [reflexivity|]. split; reflexivity.
  - intros invoke st Hb Hi. split; [|reflexivity].
    unfold decision_agent.make_decision, try_except.
    rewrite bind_gets. rewrite Hb, bind_lift_ok, Hi, bind_lift_ok, Hj.
    reflexivity.
Qed.

End DeciderInvariants.

Section DeciderInvariantExamples.
Import decider_spec decision_invariant_spec decider_samples.

(** The LLM answers in prose. *)
Lemma unparsable_reply_falls_back_witness :
  exists o,
    decision_api.make_decision (runtime_with reply (JObj partial_decision))
      (Some (fun _ => Ok "I cannot decide.")) request
    = Ok {| decision_api.decision := o;
            decision_api.status := "success";
            decision_api.agent := "agent3_decision" |}
    /\ decision_api.requires_escalation o = true.
Proof.
  destruct (unparsable_reply_falls_back
              (runtime_with reply (JObj partial_decision))
              "I cannot decide." "Expecting value" eq_refl) as [Hapi _].
  destruct (Hapi (fun _ => Ok "I cannot decide.") request eq_refl)
    as (o & Hrun & _ & Hesc).
  exists o. split; assumption.
Defined.

(** The reply is a complete decision that does not escalate. *)
Lemma only_a_parsed_reply_avoids_escalation_witness :
  exists d content,
    dict_lookup "decision_output"
      (fst (decision_agent.make_decision
              (runtime_with reply (JObj partial_decision))
              (fun _ => Ok fenced_reply) [])) = Some (JObj d)
    /\ escalates d = false
    /\ parses_to (runtime_with reply (JObj partial_decision)) content
         partial_decision
    /\ d = decision_agent.fill_required partial_decision.
Proof.
  eexists _, fenced_reply. split; [vm_compute; reflexivity|].
  split; [reflexivity|]. split; [reflexivity|].
  destruct (only_a_parsed_reply_avoids_escalation
              (runtime_with reply (JObj partial_decision))
              (fun _ => Ok fenced_reply) [] _ eq_refl eq_refl)
    as (content & d0 & Hi & Hp & Hd).
  vm_compute. reflexivity.
Defined.

End DeciderInvariantExamples.
(** ** The operational log *)

Section ServiceLog.
Import action_executor_api executor_spec operational_log log_spec.
Context `{P : Pydantic} (rt : runtime) (fails : list json -> option exn).

Lemma py_len_app a b : py_len (a ++ b) = (py_len a + py_len b)%nat.
Proof.
  induction a as [|c a IH]; simpl; [reflexivity|].
  destruct (is_continuation c); simpl; now rewrite IH.
Qed.

Lemma py_len_take_chars s : forall n, (py_len (take_chars n s) <= n)%nat.
Proof.
  induction s as [|c s IH]; intros n; simpl; [lia|].
  destruct (is_continuation c) eqn:E; simpl.
  - rewrite E. apply IH.
  - destruct n as [|n]; simpl; [lia|]. rewrite E. specialize (IH n). lia.
Qed.

(** X14.  What [safe_str] returns never exceeds 503 characters, counted as
    Python counts them (code points): the text is cut after 500 and
    marked with three dots; [None] becomes the empty text and a text of
    at most 500 characters is kept as it is.  The [_safe_str] of the
    sheets agent converts the same way. *)
Theorem safe_str_is_bounded (v : json) :
  (py_len (safe_str rt v) <= 503)%nat
  /\ google_sheets_agent._safe_str rt v = safe_str rt v
  /\ safe_str rt JNull = ""
  /\ (forall s, (py_len s <= 500)%nat -> safe_str rt (JStr s) = s).
Proof.
  split; [|split; [reflexivity|split; [reflexivity|]]].
  - assert (Hcut : forall s,
              (py_len (if Nat.ltb 500 (py_len s)
                       then take_chars 500 s ++ "..." else s) <= 503)%nat).
    { intro s. destruct (Nat.ltb 500 (py_len s)) eqn:E.
      - rewrite py_len_app.
        pose proof (py_len_take_chars s 500). simpl. lia.
      - apply Nat.ltb_ge in E. lia. }
    unfold safe_str. destruct v; try apply Hcut. simpl. lia.
  - intros s Hs. unfold safe_str, py_str.
    apply Nat.ltb_ge in Hs. now rewrite Hs.
Qed.

Ltac split_rbind :=
  repeat match goal with
         | |- rbind ?r _ = Ok _ -> _ =>
             let x := fresh "x" in destruct r as [x|]; [simpl rbind|discriminate]
         end.

Lemma build_row_shape request row :
  build_row rt request = Ok row ->
  length row = length COLUMNS
  /\ cell "Processing Status" row
     = Some (JStr
         (if truthy (dict_get "requires_escalation" JNull (decision_or_empty request))
          then "ESCALATED"
          else if truthy (dict_get "recommended_action" JNull
                            (decision_or_empty request))
          then "PROCESSED"
          else if negb (String.eqb (predicted_label request) "")
          then "CLASSIFIED ONLY" else "ERROR"))
  /\ cell "Requires Escalation" row
     = Some (yes_no (truthy (dict_get "requires_escalation" JNull
                               (decision_or_empty request))))
  /\ cell "SOP Retrieved" row = Some (yes_no (sop_retrieved request))
  /\ cell "Predicted Exception" row
     = Some (JStr (safe_str rt (JStr (predicted_label request)))).
Proof.
  unfold build_row. split_rbind.
  intro H. injection H as <-. repeat split.
Qed.

Lemma build_row_from_state_shape st row :
  google_sheets_agent._build_row_from_state rt st = Ok row ->
  exists decision,
    dict_get "decision_output" (JObj []) st = JObj decision
    /\ length row = length COLUMNS
    /\ cell "Processing Status" row
       = Some (JStr
           (if truthy (dict_get "requires_escalation" JNull decision)
            then "ESCALATED"
            else if truthy (dict_get "recommended_action" JNull decision)
            then "PROCESSED"
            else if truthy (dict_get "predicted_label" JNull st)
            then "CLASSIFIED ONLY" else "ERROR"))
    /\ cell "Requires Escalation" row
       = Some (JStr (if truthy (dict_get "requires_escalation" JNull decision)
                     then "Yes" else "No"))
    /\ cell "SOP Retrieved" row
       = Some (JStr (if truthy (dict_get "sop_content" JNull st)
                     then "Yes" else "No"))
    /\ (forall m, get (dict_get "sop_metadata" (JObj []) st) "id" (JStr "") = Ok m ->
          cell "SOP ID" row = Some (JStr (google_sheets_agent._safe_str rt m))).
Proof.
  unfold google_sheets_agent._build_row_from_state.
  destruct (dict_get "decision_output" (JObj []) st) as [| | | | | |decision];
    try discriminate.
  split_rbind.
  intro H. injection H as <-. exists decision. repeat split.
  intros m [= <-]. reflexivity.
Qed.

(** X15.  Every row either logger builds has one cell per column of the
    header, and its status column says "ESCALATED" exactly when its
    escalation column says "Yes". *)
Theorem rows_match_the_header :
  (forall request row,
     build_row rt request = Ok row ->
     length row = length COLUMNS
     /\ (cell "Processing Status" row = Some (JStr "ESCALATED")
         <-> cell "Requires Escalation" row = Some (JStr "Yes")))
  /\ (forall st row,
        google_sheets_agent._build_row_from_state rt st = Ok row ->
        length row = length COLUMNS
        /\ (cell "Processing Status" row = Some (JStr "ESCALATED")
            <-> cell "Requires Escalation" row = Some (JStr "Yes"))).
Proof.
  split.
  - intros request row H.
    apply build_row_shape in H as (Hlen & Hst & Hesc & _).
    split; [exact Hlen|]. rewrite Hst, Hesc. unfold yes_no.
    destruct (truthy (dict_get "requires_escalation" _ _)).
    + split; reflexivity.
    + destruct (truthy _); [|destruct (negb _)];
        split; intro H; discriminate H.
  - intros st row H.
    apply build_row_from_state_shape in H as (d & _ & Hlen & Hst & Hesc & _).
    split; [exact Hlen|]. rewrite Hst, Hesc.
    destruct (truthy (dict_get "requires_escalation" _ _)).
    + split; reflexivity.
    + destruct (truthy _); [|destruct (truthy _)];
        split; intro H; discriminate H.
Qed.

#[local] Instance same_sheet_preorder : PreOrder same_sheet.
Proof.
  split.
  - intro s. repeat split.
  - intros a b c. unfold same_sheet. intuition congruence.
Qed.

Lemma print_same_sheet line : preserves same_sheet (print line).
Proof. intro s. repeat split. Qed.

Lemma simulate_email_same_sheet request re :
  preserves same_sheet (simulate_email rt request re).
Proof.
  unfold simulate_email. repeat pres_step; apply print_same_sheet.
Qed.

(** What ACTION 1 does to the sheet, in every outcome. *)
Lemma log_to_sheets_rows request s :
  let s1 := fst (log_to_sheets rt fails request s) in
  sheets_initialized s1 = sheets_initialized s
  /\ worksheet s1 = worksheet s
  /\ (sheet_rows s1 = sheet_rows s
      \/ sheet_ready s = true
         /\ snd (log_to_sheets rt fails request s) = Ok true
         /\ exists row, build_row rt request = Ok row /\ fails row = None
                        /\ sheet_rows s1 = (sheet_rows s ++ [row])%list).
Proof.
  cbv zeta. unfold log_to_sheets. rewrite bind_gets. fold (sheet_ready s).
  destruct (sheet_ready s) eqn:Hr.
  - unfold try_except.
    destruct (build_row rt request) as [row|e].
    + rewrite bind_lift_ok. unfold bind at 1, append_row.
      destruct (fails row) as [e|] eqn:Hf; simpl; [auto|].
      repeat split. right. repeat split. exists row. auto.
    + rewrite bind_lift_raise. simpl. auto.
  - assert (Hp : preserves same_sheet
                   (ra <- lift (slice_to 50 (dict_get "recommended_action"
                                               (JStr "N/A") (decision_or_empty request))) ;;
                    print ("[SIMULATED] Would log: " ++ predicted_label request
                           ++ " - " ++ py_str rt ra) ;;
                    ret true)).
    { repeat pres_step. apply print_same_sheet. }
    destruct (Hp s) as (H1 & H2 & H3). auto.
Qed.

(** X16.  The sheet is append-only: in every outcome of [execute_actions],
    returning or raising, the rows that were there are still there in the
    same order, at most one row has been added at the end, and it is the
    row built from the request; a row is added only when the sheet was
    opened at startup.  The startup globals are never changed. *)
Theorem sheet_is_append_only (request : ActionRequest) (s : service) :
  let s' := fst (execute_actions rt fails request s) in
  sheets_initialized s' = sheets_initialized s
  /\ worksheet s' = worksheet s
  /\ (sheet_rows s' = sheet_rows s
      \/ sheet_ready s = true
         /\ exists row, build_row rt request = Ok row /\ fails row = None
                        /\ sheet_rows s' = (sheet_rows s ++ [row])%list).
Proof.
  cbv zeta. pose proof (log_to_sheets_rows request s) as Hlog. cbv zeta in Hlog.
  remember (execute_actions rt fails request s) as run eqn:Hrun.
  unfold execute_actions in Hrun. unfold bind at 1 in Hrun.
  destruct (log_to_sheets rt fails request s) as [s1 [b|e]]; simpl in Hlog;
    destruct Hlog as (L1 & L2 & L3).
  - match type of Hrun with
    | _ = bind ?m ?k s1 =>
        assert (Hp : preserves same_sheet (bind m k))
          by (repeat pres_step; apply simulate_email_same_sheet);
        destruct (Hp s1) as (H1 & H2 & H3)
    end.
    rewrite <- Hrun in H1, H2, H3.
    split; [congruence|]. split; [congruence|].
    destruct L3 as [L3 | (Hr & _ & row & Hrow & Hf & L3)];
      [left; congruence|].
    right. split; [exact Hr|]. exists row. repeat split; auto. congruence.
  - subst run. simpl. repeat split; auto.
    destruct L3 as [L3 | (Hr & _ & row & Hrow & Hf & L3)]; [auto|].
    right. split; [exact Hr|]. exists row. auto.
Qed.

(** X17.  What the sheet says agrees with what the caller is told: when the
    service answers a request whose decision fields have their declared
    types and a row was written, the row's escalation column and status
    column say what [escalated] says in the response, and the row carries
    the predicted label and the [sop_retrieved] flag of the request. *)
Theorem logged_row_agrees_with_response request s s' resp row :
  decision_typed (decision_or_empty request) = true ->
  execute_actions rt fails request s = (s', Ok resp) ->
  sheet_rows s' = (sheet_rows s ++ [row])%list ->
  sheet_updated resp = true
  /\ cell "Requires Escalation" row = Some (yes_no (escalated resp))
  /\ (cell "Processing Status" row = Some (JStr "ESCALATED")
      <-> escalated resp = true)
  /\ cell "SOP Retrieved" row = Some (yes_no (sop_retrieved request))
  /\ cell "Predicted Exception" row
     = Some (JStr (safe_str rt (JStr (predicted_label request)))).
Proof.
  intros Ht Hrun Hrows.
  apply execute_actions_returns in Hrun as (s1 & Hlog & Hmail & Hesc).
  pose proof (simulate_email_same_sheet request
                (dict_get "requires_escalation" (JBool false)
                   (decision_or_empty request)) s1) as (_ & _ & Hk).
  rewrite Hmail in Hk. simpl in Hk.
  pose proof (log_to_sheets_rows request s) as (_ & _ & Hl).
  rewrite Hlog in Hl. simpl in Hl.
  rewrite (typed_escalation _ Ht), v_bool_exact in Hesc. injection Hesc as Hesc.
  destruct Hl as [Hl | (Hr & Hb & row' & Hrow & Hf & Hl)].
  - exfalso. rewrite Hk, Hl in Hrows.
    apply (f_equal (@List.length _)) in Hrows. rewrite length_app in Hrows.
    simpl in Hrows. lia.
  - rewrite Hk, Hl in Hrows. apply app_inj_tail in Hrows as [_ <-].
    injection Hb as Hb.
    apply build_row_shape in Hrow as (_ & Hst & Hyes & Hsop & Hpl).
    assert (Htr : truthy (dict_get "requires_escalation" JNull
                            (decision_or_empty request)) = escalated resp).
    { rewrite <- Hesc. unfold escalation_required, dict_get.
      unfold decision_typed in Ht.
      destruct (dict_lookup "requires_escalation" (decision_or_empty request))
        as [[]|]; try reflexivity; discriminate Ht. }
    rewrite Htr in Hst, Hyes. repeat split; auto.
    + rewrite Hst. destruct (escalated resp); [reflexivity|].
      destruct (truthy _); [|destruct (negb _)]; intro H; discriminate H.
    + rewrite Hst. destruct (escalated resp); [reflexivity|]. discriminate.
Qed.

End ServiceLog.

Section ServiceLogExamples.
Import action_executor_api executor_spec operational_log log_spec executor_samples.

(** An escalating decision is logged to an open sheet. *)
Lemma logged_row_agrees_with_response_witness :
  exists s' resp row,
    execute_actions rt append_works (request_with (Some escalating)) sheets_up
    = (s', Ok resp)
    /\ sheet_rows s' = (sheet_rows sheets_up ++ [row])%list
    /\ escalated resp = true
    /\ cell "Processing Status" row = Some (JStr "ESCALATED")
    /\ cell "Requires Escalation" row = Some (JStr "Yes").
Proof.
  destruct (execute_actions rt append_works (request_with (Some escalating))
              sheets_up) as [s' [resp|e]] eqn:Hrun.
  - pose proof Hrun as Hc. vm_compute in Hc. injection Hc as Hs Hr.
    assert (Hrows : exists row, sheet_rows s' = (sheet_rows sheets_up ++ [row])%list)
      by (rewrite <- Hs; eexists; reflexivity).
    destruct Hrows as [row Hrows].
    destruct (logged_row_agrees_with_response rt append_works
                (request_with (Some escalating)) sheets_up s' resp row
                eq_refl Hrun Hrows) as (_ & Hyes & Hst & _).
    assert (Hesc : escalated resp = true) by (rewrite <- Hr; reflexivity).
    exists s', resp, row. repeat split; auto.
    + apply Hst. exact Hesc.
    + rewrite Hyes, Hesc. reflexivity.
  - vm_compute in Hrun. discriminate Hrun.
Defined.

End ServiceLogExamples.
(** ** The executor agent and its sheet logger *)

Section AgentLog.
Import agents google_sheets_agent action_executor_agent operational_log log_spec.
Context (rt : runtime) (fails : list json -> option exn).
Context (customer_email dispatcher_email : pystr) (sheets_agent : GoogleSheetsAgent).

(** What [log_to_sheet] does, in every outcome. *)
Lemma log_to_sheet_effects (self : GoogleSheetsAgent) (w : world) :
  let r := log_to_sheet rt fails self w in
  state (fst r) = state w /\ outbox (fst r) = outbox w
  /\ (sheet_rows (fst r) = sheet_rows w /\ snd r <> Ok true
      \/ sheet_rows (fst r) = sheet_rows w /\ snd r = Ok true
         /\ _initialized self = false
      \/ _initialized self = true /\ snd r = Ok true
         /\ exists row, _build_row_from_state rt (state w) = Ok row
                        /\ fails row = None
                        /\ sheet_rows (fst r) = (sheet_rows w ++ [row])%list)
  /\ (snd r = Ok false ->
      _initialized self = true
      /\ exists row e, _build_row_from_state rt (state w) = Ok row
                       /\ fails row = Some e).
Proof.
  cbv zeta. unfold log_to_sheet. rewrite bind_gets.
  destruct (_build_row_from_state rt (state w)) as [row|e].
  - rewrite bind_lift_ok. destruct (_initialized self); simpl negb; cbv iota.
    + destruct (fails row) as [e|] eqn:Hf; simpl;
        (split; [reflexivity|]); (split; [reflexivity|]); split.
      * left. split; [reflexivity|discriminate].
      * eauto.
      * right; right. repeat split. exists row. auto.
      * discriminate.
    + destruct (display_all row) as [[]|e]; simpl;
        (split; [reflexivity|]); (split; [reflexivity|]); split;
        try discriminate.
      * right; left. auto.
      * left. split; [reflexivity|discriminate].
  - rewrite bind_lift_raise. simpl.
    (split; [reflexivity|]); (split; [reflexivity|]); split; [|discriminate].
    left. split; [reflexivity|discriminate].
Qed.

(** X18.  The flag [execute] stores is honest about failure and about nothing
    else: [sheet_updated] is false only when the sheet was opened and
    appending the row failed; it is true when the row was appended, and
    also in simulation mode, where no row is written.  Only the two keys
    [sheet_updated] and [sheet_log_timestamp] of the state change and no
    mail is sent. *)
Theorem sheet_agent_records_outcome (self : GoogleSheetsAgent) (w w' : world)
    (st' : pydict) :
  execute rt fails self w = (w', Ok st') ->
  st' = state w' /\ outbox w' = outbox w
  /\ (forall k, k <> "sheet_updated" -> k <> "sheet_log_timestamp" ->
        dict_lookup k st' = dict_lookup k (state w))
  /\ exists b,
       dict_lookup "sheet_updated" st' = Some (JBool b)
       /\ (b = false -> _initialized self = true /\ sheet_rows w' = sheet_rows w)
       /\ (_initialized self = false -> b = true /\ sheet_rows w' = sheet_rows w)
       /\ (_initialized self = true -> b = true ->
           exists row, _build_row_from_state rt (state w) = Ok row
                       /\ sheet_rows w' = (sheet_rows w ++ [row])%list).
Proof.
  unfold execute. unfold bind at 1.
  pose proof (log_to_sheet_effects self w) as Hlog. cbv zeta in Hlog.
  destruct (log_to_sheet rt fails self w) as [w1 [b|e]]; [|discriminate].
  simpl in Hlog. destruct Hlog as (Hst & Hout & Hrows & Hfalse).
  unfold set_state. rewrite !bind_modify. unfold gets. simpl.
  intros [= <- <-]. simpl. rewrite Hst.
  split; [reflexivity|]. split; [exact Hout|]. split.
  - intros k H1 H2. rewrite !dict_lookup_set_other by assumption. reflexivity.
  - exists b. split.
    + rewrite dict_lookup_set_other by discriminate. apply dict_lookup_set_same.
    + destruct Hrows as [[Hr Hn] | [(Hr & Hb & Hi) | (Hi & Hb & row & Hrow & Hf & Hr)]].
      * destruct b; [congruence|]. destruct (Hfalse eq_refl) as (Hi & _).
        repeat split; auto; congruence.
      * injection Hb as ->. repeat split; auto; congruence.
      * injection Hb as ->. repeat split; try congruence.
        intros _ _. exists row. auto.
Qed.


Lemma bind_ok_inv {S A B} (m : M S A) (k : A -> M S B) s s' b :
  bind m k s = (s', Ok b) ->
  exists s1 a, m s = (s1, Ok a) /\ k a s1 = (s', Ok b).
Proof.
  unfold bind. destruct (m s) as [s1 [a|e]]; [eauto | discriminate].
Qed.

Lemma lift_ok_inv {S A} (r : result A) (s s' : S) a :
  lift r s = (s', Ok a) -> s' = s /\ r = Ok a.
Proof. unfold lift. intros [= <- ->]. auto. Qed.

Lemma send_email_effects to subject body w :
  let r := send_email to subject body w in
  state (fst r) = state w /\ sheet_rows (fst r) = sheet_rows w
  /\ outbox (fst r) = (outbox w ++ [(to, subject, body)])%list
  /\ (forall b, snd r = Ok b -> b = true).
Proof.
  cbv zeta. unfold send_email. rewrite bind_modify.
  destruct (len_gt 200 body) as [long|e].
  - rewrite bind_lift_ok. destruct long.
    + destruct (slice_ok body) as [[]|e].
      * rewrite bind_lift_ok. simpl. repeat split. now intros b [= <-].
      * rewrite bind_lift_raise. simpl. repeat split. discriminate.
    + simpl. repeat split. now intros b [= <-].
  - rewrite bind_lift_raise. simpl. repeat split. discriminate.
Qed.

(** X19.  The record the executor agent leaves in the state tells what it did:
    whenever [execute_actions] returns, [executed_action] says
    [email_sent] exactly when one mail went out, names that mail's
    recipient, which is the dispatcher when the [requires_escalation] of
    the decision is truthy and the customer otherwise, repeats that flag
    as [escalated], says [sheet_updated] false only if appending the row
    failed, and no other key of the state has changed. *)
Theorem executed_action_is_truthful (w w' : world) (st' : pydict) :
  execute_actions rt fails customer_email dispatcher_email sheets_agent w
  = (w', Ok st') ->
  st' = state w'
  /\ only_key_changes "executed_action" (state w) st'
  /\ exists ea b su re,
       dict_lookup "executed_action" st' = Some (JObj ea)
       /\ escalation_flag (state w) = Ok re
       /\ dict_lookup "escalated" ea = Some re
       /\ dict_lookup "email_sent" ea = Some (JBool b)
       /\ dict_lookup "sheet_updated" ea = Some (JBool su)
       /\ (if b then
             exists to subject body,
               outbox w' = (outbox w ++ [(to, subject, body)])%list
               /\ to = (if truthy re then dispatcher_email else customer_email)
               /\ dict_lookup "email_recipient" ea
                  = Some (match to with Some r => JStr r | None => JNull end)
           else outbox w' = outbox w
                /\ dict_lookup "email_recipient" ea = Some JNull)
       /\ (su = false ->
           _initialized sheets_agent = true /\ sheet_rows w' = sheet_rows w)
       /\ (su = true -> _initialized sheets_agent = true ->
           exists row, sheet_rows w' = (sheet_rows w ++ [row])%list).
Proof.
  unfold execute_actions. rewrite bind_gets. intro Hrun.
  apply bind_ok_inv in Hrun as (w0 & ra & H & Hrun).
  apply lift_ok_inv in H as [-> Hra].
  apply bind_ok_inv in Hrun as (w0 & cm & H & Hrun).
  apply lift_ok_inv in H as [-> Hcm].
  apply bind_ok_inv in Hrun as (w0 & re & H & Hrun).
  apply lift_ok_inv in H as [-> Hre].
  apply bind_ok_inv in Hrun as (w1 & sent & Hmail & Hrun).
  apply bind_ok_inv in Hrun as (w2 & su & Hlog & Hrun).
  unfold set_state in Hrun. rewrite bind_modify in Hrun.
  apply bind_ok_inv in Hrun as (w3 & [] & H & Hrun).
  apply lift_ok_inv in H as [-> _].
  unfold gets in Hrun. injection Hrun as <- <-. simpl.
  pose proof (log_to_sheet_effects sheets_agent w1) as Hl. cbv zeta in Hl.
  rewrite Hlog in Hl. simpl in Hl. destruct Hl as (Ls & Lo & Lr & Lf).
  assert (Hm : state w1 = state w /\ sheet_rows w1 = sheet_rows w
               /\ (sent = (false, None) /\ outbox w1 = outbox w
                   /\ truthy cm || truthy re = false
                   \/ exists to subject body,
                        sent = (true, to)
                        /\ truthy cm || truthy re = true
                        /\ to = (if truthy re then dispatcher_email
                                 else customer_email)
                        /\ outbox w1 = (outbox w ++ [(to, subject, body)])%list)).
  { clear Hlog Ls Lo Lr Lf. revert Hmail.
    destruct (truthy cm || truthy re) eqn:Hw.
    - destruct (truthy re).
      + intro Hmail.
        apply bind_ok_inv in Hmail as (w0 & [] & H & Hmail).
        apply lift_ok_inv in H as [-> _].
        apply bind_ok_inv in Hmail as (w0 & reasoning & H & Hmail).
        apply lift_ok_inv in H as [-> _].
        apply bind_ok_inv in Hmail as (w0 & b & Hsend & Hmail).
        unfold ret in Hmail. injection Hmail as <- <-.
        match type of Hsend with
        | send_email ?to ?subj ?body w = _ =>
            pose proof (send_email_effects to subj body w) as He
        end.
        cbv zeta in He. rewrite Hsend in He. simpl in He.
        destruct He as (E1 & E2 & E3 & E4). rewrite (E4 b eq_refl).
        repeat split; auto. right. eauto 10.
      + intro Hmail.
        apply bind_ok_inv in Hmail as (w0 & b & Hsend & Hmail).
        unfold ret in Hmail. injection Hmail as <- <-.
        match type of Hsend with
        | send_email ?to ?subj ?body w = _ =>
            pose proof (send_email_effects to subj body w) as He
        end.
        cbv zeta in He. rewrite Hsend in He. simpl in He.
        destruct He as (E1 & E2 & E3 & E4). rewrite (E4 b eq_refl).
        repeat split; auto. right. eauto 10.
    - unfold ret. intros [= <- <-]. repeat split. left. auto. }
  destruct Hm as (Ms & Mr & Mo).
  split; [reflexivity|]. split.
  - intros k Hk. rewrite dict_lookup_set_other by assumption. congruence.
  - eexists _, (fst sent), su, re. rewrite dict_lookup_set_same.
    split; [reflexivity|]. split; [exact Hre|].
    split; [reflexivity|]. split; [reflexivity|]. split; [reflexivity|].
    split; [|split].
    + destruct Mo as [(-> & Ho & Hw) | (to & subject & body & -> & Hw & Hto & Ho)].
      * simpl. split; [congruence | reflexivity].
      * simpl. exists to, subject, body. rewrite Hw.
        split; [congruence|]. split; [exact Hto|].
        destruct to; reflexivity.
    + intros ->. destruct (Lf eq_refl) as (Hi & _). split; [exact Hi|].
      destruct Lr as [[Hr _] | [(Hr & Hb & _) | (_ & Hb & _)]];
        try discriminate; congruence.
    + intros -> Hi.
      destruct Lr as [[Hr Hn] | [(Hr & Hb & Hi') | (_ & _ & row & _ & _ & Hr)]];
        try congruence.
      exists row. congruence.
Qed.

End AgentLog.

Section AgentLogExamples.
Import agents google_sheets_agent action_executor_agent operational_log log_spec.
Import executor_samples.

(** A sheets agent that was never configured, and one that is connected. *)
Lemma sheet_agent_records_outcome_witness :
  exists w' st',
    execute rt append_works
      (GoogleSheetsAgent_init builder_samples.cloud_up builder_samples.no_env
         None None None)
      {| state := [("predicted_label", JStr "Access Issue")];
         outbox := []; sheet_rows := [] |}
    = (w', Ok st')
    /\ dict_lookup "sheet_updated" st' = Some (JBool true)
    /\ sheet_rows w' = [].
Proof.
  destruct (execute rt append_works
              (GoogleSheetsAgent_init builder_samples.cloud_up
                 builder_samples.no_env None None None)
              {| state := [("predicted_label", JStr "Access Issue")];
                 outbox := []; sheet_rows := [] |})
    as [w' [st'|e]] eqn:Hrun.
  - exists w', st'. split; [reflexivity|].
    destruct (sheet_agent_records_outcome rt append_works _ _ _ _ Hrun)
      as (_ & _ & _ & b & Hb & _ & Hsim & _).
    destruct (Hsim eq_refl) as [-> Hrows]. auto.
  - vm_compute in Hrun. discriminate Hrun.
Defined.

(** An escalating decision: one mail, to the dispatcher. *)
Lemma executed_action_is_truthful_witness :
  exists w' st' ea,
    execute_actions rt append_works (Some "customer@example.com")
      (Some "dispatcher@example.com")
      (GoogleSheetsAgent_init builder_samples.cloud_up builder_samples.no_env
         None None None)
      {| state := [ ("predicted_label", JStr "Access Issue");
                    ("decision_output", JObj escalating) ];
         outbox := []; sheet_rows := [] |}
    = (w', Ok st')
    /\ dict_lookup "executed_action" st' = Some (JObj ea)
    /\ dict_lookup "email_sent" ea = Some (JBool true)
    /\ dict_lookup "email_recipient" ea = Some (JStr "dispatcher@example.com")
    /\ length (outbox w') = 1%nat.
Proof.
  destruct (execute_actions rt append_works (Some "customer@example.com")
              (Some "dispatcher@example.com")
              (GoogleSheetsAgent_init builder_samples.cloud_up
                 builder_samples.no_env None None None)
              {| state := [ ("predicted_label", JStr "Access Issue");
                            ("decision_output", JObj escalating) ];
                 outbox := []; sheet_rows := [] |})
    as [w' [st'|e]] eqn:Hrun.
  - destruct (executed_action_is_truthful rt append_works _ _ _ _ _ _ Hrun)
      as (_ & _ & ea & b & su & re & Hea & _).
    exists w', st', ea. split; [reflexivity|]. split; [exact Hea|].
    vm_compute in Hrun. injection Hrun as <- <-.
    vm_compute in Hea. injection Hea as <-.
    repeat split; reflexivity.
  - vm_compute in Hrun. discriminate Hrun.
Defined.

End AgentLogExamples.
(** ** The retrieval agent *)

Section RetrievalAgent.
Import rag_retrieval sop_retrieval_agent retrieval_spec decision_invariant_spec.
Import operational_log log_spec.
Context (rt : runtime) (v : vertex).

#[local] Instance only_sop_changes_preorder : PreOrder only_sop_changes.
Proof.
  split.
  - intros st k _ _ _. reflexivity.
  - intros a b c Hab Hbc k H1 H2 H3. rewrite (Hbc k H1 H2 H3). now apply Hab.
Qed.

Lemma retrieve_sop_frame : preserves only_sop_changes (retrieve_sop rt v).
Proof.
  unfold retrieve_sop, classification_agent.state_item.
  repeat first [ pres_step | (intros st; reflexivity) ].
  all: intros k H1 H2 H3; apply dict_lookup_set_other; assumption.
Qed.

(** X20.  The search of [rag_retrieval] fails only with the embedding: a
    failing vector search is turned into an empty result.  Whatever it
    returns, [num_results] is the number of entries of [sops], which are
    the neighbors of the first result list in the order of the search,
    each with its id. *)
Theorem retrieve_sops_counts_its_matches (exception_type driver_note : json)
    (num_results : Z) :
  let query := build_query rt exception_type driver_note in
  match get_embeddings v query with
  | Raise e =>
      retrieve_sops rt v exception_type driver_note num_results = Raise e
  | Ok emb =>
      exists sops,
        retrieve_sops rt v exception_type driver_note num_results
        = Ok [ ("exception_type", exception_type);
               ("query", JStr query);
               ("num_results", num (Z.of_nat (length sops)));
               ("sops", JArr sops) ]
        /\ sops = query_vector_search v emb num_results exception_type
        /\ match find_neighbors v emb (Some num_results)
                   (if truthy exception_type then Some exception_type else None)
           with
           | Raise _ => sops = []
           | Ok [] => sops = []
           | Ok (first :: _) =>
               map (fun d => dict_get "datapoint_id" JNull
                               match d with JObj o => o | _ => [] end) sops
               = map (fun n => JStr (id n)) first
           end
  end.
Proof.
  cbv zeta. unfold retrieve_sops, generate_query_embedding.
  destruct (get_embeddings v _) as [emb|e]; [|reflexivity].
  simpl rbind. eexists. split; [reflexivity|]. split; [reflexivity|].
  unfold query_vector_search.
  destruct (find_neighbors v emb _ _) as [[|first rest]|e]; try reflexivity.
  rewrite map_map. reflexivity.
Qed.

Lemma eq_zero_length {A} (l : list A) :
  eq_zero (num (Z.of_nat (length l))) = match l with [] => true | _ => false end.
Proof.
  destruct l as [|x l]; [reflexivity|].
  unfold eq_zero, num, Qeq_bool, inject_Z. simpl Qnum. simpl Qden.
  apply Z.eqb_neq. simpl length. lia.
Qed.

Lemma placeholder_nonempty pl i : placeholder rt pl i <> "".
Proof. unfold placeholder. simpl. discriminate. Qed.

(** What [retrieve_sop] leaves in a state that carries a label. *)
Lemma retrieve_sop_outcome st pl :
  dict_lookup "predicted_label" st = Some pl ->
  exists st' c m,
    retrieve_sop rt v st = (st', Ok st')
    /\ dict_lookup "sop_content" st' = Some (JStr c) /\ c <> ""
    /\ dict_lookup "sop_metadata" st' = Some (JObj m)
    /\ (m = []
        \/ exists i s, m = [ ("datapoint_id", i); ("score", s);
                             ("exception_type", pl) ]).
Proof.
  intros Hpl. unfold retrieve_sop.
  unfold classification_agent.state_item at 1. unfold bind at 1.
  rewrite (getitem_found _ _ _ Hpl). rewrite bind_gets.
  unfold try_except.
  assert (Herr : forall e s1,
            exists st' c m,
              (modify (dict_set "sop_content"
                         (JStr ("Error retrieving SOP: " ++ str_exn e))) ;;
               modify (dict_set "sop_metadata" (JObj [])) ;;
               gets (fun st => st)) s1 = (st', Ok st')
              /\ dict_lookup "sop_content" st' = Some (JStr c) /\ c <> ""
              /\ dict_lookup "sop_metadata" st' = Some (JObj m)
              /\ (m = []
                  \/ exists i s, m = [ ("datapoint_id", i); ("score", s);
                                       ("exception_type", pl) ])).
  { intros e s1. rewrite !bind_modify. unfold gets.
    eexists _, _, _. split; [reflexivity|].
    rewrite dict_lookup_set_other by discriminate.
    rewrite !dict_lookup_set_same.
    repeat split; [simpl; discriminate | auto]. }
  unfold retrieve_sops, generate_query_embedding.
  destruct (get_embeddings v _) as [emb|e];
    [|simpl rbind; rewrite bind_lift_raise; apply Herr].
  simpl rbind. rewrite bind_lift_ok.
  rewrite (getitem_found _ "num_results" (num (Z.of_nat
             (length (query_vector_search v emb 1 pl))))) by reflexivity.
  rewrite bind_lift_ok, eq_zero_length.
  unfold query_vector_search.
  destruct (find_neighbors v emb _ _) as [[|[|n0 ns] rest]|e]; cbn [map];
    cbv iota.
  1,2,4: rewrite !bind_modify; unfold gets;
         eexists _, _, _; (split; [reflexivity|]);
         rewrite dict_lookup_set_other by discriminate;
         rewrite !dict_lookup_set_same;
         repeat split; [discriminate | auto].
  cbv iota.
  match goal with
  | |- context [getitem (JObj ?d) "sops"] =>
      rewrite (getitem_found d "sops" (JArr (retrieved_doc v n0
                                              :: map (retrieved_doc v) ns)))
        by reflexivity
  end.
  rewrite bind_lift_ok. simpl getitem0. rewrite bind_lift_ok.
  unfold retrieved_doc.
  rewrite (getitem_found _ "datapoint_id" (JStr (id n0))) by reflexivity.
  rewrite bind_lift_ok.
  rewrite (getitem_found _ "score" (JFloat (one_minus v (distance n0))))
    by reflexivity.
  unfold get_sop_content.
  assert (Hfound : forall c, c <> "" ->
            exists st' c' m,
              (modify (dict_set "sop_content" (JStr c)) ;;
               modify (dict_set "sop_text" (JStr c)) ;;
               score <- lift (Ok (JFloat (one_minus v (distance n0)))) ;;
               modify (dict_set "sop_metadata"
                         (JObj [ ("datapoint_id", JStr (id n0));
                                 ("score", score);
                                 ("exception_type", pl) ])) ;;
               lift (format_f score) ;;
               gets (fun st => st)) st = (st', Ok st')
              /\ dict_lookup "sop_content" st' = Some (JStr c') /\ c' <> ""
              /\ dict_lookup "sop_metadata" st' = Some (JObj m)
              /\ (m = []
                  \/ exists i s, m = [ ("datapoint_id", i); ("score", s);
                                       ("exception_type", pl) ])).
  { intros c Hc. rewrite !bind_modify, bind_lift_ok, bind_modify.
    simpl format_f. rewrite bind_lift_ok. unfold gets.
    eexists _, c, _. split; [reflexivity|].
    rewrite !dict_lookup_set_same.
    rewrite !(dict_lookup_set_other "sop_metadata" "sop_content") by discriminate.
    rewrite !(dict_lookup_set_other "sop_text" "sop_content") by discriminate.
    rewrite dict_lookup_set_same. repeat split; eauto. }
  destruct (assoc (id n0) sop_file_map) as [sop_file|].
  - destruct (read_file v sop_file) as [[content|e]|].
    + rewrite bind_lift_ok. destruct (String.eqb content "") eqn:E.
      * apply Hfound. apply placeholder_nonempty.
      * apply Hfound. now apply String.eqb_neq.
    + rewrite bind_lift_raise. apply Herr.
    + rewrite bind_lift_ok. apply Hfound. apply placeholder_nonempty.
  - rewrite bind_lift_ok. apply Hfound. apply placeholder_nonempty.
Qed.

(** X21.  A vector search that fails is not reported as a failure: when the
    embedding succeeds and the search raises, the retrieval agent stores
    exactly what it stores for a search without matches, "No relevant SOP
    found." and an empty [sop_metadata], and returns. *)
Theorem failed_search_is_reported_as_no_sop (st : pydict) (pl : json)
    (emb : list Q) :
  dict_lookup "predicted_label" st = Some pl ->
  get_embeddings v (build_query rt pl (dict_get "driver_note" (JStr "") st))
  = Ok emb ->
  no_neighbors (find_neighbors v emb (Some 1)
                  (if truthy pl then Some pl else None)) ->
  retrieve_sop rt v st
  = (dict_set "sop_metadata" (JObj [])
       (dict_set "sop_content" (JStr "No relevant SOP found.") st),
     Ok (dict_set "sop_metadata" (JObj [])
           (dict_set "sop_content" (JStr "No relevant SOP found.") st))).
Proof.
  intros Hpl Hemb Hnone. unfold retrieve_sop.
  unfold classification_agent.state_item at 1. unfold bind at 1.
  rewrite (getitem_found _ _ _ Hpl). rewrite bind_gets.
  unfold try_except, retrieve_sops, generate_query_embedding.
  rewrite Hemb. simpl rbind. rewrite bind_lift_ok.
  rewrite (getitem_found _ "num_results" (num (Z.of_nat
             (length (query_vector_search v emb 1 pl))))) by reflexivity.
  rewrite bind_lift_ok, eq_zero_length.
  unfold query_vector_search.
  destruct (find_neighbors v emb _ _) as [[|[|n0 ns] rest]|e]; cbn [map];
    cbv iota; try reflexivity.
  contradiction Hnone.
Qed.

(** X22.  The retrieval agent fails only on a state without a label.  On every
    other state it returns, whatever the search, the embedding model or
    the file system do, and the state then holds a non-empty
    [sop_content] and an [sop_metadata] object that has no [id] key; no
    key other than [sop_content], [sop_text] and [sop_metadata] has
    changed. *)
Theorem retrieval_agent_always_answers (st : pydict) :
  (dict_mem "predicted_label" st = false ->
   retrieve_sop rt v st = (st, Raise (KeyError "predicted_label")))
  /\ (dict_mem "predicted_label" st = true ->
      exists st' c m,
        retrieve_sop rt v st = (st', Ok st')
        /\ dict_lookup "sop_content" st' = Some (JStr c) /\ c <> ""
        /\ dict_lookup "sop_metadata" st' = Some (JObj m)
        /\ dict_mem "id" m = false
        /\ only_sop_changes st st').
Proof.
  split.
  - intro H. unfold retrieve_sop. now apply state_item_missing.
  - intro H. unfold dict_mem in H.
    destruct (dict_lookup "predicted_label" st) as [pl|] eqn:Hpl; [|discriminate].
    destruct (retrieve_sop_outcome st pl Hpl)
      as (st' & c & m & Hrun & Hc & Hne & Hm & Hshape).
    exists st', c, m. repeat split; auto.
    + destruct Hshape as [-> | (i & s & ->)]; reflexivity.
    + pose proof (retrieve_sop_frame st) as Hf. now rewrite Hrun in Hf.
Qed.

(** X23.  After the retrieval agent, the log cannot tell a found SOP from a
    missing one: whatever the retrieval did (found an SOP, found none, or
    failed), and whatever the decision agent does next, the row built
    from the state says "Yes" under "SOP Retrieved" and leaves "SOP ID"
    empty, because [sop_content] is never empty and the id is stored
    under [datapoint_id], not [id]. *)
Theorem logged_sop_columns_after_retrieval (st st1 r : pydict)
    (invoke : pydict -> result string) (row : list json) :
  retrieve_sop rt v st = (st1, Ok r) ->
  google_sheets_agent._build_row_from_state rt
    (fst (decision_agent.make_decision rt invoke st1)) = Ok row ->
  cell "SOP Retrieved" row = Some (JStr "Yes")
  /\ cell "SOP ID" row = Some (JStr "").
Proof.
  intros Hrun Hrow.
  assert (Hpl : exists pl, dict_lookup "predicted_label" st = Some pl).
  { destruct (dict_lookup "predicted_label" st) as [pl|] eqn:E; [eauto|].
    exfalso. unfold retrieve_sop in Hrun.
    rewrite state_item_missing in Hrun by (unfold dict_mem; now rewrite E).
    discriminate Hrun. }
  destruct Hpl as [pl Hpl].
  destruct (retrieve_sop_outcome st pl Hpl)
    as (st' & c & m & Hrun' & Hc & Hne & Hm & Hshape).
  rewrite Hrun in Hrun'. injection Hrun' as <- _.
  pose proof (make_decision_frame rt invoke st1) as Hframe.
  set (st2 := fst (decision_agent.make_decision rt invoke st1)) in *.
  assert (Hc2 : dict_lookup "sop_content" st2 = Some (JStr c))
    by (rewrite Hframe by discriminate; exact Hc).
  assert (Hm2 : dict_lookup "sop_metadata" st2 = Some (JObj m))
    by (rewrite Hframe by discriminate; exact Hm).
  apply (build_row_from_state_shape rt) in Hrow
    as (d & _ & _ & _ & _ & Hsop & Hid).
  split.
  - rewrite Hsop. unfold dict_get. rewrite Hc2. cbn [truthy].
    apply String.eqb_neq in Hne. now rewrite Hne.
  - rewrite (Hid (JStr "")); [reflexivity|].
    unfold dict_get at 1. rewrite Hm2. rewrite get_dict.
    destruct Hshape as [-> | (i & s & ->)]; reflexivity.
Qed.

End RetrievalAgent.

Section RetrievalAgentExamples.
Import rag_retrieval sop_retrieval_agent retrieval_spec decision_invariant_spec.
Import operational_log log_spec retrieval_samples.

(** The index endpoint is down. *)
Lemma failed_search_is_reported_as_no_sop_witness :
  exists st',
    retrieve_sop executor_samples.rt search_down classified_delivery
    = (st', Ok st')
    /\ dict_lookup "sop_content" st' = Some (JStr "No relevant SOP found.")
    /\ dict_lookup "sop_metadata" st' = Some (JObj []).
Proof.
  eexists. split.
  - apply (failed_search_is_reported_as_no_sop executor_samples.rt search_down
             classified_delivery (JStr "Access Issue") [1 # 2; 1 # 3]);
      [reflexivity | reflexivity | exact I].
  - split; reflexivity.
Defined.

(** The index endpoint is down: the agent reports that no SOP was found,
    and the row still says "Yes". *)
Lemma logged_sop_columns_after_retrieval_witness :
  exists st1 row,
    retrieve_sop executor_samples.rt search_down classified_delivery
    = (st1, Ok st1)
    /\ dict_lookup "sop_content" st1 = Some (JStr "No relevant SOP found.")
    /\ google_sheets_agent._build_row_from_state executor_samples.rt
         (fst (decision_agent.make_decision executor_samples.rt
                 (fun _ => Raise (PyException "LLM unavailable")) st1))
       = Ok row
    /\ cell "SOP Retrieved" row = Some (JStr "Yes")
    /\ cell "SOP ID" row = Some (JStr "").
Proof.
  destruct (retrieve_sop executor_samples.rt search_down classified_delivery)
    as [st1 [r|e]] eqn:Hrun.
  - destruct (google_sheets_agent._build_row_from_state executor_samples.rt
                (fst (decision_agent.make_decision executor_samples.rt
                        (fun _ => Raise (PyException "LLM unavailable")) st1)))
      as [row|e] eqn:Hrow.
    + pose proof (logged_sop_columns_after_retrieval executor_samples.rt
                    search_down _ _ _ _ _ Hrun Hrow) as [H1 H2].
      vm_compute in Hrun. injection Hrun as <- <-.
      eexists _, row. repeat split; auto.
    + exfalso. vm_compute in Hrun. injection Hrun as <- <-.
      vm_compute in Hrow. discriminate Hrow.
  - vm_compute in Hrun. discriminate Hrun.
Defined.

End RetrievalAgentExamples.
(** ** The retrieval service *)

Section RetrievalService.
Import rag_retrieval sop_retrieval_api.

(** X24.  What the retrieval service answers.  It returns only when both
    clients exist; the response then echoes the exception type, carries
    the query built from the request, one entry per neighbor of the first
    result list in the order of the search, each with the SOP text loaded
    for its id if there is one, and [num_results] counts the entries.  It
    fails with 503 exactly when a client is missing, and otherwise with
    500 exactly when the embedding or the search raises: unlike the
    retrieval agent of the graph, the service does not turn a failing
    search into an empty result. *)
Theorem retrieval_service_outcomes (v : vertex) (svc : service)
    (data : SOPRetrievalRequest) :
  match retrieve_sops v svc data with
  | Ok r =>
      embedding_model svc = true /\ index_endpoint svc = true
      /\ r_exception_type r = exception_type data
      /\ query r = build_query data
      /\ status r = "success"
      /\ r_num_results r = Z.of_nat (length (sops r))
      /\ (forall s, In s (sops r) ->
            content s = assoc (datapoint_id s) (SOP_CONTENT svc))
      /\ exists emb results,
           get_embeddings v (build_query data) = Ok emb
           /\ find_neighbors v emb (num_results data) None = Ok results
           /\ map datapoint_id (sops r) = map id (hd [] results)
  | Raise e =>
      (exists detail, e = HTTPException 503 detail)
      /\ (embedding_model svc = false \/ index_endpoint svc = false)
      \/ embedding_model svc = true /\ index_endpoint svc = true
         /\ exists e0,
              e = HTTPException 500 ("Error during SOP retrieval: " ++ str_exn e0)
              /\ (get_embeddings v (build_query data) = Raise e0
                  \/ exists emb,
                       get_embeddings v (build_query data) = Ok emb
                       /\ find_neighbors v emb (num_results data) None = Raise e0)
  end.
Proof.
  unfold retrieve_sops, retrieve.
  destruct (embedding_model svc); [destruct (index_endpoint svc)|]; simpl orb;
    cbv iota; [ | left; split; eauto | left; split; eauto ].
  destruct (get_embeddings v (build_query data)) as [emb|e0] eqn:He; simpl rbind.
  - destruct (find_neighbors v emb (num_results data) None) as [results|e0] eqn:Hf;
      simpl rbind.
    + repeat split.
      * intros s Hs. destruct results as [|first rest]; [contradiction|].
        simpl in Hs. apply in_map_iff in Hs as (n & <- & _). reflexivity.
      * exists emb, results. split; [reflexivity|]. split; [exact Hf|].
        destruct results as [|first rest]; [reflexivity|].
        simpl. rewrite map_map. reflexivity.
    + right. repeat split. exists e0. split; [reflexivity|]. right. eauto.
  - right. repeat split. exists e0. split; [reflexivity|]. left. reflexivity.
Qed.

End RetrievalService.

(** ** The orchestrator and the answers of its own services *)

Section ServiceAnswers.
Import workflow_api workflow_spec orchestration_spec wire.
Context `{P : Pydantic} `{K : Clients}
  (urls : AgentUrls) (net : network) (data : WorkflowRequest).

(** X25.  The orchestrator can digest every answer of the retrieval service:
    when Agent 2 answers 200 with a serialised [SOPRetrievalResponse], the
    Retrieval block returns without raising; with no entry the SOP slots
    stay empty, otherwise they hold the content, score and id of the
    first entry, and these pass the validation of the workflow
    response. *)
Theorem orchestrator_digests_retrieval_answers
    (r : sop_retrieval_api.SOPRetrievalResponse) (d1 : pydict) (pl : json)
    (f : frame) :
  dict_lookup "predicted_label" d1 = Some pl ->
  ok_with (agent2_outcome urls net data pl) (SOPRetrievalResponse_json r) ->
  exists f2,
    call_agent2 urls net data (JObj d1) f = (f2, Ok tt)
    /\ agents_executed f2 = (agents_executed f ++ ["agent2_sop_retrieval"])%list
    /\ match sop_retrieval_api.sops r with
       | [] =>
           sop_retrieved f2 = false /\ sop_content f2 = JNull
           /\ sop_score f2 = JNull /\ sop_id f2 = JNull
       | s :: _ =>
           sop_retrieved f2 = true
           /\ v_optional v_str (sop_content f2)
              = Some (sop_retrieval_api.content s)
           /\ v_optional v_float (sop_score f2)
              = Some (Some (sop_retrieval_api.score s))
           /\ v_optional v_str (sop_id f2)
              = Some (Some (sop_retrieval_api.datapoint_id s))
       end.
Proof.
  intros Hpl (resp & Hnet & Hs & Hb).
  destruct (sop_retrieval_api.sops r) as [|s rest] eqn:Hsops.
  - eexists. split.
    + apply (call_agent2_zero urls net data d1 pl f Hpl).
      unfold SOPRetrievalResponse_json in Hb. rewrite Hsops in Hb.
      exists resp. eexists. split; [exact Hnet|]. split; [exact Hs|].
      split; [exact Hb | reflexivity].
    + simpl. repeat split.
  - eexists. split.
    + apply (call_agent2_found urls net data d1 pl
               [ ("datapoint_id", JStr (sop_retrieval_api.datapoint_id s));
                 ("score", JFloat (sop_retrieval_api.score s));
                 ("content", match sop_retrieval_api.content s with
                             | Some c => JStr c
                             | None => JNull
                             end) ] f Hpl); [|reflexivity].
      unfold SOPRetrievalResponse_json in Hb. rewrite Hsops in Hb.
      eexists _, _. split.
      * exists resp. split; [exact Hnet|]. split; [exact Hs | exact Hb].
      * reflexivity.
    + simpl. split; [reflexivity|]. split; [reflexivity|].
      unfold dict_get. simpl.
      rewrite v_float_exact, v_str_exact.
      destruct (sop_retrieval_api.content s) as [c|]; simpl;
        [rewrite v_str_exact|]; repeat split.
Qed.

(** X26.  The orchestrator stores what the decision service and the executor
    service answer, field by field: a serialised [DecisionResponse]
    becomes a [decision] with the same six values, and the decision
    object is kept for Agent 4 as it came; a serialised [ActionResponse]
    becomes an [action] with the same flags and timestamp. *)
Theorem orchestrator_keeps_service_answers (d1 : pydict) (pl c : json) (f : frame) :
  dict_lookup "predicted_label" d1 = Some pl ->
  dict_lookup "confidence" d1 = Some c ->
  (forall r : decision_api.DecisionResponse,
     ok_with (answer net (agent3_call urls data d1 pl c f))
       (DecisionResponse_json r) ->
     let f3 := fst (call_agent3 urls net data (JObj d1) f) in
     decision f3
     = Some {| recommended_action :=
                 decision_api.recommended_action (decision_api.decision r);
               driver_instruction :=
                 decision_api.driver_instruction (decision_api.decision r);
               customer_message :=
                 decision_api.customer_message (decision_api.decision r);
               requires_escalation :=
                 decision_api.requires_escalation (decision_api.decision r);
               confidence := decision_api.d_confidence (decision_api.decision r);
               reasoning_summary :=
                 decision_api.reasoning_summary (decision_api.decision r) |}
     /\ decision_dict f3 = DecisionOutput_json (decision_api.decision r))
  /\ (forall r : action_executor_api.ActionResponse,
        ok_with (answer net (agent4_call urls data d1 pl c f))
          (ActionResponse_json r) ->
        action (fst (call_agent4 urls net data (JObj d1) f))
        = Some {| sheet_updated := action_executor_api.sheet_updated r;
                  email_simulated := action_executor_api.email_simulated r;
                  escalated := action_executor_api.escalated r;
                  timestamp := action_executor_api.timestamp r |}).
Proof.
  intros H1 H2. split.
  - intros r (resp & Hnet & Hs & Hb). cbv zeta.
    unfold answer, attempt, agent3_call in Hnet; cbn [url payload] in Hnet.
    destruct (httpx_encodes _) eqn:Henc in Hnet; [|discriminate].
    remember (call_agent3 urls net data (JObj d1) f) as run eqn:Hrun.
    unfold call_agent3 in Hrun.
    repeat first
      [ rewrite bind_modify in Hrun | rewrite bind_gets in Hrun
      | rewrite (getitem_found _ _ _ H1) in Hrun
      | rewrite (getitem_found _ _ _ H2) in Hrun
      | rewrite get_dict in Hrun | rewrite bind_lift_ok in Hrun ].
    unfold try_except, bind at 1, post in Hrun.
    change (sop_content (set_decision_dict JNull (set_decision None f)))
      with (sop_content f) in Hrun.
    rewrite Henc, Hnet, Hs in Hrun. change (200 =? 200) with true in Hrun.
    cbv iota in Hrun. unfold json_of in Hrun. rewrite Hb in Hrun.
    cbv iota in Hrun. unfold DecisionResponse_json in Hrun.
    rewrite bind_lift_ok, bind_modify in Hrun.
    rewrite get_dict, bind_lift_ok in Hrun.
    change (dict_get "decision" (JObj []) _)
      with (DecisionOutput_json (decision_api.decision r)) in Hrun.
    rewrite bind_modify in Hrun. unfold DecisionOutput_json in Hrun.
    rewrite !get_dict, !bind_lift_ok in Hrun.
    unfold DecisionOutput_init in Hrun. cbn in Hrun.
    rewrite !v_str_exact, v_bool_exact, v_float_exact in Hrun.
    subst run. split; reflexivity.
  - intros r (resp & Hnet & Hs & Hb).
    unfold answer, attempt, agent4_call in Hnet; cbn [url payload] in Hnet.
    destruct (httpx_encodes _) eqn:Henc in Hnet; [|discriminate].
    remember (call_agent4 urls net data (JObj d1) f) as run eqn:Hrun.
    unfold call_agent4 in Hrun.
    repeat first
      [ rewrite bind_modify in Hrun | rewrite bind_gets in Hrun
      | rewrite (getitem_found _ _ _ H1) in Hrun
      | rewrite (getitem_found _ _ _ H2) in Hrun
      | rewrite get_dict in Hrun | rewrite bind_lift_ok in Hrun ].
    unfold try_except, bind at 1, post in Hrun.
    change (sop_retrieved (set_action None f)) with (sop_retrieved f) in Hrun.
    change (sop_id (set_action None f)) with (sop_id f) in Hrun.
    change (decision_dict (set_action None f)) with (decision_dict f) in Hrun.
    rewrite Henc, Hnet, Hs in Hrun. change (200 =? 200) with true in Hrun.
    cbv iota in Hrun. unfold json_of in Hrun. rewrite Hb in Hrun.
    cbv iota in Hrun. unfold ActionResponse_json in Hrun.
    rewrite bind_lift_ok, bind_modify in Hrun.
    rewrite !get_dict, !bind_lift_ok in Hrun.
    unfold ActionOutput_init in Hrun. cbn in Hrun.
    rewrite !v_bool_exact, v_str_exact in Hrun.
    subst run. reflexivity.
Qed.

End ServiceAnswers.

Section ServiceAnswerExamples.
Import workflow_api workflow_spec orchestration_spec wire.
Import samples retrieval_samples service_samples.

(** The retrieval service finds the access SOP and the orchestrator takes
    it over. *)
Lemma orchestrator_digests_retrieval_answers_witness :
  exists r f2,
    sop_retrieval_api.retrieve_sops finds_access_sop retrieval_up
      retrieval_request = Ok r
    /\ call_agent2 urls
         (scripted (ok access_issue) (ok (SOPRetrievalResponse_json r))
            unreachable unreachable)
         gate_locked access_issue frame0 = (f2, Ok tt)
    /\ sop_retrieved f2 = true
    /\ v_optional v_str (sop_id f2) = Some (Some "sop_access_issue")
    /\ v_optional v_str (sop_content f2) = Some (Some "Request the gate code.").
Proof.
  destruct (sop_retrieval_api.retrieve_sops finds_access_sop retrieval_up
              retrieval_request) as [r|e] eqn:Hr.
  - vm_compute in Hr. injection Hr as <-.
    match goal with
    | |- exists r f2, Ok ?r0 = Ok r /\ _ =>
        destruct (orchestrator_digests_retrieval_answers urls
                    (scripted (ok access_issue) (ok (SOPRetrievalResponse_json r0))
                       unreachable unreachable)
                    gate_locked r0
                    [ ("predicted_label", JStr "Access Issue");
                      ("confidence", JFloat (9 # 10));
                      ("top_predictions",
                        JArr [ JObj [("label", JStr "Access Issue");
                                     ("confidence", JFloat (9 # 10))];
                               JObj [("label", JStr "Customer Not Home");
                                     ("confidence", JFloat (1 # 10))] ]) ]
                    (JStr "Access Issue") frame0 eq_refl)
          as (f2 & Hrun & _ & Hsr & Hsc & _ & Hsi);
        [ eexists; repeat split; reflexivity
        | exists r0, f2; repeat split; assumption ]
    end.
  - vm_compute in Hr. discriminate Hr.
Defined.

(** An escalating decision and its logged action. *)
Lemma orchestrator_keeps_service_answers_witness :
  (exists o,
     decision
       (fst (call_agent3 urls
               (scripted (ok access_issue) (ok no_sops)
                  (ok (DecisionResponse_json hold_decision))
                  (ok (ActionResponse_json logged_action)))
               gate_locked access_issue frame0)) = Some o
     /\ requires_escalation o = true
     /\ recommended_action o = "Hold the package")
  /\ (exists a,
        action
          (fst (call_agent4 urls
                  (scripted (ok access_issue) (ok no_sops)
                     (ok (DecisionResponse_json hold_decision))
                     (ok (ActionResponse_json logged_action)))
                  gate_locked access_issue frame0)) = Some a
        /\ sheet_updated a = true /\ escalated a = true).
Proof.
  destruct (orchestrator_keeps_service_answers urls
              (scripted (ok access_issue) (ok no_sops)
                 (ok (DecisionResponse_json hold_decision))
                 (ok (ActionResponse_json logged_action)))
              gate_locked
              [ ("predicted_label", JStr "Access Issue");
                ("confidence", JFloat (9 # 10));
                ("top_predictions",
                  JArr [ JObj [("label", JStr "Access Issue");
                               ("confidence", JFloat (9 # 10))];
                         JObj [("label", JStr "Customer Not Home");
                               ("confidence", JFloat (1 # 10))] ]) ]
              (JStr "Access Issue") (JFloat (9 # 10)) frame0 eq_refl eq_refl)
    as [H3 H4].
  split.
  - destruct (H3 hold_decision) as [Hd _];
      [eexists; repeat split; reflexivity|].
    eexists. split; [exact Hd|]. split; reflexivity.
  - eexists. split.
    + apply (H4 logged_action). eexists; repeat split; reflexivity.
    + split; reflexivity.
Defined.

End ServiceAnswerExamples.
(** ** The classifier: ranking of the predictions *)

Section Ranking.
Import inference_pipeline.
Context `{NP : NumPy}.

Lemma sorted_skipn {A} (R : A -> A -> Prop) (l : list A) : forall n,
  StronglySorted R l -> StronglySorted R (skipn n l).
Proof.
  induction l as [|a l IH]; intros [|n] H; simpl; auto.
  apply IH. now inversion H.
Qed.

Lemma sorted_app {A} (R : A -> A -> Prop) (l1 l2 : list A) :
  StronglySorted R l1 -> StronglySorted R l2 ->
  (forall a b, In a l1 -> In b l2 -> R a b) ->
  StronglySorted R (l1 ++ l2).
Proof.
  induction l1 as [|x l1 IH]; intros H1 H2 H; simpl; [exact H2|].
  inversion H1 as [|? ? Hs Hf]; subst. constructor.
  - apply IH; auto. intros a b Ha Hb. apply H; simpl; auto.
  - apply Forall_app. split; [exact Hf|].
    apply Forall_forall. intros b Hb. apply H; simpl; auto.
Qed.

Lemma sorted_rev {A} (R : A -> A -> Prop) (l : list A) :
  StronglySorted R l -> StronglySorted (fun a b => R b a) (rev l).
Proof.
  induction 1 as [|a l Hs IH Hf]; simpl; [constructor|].
  apply sorted_app; [exact IH | repeat constructor |].
  intros x b Hx [<-|[]]. rewrite Forall_forall in Hf.
  apply Hf. now apply in_rev.
Qed.

Lemma sorted_map {A B} (R : B -> B -> Prop) (g : A -> B) (l : list A) :
  StronglySorted (fun a b => R (g a) (g b)) l -> StronglySorted R (map g l).
Proof.
  induction 1 as [|a l Hs IH Hf]; simpl; constructor; auto.
  apply Forall_map. exact Hf.
Qed.

Lemma nodup_skipn {A} (l : list A) n : NoDup l -> NoDup (skipn n l).
Proof.
  intro H. rewrite <- (firstn_skipn n l) in H.
  now apply NoDup_app_remove_l in H.
Qed.

Lemma in_skipn {A} (l : list A) n x : In x (skipn n l) -> In x l.
Proof.
  intro H. rewrite <- (firstn_skipn n l). apply in_or_app. now right.
Qed.

Lemma slice_from_skipn {A} (start : Z) (a : list A) :
  exists n, slice_from start a = skipn n a
            /\ (start < 0 ->
                length (skipn n a)
                = Nat.min (Z.to_nat (- start)) (length a)).
Proof.
  unfold slice_from. destruct (start <? 0) eqn:E.
  - eexists. split; [reflexivity|]. intros _. rewrite length_skipn.
    apply Z.ltb_lt in E. lia.
  - eexists. split; [reflexivity|]. apply Z.ltb_ge in E. lia.
Qed.

Lemma argsort_in (p : list Q) (i : nat) :
  In i (argsort p) <-> (i < length p)%nat.
Proof.
  split; intro H.
  - apply (Permutation_in _ (argsort_perm p)) in H. apply in_seq in H. lia.
  - apply (Permutation_in _ (Permutation_sym (argsort_perm p))).
    apply in_seq. lia.
Qed.

Lemma argsort_nodup (p : list Q) : NoDup (argsort p).
Proof.
  apply (Permutation_NoDup (Permutation_sym (argsort_perm p))). apply seq_NoDup.
Qed.

(** What the loop returns: one entry per index, in order, with the class
    and the probability at that index. *)
Lemma build_results_ok self p : forall idxs res,
  build_results self p idxs = Ok res ->
  map snd res = map (fun i => nth i p 0%Q) idxs
  /\ Forall2 (fun i lc => nth_error (classes self) i = Some (fst lc)) idxs res.
Proof.
  induction idxs as [|i idxs IH]; simpl; intros res H.
  - injection H as <-. split; [reflexivity | constructor].
  - unfold inverse_transform in H.
    destruct (nth_error (classes self) i) as [c|] eqn:Hc; [|discriminate].
    simpl in H.
    destruct (build_results self p idxs) as [rest|e]; [|discriminate].
    simpl in H. injection H as <-. destruct (IH rest eq_refl) as [Hs Hf].
    split; [simpl; now rewrite Hs | constructor; auto].
Qed.

(** Each entry of the loop's result holds the class and the probability
    found at its index. *)
Lemma build_results_pairs self p : forall idxs res,
  build_results self p idxs = Ok res ->
  (forall i, In i idxs -> (i < length p)%nat) ->
  Forall2 (fun i lc => nth_error (classes self) i = Some (fst lc)
                       /\ nth_error p i = Some (snd lc)) idxs res.
Proof.
  induction idxs as [|i idxs IH]; simpl; intros res H Hin.
  - injection H as <-. constructor.
  - unfold inverse_transform in H.
    destruct (nth_error (classes self) i) as [c|] eqn:Hc; [|discriminate].
    simpl in H.
    destruct (build_results self p idxs) as [rest|e]; [|discriminate].
    simpl in H. injection H as <-. constructor.
    + split; [exact Hc|]. simpl. apply nth_error_nth'. apply Hin. now left.
    + apply IH; [reflexivity|]. intros j Hj. apply Hin. now right.
Qed.

(** A returning [predict] decomposed. *)
Lemma predict_returns self x k r :
  predict self x (Some k) = Ok r ->
  exists p,
    forward self x = Ok p /\ p <> []
    /\ build_results self p (rev (slice_from (- k) (argsort p)))
       = Ok (top_predictions r)
    /\ confidence r = nth (argmax p) p 0%Q
    /\ nth_error (classes self) (argmax p) = Some (predicted_label r).
Proof.
  unfold predict. destruct (forward self x) as [p|e]; [|discriminate].
  simpl rbind.
  destruct (build_results self p _) as [tops|e] eqn:Hb; [|discriminate].
  simpl rbind. destruct p as [|q p]; [discriminate|].
  unfold inverse_transform.
  destruct (nth_error (classes self) _) as [c|] eqn:Hc; [|discriminate].
  simpl rbind. intros [= <-]. exists (q :: p). simpl.
  repeat split; auto. discriminate.
Qed.

(** X27.  The top predictions are ranked: whenever [predict] returns, the
    confidences of [top_predictions] never increase along the list; each
    entry pairs a class of the label encoder with the probability the
    model gave it, that is, the entries are the class and the probability
    found at one index each, and no index is used twice (so no label
    repeats when the classes are distinct); and for [top_k] of at least
    one the list has [top_k] entries, or one per class when there are
    fewer classes. *)
Theorem top_predictions_are_ranked (self : ExceptionClassifier) (x : features)
    (k : Z) (r : prediction) :
  predict self x (Some k) = Ok r ->
  StronglySorted (fun a b => (snd b <= snd a)%Q) (top_predictions r)
  /\ (exists p idxs,
        forward self x = Ok p /\ NoDup idxs
        /\ Forall2 (fun i lc => nth_error (classes self) i = Some (fst lc)
                                /\ nth_error p i = Some (snd lc))
             idxs (top_predictions r))
  /\ (NoDup (classes self) -> NoDup (map fst (top_predictions r)))
  /\ (forall l c, In (l, c) (top_predictions r) -> In l (classes self))
  /\ (1 <= k ->
      exists p, forward self x = Ok p
                /\ length (top_predictions r) = Nat.min (Z.to_nat k) (length p)).
Proof.
  intros Hrun.
  apply predict_returns in Hrun as (p & Hp & Hne & Hb & _ & _).
  destruct (slice_from_skipn (- k) (argsort p)) as (n & Hslice & Hlen).
  rewrite Hslice in Hb.
  pose proof (build_results_pairs _ _ _ _ Hb) as Hpairs.
  apply build_results_ok in Hb as [Hsnd Hcls].
  assert (Hsorted : StronglySorted (fun i j => (nth j p 0 <= nth i p 0)%Q)
                      (rev (skipn n (argsort p)))).
  { apply (sorted_rev (fun i j => (nth i p 0 <= nth j p 0)%Q)).
    apply sorted_skipn. apply argsort_sorted. }
  assert (Hnodup : NoDup (rev (skipn n (argsort p)))).
  { apply NoDup_rev. apply nodup_skipn. apply argsort_nodup. }
  split; [|split; [|split; [|split]]].
  2:{ exists p, (rev (skipn n (argsort p))).
      split; [exact Hp|]. split; [exact Hnodup|].
      apply Hpairs. intros i Hi. apply argsort_in.
      apply in_rev in Hi. now apply in_skipn in Hi. }
  - revert Hsnd Hsorted. generalize (rev (skipn n (argsort p))) as idxs.
    generalize (top_predictions r) as res. clear.
    induction res as [|[l c] res IH]; intros [|i idxs] Hsnd Hs;
      try discriminate; [constructor|].
    simpl in Hsnd. injection Hsnd as Hc Hsnd.
    inversion Hs as [|? ? Hs' Hf]; subst. constructor; [now apply (IH idxs)|].
    apply Forall_forall. intros [l' c'] Hin. simpl.
    apply (in_map snd) in Hin. rewrite Hsnd in Hin. simpl in Hin.
    apply in_map_iff in Hin as (j & <- & Hj).
    rewrite Forall_forall in Hf. now apply Hf.
  - intro Hcl. revert Hcls Hnodup.
    generalize (rev (skipn n (argsort p))) as idxs.
    generalize (top_predictions r) as res. clear - Hcl.
    induction res as [|[l c] res IH]; intros idxs Hf Hnd; [constructor|].
    inversion Hf as [|i ? idxs' ? Hi Hf']; subst. simpl in Hi.
    inversion Hnd as [|? ? Hnotin Hnd']; subst. simpl. constructor.
    + intro Hin. apply in_map_iff in Hin as ([l' c'] & Hl & Hin). simpl in Hl.
      subst l'. apply Hnotin.
      clear - Hf' Hin Hi Hcl. induction Hf' as [|j lc idxs' res Hj Hf' IH'].
      * contradiction.
      * destruct Hin as [->|Hin]; [|right; now apply IH'].
        left. simpl in Hj.
        assert (Hlt : (j < length (classes self))%nat)
          by (apply nth_error_Some; congruence).
        apply (proj1 (NoDup_nth_error (classes self)) Hcl j i Hlt). congruence.
    + now apply (IH idxs').
  - intros l c Hin. revert Hcls Hin.
    generalize (rev (skipn n (argsort p))) as idxs.
    generalize (top_predictions r) as res. intros res idxs.
    induction 1 as [|i lc idxs res Hi Hf IH]; intros Hin; [contradiction|].
    destruct Hin as [->|Hin]; [|now apply IH].
    simpl in Hi. eapply nth_error_In. exact Hi.
  - intro Hk. exists p. split; [exact Hp|].
    apply (f_equal (@length _)) in Hsnd. rewrite !length_map in Hsnd.
    rewrite Hsnd, length_rev, Hlen by lia.
    rewrite (Permutation_length (argsort_perm p)), length_seq.
    replace (- - k) with k by lia. reflexivity.
Qed.

Lemma sorted_last (R : nat -> nat -> Prop) (l : list nat) :
  StronglySorted R l ->
  forall x, In x l -> x = last l 0%nat \/ R x (last l 0%nat).
Proof.
  induction 1 as [|a l Hs IH Hf]; intros x Hin; [contradiction|].
  destruct l as [|b l].
  - destruct Hin as [<-|[]]. now left.
  - change (last (a :: b :: l) 0%nat) with (last (b :: l) 0%nat).
    destruct Hin as [<-|Hin]; [|now apply IH].
    right. rewrite Forall_forall in Hf. apply Hf.
    destruct (exists_last (l := b :: l)) as (l' & y & Hy); [discriminate|].
    rewrite Hy, last_last. apply in_or_app. right. simpl. auto.
Qed.

Lemma hd_rev_skipn (l : list nat) n :
  skipn n l <> [] -> hd 0%nat (rev (skipn n l)) = last l 0%nat.
Proof.
  intro Hne.
  destruct (exists_last Hne) as (l' & y & Hy).
  rewrite Hy, rev_app_distr. simpl.
  rewrite <- (firstn_skipn n l), Hy, app_assoc. now rewrite last_last.
Qed.

(** X28.  The reported confidence is the confidence of the first top
    prediction, and no top prediction has more: whenever [predict]
    returns for a [top_k] of at least one, [top_predictions] is not
    empty, the confidence of its first entry equals [confidence], and
    every entry's confidence is at most [confidence]. *)
Theorem confidence_is_the_top_confidence (self : ExceptionClassifier)
    (x : features) (k : Z) (r : prediction) :
  1 <= k ->
  predict self x (Some k) = Ok r ->
  exists l c rest,
    top_predictions r = (l, c) :: rest
    /\ (c == confidence r)%Q
    /\ (forall l' c', In (l', c') (top_predictions r) -> (c' <= confidence r)%Q)
    /\ In (predicted_label r) (classes self).
Proof.
  intros Hk Hrun.
  apply predict_returns in Hrun as (p & Hp & Hne & Hb & Hconf & Hlabel).
  destruct (slice_from_skipn (- k) (argsort p)) as (n & Hslice & Hlen).
  rewrite Hslice in Hb. specialize (Hlen ltac:(lia)).
  apply build_results_ok in Hb as [Hsnd Hcls].
  assert (Hpos : (0 < length p)%nat) by (destruct p; [congruence | simpl; lia]).
  assert (Hskip : skipn n (argsort p) <> []).
  { intro E. rewrite E in Hlen. simpl in Hlen.
    rewrite (Permutation_length (argsort_perm p)), length_seq in Hlen. lia. }
  pose proof (hd_rev_skipn _ _ Hskip) as Hhd.
  assert (Hmax : forall i, (i < length p)%nat ->
                   (nth i p 0 <= nth (last (argsort p) 0%nat) p 0)%Q).
  { intros i Hi. apply argsort_in in Hi.
    destruct (sorted_last _ _ (argsort_sorted p) i Hi) as [->|H];
      [apply Qle_refl | exact H]. }
  assert (Hlast : (last (argsort p) 0%nat < length p)%nat).
  { apply argsort_in.
    destruct (exists_last (l := argsort p)) as (l' & y & Hy).
    - intro E. rewrite E in Hskip. now destruct n.
    - rewrite Hy, last_last. apply in_or_app. right. simpl. auto. }
  destruct (rev (skipn n (argsort p))) as [|i idxs] eqn:Hidx.
  { exfalso. apply Hskip. apply (f_equal (@rev _)) in Hidx.
    now rewrite rev_involutive in Hidx. }
  simpl in Hhd. subst i.
  destruct (top_predictions r) as [|[l c] rest] eqn:Htop; [discriminate|].
  simpl in Hsnd. injection Hsnd as Hc Hrest.
  exists l, c, rest. split; [reflexivity|]. rewrite Hconf.
  assert (Hbest : (nth (last (argsort p) 0%nat) p 0 == nth (argmax p) p 0)%Q).
  { apply Qle_antisym.
    - now apply argmax_max.
    - apply Hmax. apply argmax_bound. exact Hne. }
  split; [|split].
  - rewrite Hc. exact Hbest.
  - intros l' c' Hin.
    assert (Hc' : In c' (map snd ((l, c) :: rest))) by (now apply (in_map snd) in Hin).
    simpl in Hc'. rewrite Hrest in Hc'. rewrite Hc in Hc'.
    change (In c' (map (fun i => nth i p 0%Q) (last (argsort p) 0%nat :: idxs))) in Hc'.
    apply in_map_iff in Hc' as (j & <- & Hj).
    apply argmax_max. apply argsort_in.
    apply in_skipn with (n := n). apply in_rev. rewrite Hidx. exact Hj.
  - eapply nth_error_In. exact Hlabel.
Qed.


(** The service in front of the classifier. *)
Import api prediction_spec.

Lemma predict_body_invalid (classifier : option ExceptionClassifier)
    (data : ExceptionRequest) :
  valid_categories (input data) = false ->
  exists detail,
    predict_body classifier data = Raise (HTTPException 400 detail).
Proof.
  unfold valid_categories, predict_body. intro H.
  destruct (str_in (weather_condition (input data)) valid_weather);
    [|simpl; eauto].
  destruct (str_in (package_scan_result (input data)) valid_scan);
    [|simpl; eauto].
  destruct (str_in (time_of_day (input data)) valid_time);
    [discriminate | simpl; eauto].
Qed.

Lemma predict_body_valid (classifier : option ExceptionClassifier)
    (data : ExceptionRequest) :
  valid_categories (input data) = true ->
  predict_body classifier data
  = rbind (run_inference classifier (input data) (top_k data)) (fun result =>
    Ok {| r_predicted_label := predicted_label result;
          r_confidence := confidence result;
          r_top_predictions :=
            map (fun pred => {| label := fst pred; p_confidence := snd pred |})
              (top_predictions result) |}).
Proof.
  unfold valid_categories, predict_body. intro H.
  apply andb_prop in H as [H Ht]. apply andb_prop in H as [Hw Hs].
  now rewrite Hw, Hs, Ht.
Qed.

(** X29.  The outcomes of [predict_exception].  A request with a weather
    condition, scan result or time of day outside its list is answered
    400 whatever the classifier is, even when none is loaded; with valid
    categories and no classifier loaded the answer is the 500 that quotes
    the [RuntimeError]; a response that is returned comes from a request
    with valid categories and a [top_k], and carries the label, the
    confidence and the top predictions of [predict] unchanged; and every
    exception that leaves the handler is an [HTTPException]. *)
Theorem prediction_service_outcomes (classifier : option ExceptionClassifier)
    (data : ExceptionRequest) :
  (valid_categories (input data) = false ->
   exists detail,
     predict_exception classifier data = Raise (HTTPException 400 detail)
     /\ predict_exception None data = Raise (HTTPException 400 detail))
  /\ (valid_categories (input data) = true -> classifier = None ->
      predict_exception classifier data
      = Raise (HTTPException 500
          "Error during prediction: Classifier not initialized. Call initialize_classifier() first."))
  /\ (forall resp, predict_exception classifier data = Ok resp ->
      valid_categories (input data) = true
      /\ exists c k r,
           classifier = Some c /\ top_k data = Some k
           /\ predict c (input data) (Some k) = Ok r /\ carries resp r)
  /\ (forall e, predict_exception classifier data = Raise e ->
      exists code detail, e = HTTPException code detail).
Proof.
  split; [|split; [|split]].
  - intro Hv.
    destruct (predict_body_invalid classifier data Hv) as [detail Hd].
    destruct (predict_body_invalid None data Hv) as [detail' Hd'].
    exists detail. unfold predict_exception. rewrite Hd, Hd'.
    split; [reflexivity|].
    assert (E : predict_body None data = predict_body classifier data).
    { unfold valid_categories in Hv. unfold predict_body.
      destruct (str_in (weather_condition (input data)) valid_weather);
        [|reflexivity].
      destruct (str_in (package_scan_result (input data)) valid_scan);
        [|reflexivity].
      destruct (str_in (time_of_day (input data)) valid_time);
        [discriminate | reflexivity]. }
    rewrite Hd, Hd' in E. now injection E as ->.
  - intros Hv ->. unfold predict_exception.
    now rewrite (predict_body_valid None data Hv).
  - intros resp Hrun. unfold predict_exception in Hrun.
    destruct (valid_categories (input data)) eqn:Hv.
    + split; [reflexivity|].
      rewrite (predict_body_valid classifier data Hv) in Hrun.
      destruct classifier as [c|]; [|discriminate].
      unfold run_inference in Hrun.
      destruct (top_k data) as [k|] eqn:Hk.
      * destruct (predict c (input data) (Some k)) as [r|e] eqn:Hp.
        -- exists c, k, r. simpl in Hrun. injection Hrun as <-.
           repeat split; auto. simpl. rewrite map_map. simpl.
           rewrite <- (map_id (top_predictions r)) at 2.
           apply map_ext. now intros [l q].
        -- simpl in Hrun. destruct e; discriminate.
      * unfold predict in Hrun.
        destruct (forward c (input data)) as [p|e]; simpl in Hrun;
          [discriminate | destruct e; discriminate].
    + destruct (predict_body_invalid classifier data Hv) as [detail Hd].
      rewrite Hd in Hrun. discriminate.
  - intros e Hrun. unfold predict_exception in Hrun.
    destruct (predict_body classifier data) as [r|e']; [discriminate|].
    destruct e'; injection Hrun as <-; eauto.
Qed.

End Ranking.

Section RankingExamples.
Import inference_pipeline api prediction_spec prediction_samples reference_numpy.

Lemma top_predictions_are_ranked_witness :
  exists r,
    predict three_classes locked_gate (Some 2) = Ok r
    /\ map fst (top_predictions r) = ["Access Issue"; "Address Issue"]
    /\ StronglySorted (fun a b => (snd b <= snd a)%Q) (top_predictions r)
    /\ NoDup (map fst (top_predictions r)).
Proof.
  destruct (predict three_classes locked_gate (Some 2)) as [r|e] eqn:Hrun;
    [|vm_compute in Hrun; discriminate].
  destruct (top_predictions_are_ranked three_classes locked_gate 2 r Hrun)
    as (Hs & _ & Hn & _).
  exists r. split; [reflexivity|].
  split; [vm_compute in Hrun; now injection Hrun as <-|].
  split; [exact Hs|]. apply Hn.
  repeat constructor; simpl; intuition discriminate.
Defined.

Lemma confidence_is_the_top_confidence_witness :
  exists r l c rest,
    predict three_classes locked_gate (Some 2) = Ok r
    /\ top_predictions r = (l, c) :: rest
    /\ (c == confidence r)%Q.
Proof.
  destruct (predict three_classes locked_gate (Some 2)) as [r|e] eqn:Hrun;
    [|vm_compute in Hrun; discriminate].
  destruct (confidence_is_the_top_confidence three_classes locked_gate 2 r
              ltac:(lia) Hrun) as (l & c & rest & Ht & Hc & _).
  exists r, l, c, rest. auto.
Defined.

End RankingExamples.
